(** * retail-t2data: the chat backend, its response cache and the startup
      prompt builder

    A shallow embedding of [backend/app.py] and [data_agent/instructions.py]
    and the properties their specification states about them.

    Conventions.
    - A Python [str] is represented by the bytes of its UTF-8 encoding, as a
      [string].  The only character-level operation of the code is the
      regular expression [[\x00-\x1f\x7f]]; the code points it matches are
      single bytes in UTF-8 and never occur inside a multi-byte sequence, so
      substituting on bytes and on code points agree.
    - An exception is represented by the text [str(e)] gives for it.
    - Code that mutates local variables and may raise is written in a state
      and exception monad; the state survives a raise, as Python locals do. *)

From Stdlib Require Import ZArith QArith String Ascii List Lia DecimalString.
From stdpp Require Import base option gmap strings list.

Set Warnings "-register-all".

Local Open Scope string_scope.
Local Open Scope list_scope.

(** ** Python values *)

(** The line feed, written [\n] in the source. *)
Definition nl : string := String (ascii_of_nat 10) EmptyString.

(** The values a JSON request field can hold.  [PyObj text] stands for any
    other object (a list, a dict, a float), carrying the text [str()] gives
    for it. *)
Inductive PyVal :=
| PyNone
| PyStr (s : string)
| PyBool (b : bool)
| PyInt (z : Z)
| PyObj (text : string).

(** [str(value)]. *)
Definition py_str (value : PyVal) : string :=
  match value with
  | PyNone => "None"
  | PyStr s => s
  | PyBool true => "True"
  | PyBool false => "False"
  | PyInt z => NilZero.string_of_int (Z.to_int z)
  | PyObj text => text
  end.

(** Truth value of a [str]: the empty string is false. *)
Definition truthy (s : string) : bool :=
  match s with
  | EmptyString => false
  | String _ _ => true
  end.

(** Truth value of an optional [str] attribute: [None] is false. *)
Definition truthy_opt (o : option string) : bool :=
  match o with
  | Some s => truthy s
  | None => false
  end.

(** ** [sanitize_for_log] (backend/app.py) *)

(** The character class [[\x00-\x1f\x7f]]. *)
Definition is_control (c : ascii) : bool :=
  (nat_of_ascii c <=? 31)%nat || (nat_of_ascii c =? 127)%nat.

(** [re.sub(r'[\x00-\x1f\x7f]', '?', value)]. *)
Fixpoint re_sub_control (value : string) : string :=
  match value with
  | EmptyString => EmptyString
  | String c rest =>
      String (if is_control c then "?"%char else c) (re_sub_control rest)
  end.

Definition sanitize_for_log (value : PyVal) : string :=
  re_sub_control (py_str value).

(** ** JSON documents and HTTP responses *)

Inductive JSON :=
| JNull
| JInt (z : Z)
| JStr (s : string)
| JArr (items : list JSON)
| JObj (fields : list (string * JSON)).

(** What a Flask view returns: [jsonify(body), status]. *)
Record Response := { body : JSON; status : Z }.

Definition jsonify (fields : list (string * JSON)) (code : Z) : Response :=
  {| body := JObj fields; status := code |}.

(** The keys of a response body. *)
Definition body_keys (r : Response) : list string :=
  match body r with
  | JObj fields => map fst fields
  | _ => []
  end.

Definition body_field (key : string) (r : Response) : option JSON :=
  match body r with
  | JObj fields => snd <$> find (fun kv => String.eqb (fst kv) key) fields
  | _ => None
  end.

(** ** Exceptions *)

Inductive exn := Exception (text : string).

Definition exn_text (e : exn) : string := let 'Exception t := e in t.

Inductive Outcome (A : Type) :=
| Returned (a : A)
| Raised (e : exn).
Arguments Returned {A} a.
Arguments Raised {A} e.

(** ** A state and exception monad

    [Eff S A] is a computation over mutable state [S] that returns an [A]
    or raises.  The state reached at the raise is kept, so that an
    [except] clause sees the assignments made before it. *)

Definition Eff (S A : Type) : Type := S -> Outcome A * S.

#[global] Instance Eff_ret {S} : MRet (Eff S) :=
  fun A a st => (Returned a, st).

#[global] Instance Eff_bind {S} : MBind (Eff S) :=
  fun A B k m st =>
    match m st with
    | (Returned a, st') => k a st'
    | (Raised e, st') => (Raised e, st')
    end.

Definition raise {S A} (e : exn) : Eff S A := fun st => (Raised e, st).
Definition gets {S A} (f : S -> A) : Eff S A := fun st => (Returned (f st), st).
Definition modify {S} (f : S -> S) : Eff S unit := fun st => (Returned tt, f st).

(** [try: m except Exception as e: h e]. *)
Definition try_except {S A} (m : Eff S A) (h : exn -> Eff S A) : Eff S A :=
  fun st =>
    match m st with
    | (Returned a, st') => (Returned a, st')
    | (Raised e, st') => h e st'
    end.

(** ** The agent runtime's types (google.genai.types, google.adk)

    The attributes the handler reads, with the optionality the libraries
    declare for them.  [None] stands for an attribute that is absent or
    [None]; the objects themselves are always true. *)

Module genai_types.
Record FunctionCall := { args : option (gmap string string) }.
Record Part := { text : option string; function_call : option FunctionCall }.
Record Content := { role : option string; parts : option (list Part) }.
End genai_types.

Record Event := {
  error_code : option string;
  content : option genai_types.Content
}.

(** What awaiting the next item of the generator [runner.run_async(...)]
    gives: an event, or an exception raised inside the runtime.  The end of
    the list is the end of the iteration. *)
Inductive StreamItem :=
| Yield (event : Event)
| Throw (e : exn).

(** The arguments of one call [runner.run_async(user_id=..., session_id=...,
    new_message=Content(parts=[Part(text=...)], role='user'))]. *)
Record AgentCall := {
  call_user_id : string;
  call_session_id : string;
  call_message_text : string
}.

(** What the chat view holds once it has read [current_app.runner],
    [current_app.session_service] and [current_app.genai_types]: whether
    all three are set ([all([runner, session_service, genai_types])]), and
    the runtime behind [runner].  The three reads, which raise on an
    attribute that was never assigned, are in [chat_endpoint] below. *)
Record Server := {
  components_ready : bool;
  run_async : AgentCall -> list StreamItem
}.

(** ** [chat_handler] (backend/app.py): request data and local state *)

(** The value under the key ['message'] of the request body. *)
Inductive MessageField :=
| MsgAbsent                    (* no such key: [.get('message', {})] gives [{}] *)
| MsgDict (message : PyVal)    (* a dict; its ['message'] entry, [PyNone] if absent *)
| MsgNotDict.                  (* any other value: it has no [.get] *)

(** What [request.get_json()] gives: a dict, with the results of
    [req_data.get('user_id')] and [req_data.get('session_id')] ([PyNone] for
    an absent key), or anything else ([None], a list, a refusal of the body),
    on which the first [req_data.get] raises. *)
Inductive ReqData :=
| ReqNotDict
| ReqDict (user_id session_id : PyVal) (message : MessageField).

(** The values stored in the KPI record. *)
Inductive KpiVal :=
| KStr (s : string)
| KInt (z : Z)
| KBool (b : bool).

#[global] Instance KpiVal_eq_dec : EqDecision KpiVal.
Proof. solve_decision. Defined.

(** The locals of one run of [chat_handler], the calls made to the agent
    runtime, and the items its generator has not produced yet. *)
Record ChatState := {
  user_id : option string;
  session_id : option string;
  kpi_data : gmap string KpiVal;
  final_response_parts : list JSON;
  llm_response_text : string;
  agent_calls : list AgentCall;
  generator : list StreamItem
}.

Definition set_user_id (v : string) (st : ChatState) : ChatState :=
  {| user_id := Some v; session_id := session_id st; kpi_data := kpi_data st;
     final_response_parts := final_response_parts st;
     llm_response_text := llm_response_text st;
     agent_calls := agent_calls st; generator := generator st |}.

Definition set_session_id (v : string) (st : ChatState) : ChatState :=
  {| user_id := user_id st; session_id := Some v; kpi_data := kpi_data st;
     final_response_parts := final_response_parts st;
     llm_response_text := llm_response_text st;
     agent_calls := agent_calls st; generator := generator st |}.

Definition set_kpi_data (v : gmap string KpiVal) (st : ChatState) : ChatState :=
  {| user_id := user_id st; session_id := session_id st; kpi_data := v;
     final_response_parts := final_response_parts st;
     llm_response_text := llm_response_text st;
     agent_calls := agent_calls st; generator := generator st |}.

Definition set_final_response_parts (v : list JSON) (st : ChatState) : ChatState :=
  {| user_id := user_id st; session_id := session_id st; kpi_data := kpi_data st;
     final_response_parts := v;
     llm_response_text := llm_response_text st;
     agent_calls := agent_calls st; generator := generator st |}.

Definition set_llm_response_text (v : string) (st : ChatState) : ChatState :=
  {| user_id := user_id st; session_id := session_id st; kpi_data := kpi_data st;
     final_response_parts := final_response_parts st;
     llm_response_text := v;
     agent_calls := agent_calls st; generator := generator st |}.

Definition set_agent_calls (v : list AgentCall) (st : ChatState) : ChatState :=
  {| user_id := user_id st; session_id := session_id st; kpi_data := kpi_data st;
     final_response_parts := final_response_parts st;
     llm_response_text := llm_response_text st;
     agent_calls := v; generator := generator st |}.

Definition set_generator (v : list StreamItem) (st : ChatState) : ChatState :=
  {| user_id := user_id st; session_id := session_id st; kpi_data := kpi_data st;
     final_response_parts := final_response_parts st;
     llm_response_text := llm_response_text st;
     agent_calls := agent_calls st; generator := v |}.

(** [kpi_data = collections.defaultdict(lambda: "N/A")] and nothing else. *)
Definition initial_state : ChatState :=
  {| user_id := None; session_id := None; kpi_data := ∅;
     final_response_parts := []; llm_response_text := "";
     agent_calls := []; generator := [] |}.

(** [kpi_data[key]]: a [defaultdict] stores the default under a missing key
    when it is read. *)
Definition kpi_getitem (key : string) : Eff ChatState KpiVal :=
  fun st =>
    match kpi_data st !! key with
    | Some v => (Returned v, st)
    | None => (Returned (KStr "N/A"),
               set_kpi_data (<[key := KStr "N/A"]> (kpi_data st)) st)
    end.

(** [kpi_data[key] = v]. *)
Definition kpi_setitem (key : string) (v : KpiVal) : Eff ChatState unit :=
  modify (fun st => set_kpi_data (<[key := v]> (kpi_data st)) st).

(** [final_response_parts.append({"role": role, "content": content})]. *)
Definition chat_message (role content : string) : JSON :=
  JObj [("role", JStr role); ("content", JStr content)].

Definition append_part (m : JSON) : Eff ChatState unit :=
  modify (fun st => set_final_response_parts (final_response_parts st ++ [m]) st).

(** ** [chat_handler]: one event of the agent's stream *)

Definition apology : string := "I'm sorry, I encountered a technical issue...".

(** [f"```sql\n{sql_in_this_turn}\n```"]. *)
Definition formatted_sql (sql_in_this_turn : string) : string :=
  "```sql" +:+ nl +:+ sql_in_this_turn +:+ nl +:+ "```".

(** The body of [for part in event.content.parts], on the two locals
    [text_in_this_turn] and [sql_in_this_turn]. *)
Definition part_step (part : genai_types.Part) (turn : string * option string)
  : Eff ChatState (string * option string) :=
  let '(text_in_this_turn, sql_in_this_turn) := turn in
  let text_in_this_turn :=
    match genai_types.text part with
    | Some t => if truthy t then text_in_this_turn +:+ t else text_in_this_turn
    | None => text_in_this_turn
    end in
  match genai_types.function_call part with
  | None => mret (text_in_this_turn, sql_in_this_turn)
  | Some fc =>
      match genai_types.args fc with
      | None => raise (Exception "'NoneType' object has no attribute 'get'")
      | Some d =>
          match d !! "sql_query" with
          | Some raw_sql =>
              if truthy raw_sql then
                kpi_setitem "generated_sql" (KStr raw_sql);;
                mret (text_in_this_turn, Some raw_sql)
              else mret (text_in_this_turn, sql_in_this_turn)
          | None => mret (text_in_this_turn, sql_in_this_turn)
          end
      end
  end.

Fixpoint for_parts (ps : list genai_types.Part) (turn : string * option string)
  : Eff ChatState (string * option string) :=
  match ps with
  | [] => mret turn
  | part :: rest => turn' ← part_step part turn; for_parts rest turn'
  end.

(** How the body of the [async for] loop ends. *)
Inductive Control := Next | Break.

(** The body of [async for event in runner.run_async(...)]. *)
Definition loop_body (event : Event) : Eff ChatState Control :=
  if truthy_opt (error_code event) then
    let code := default "" (error_code event) in
    append_part (chat_message "assistant" (apology +:+ code));;
    kpi_setitem "agent_error" (KStr code);;
    mret Break
  else
    match content event with
    | None => mret Next
    | Some c =>
        if decide (genai_types.role c = Some "model") then
          trips ← kpi_getitem "llm_round_trips";
          match trips with
          | KInt n => kpi_setitem "llm_round_trips" (KInt (n + 1))
          | KBool b => kpi_setitem "llm_round_trips" (KInt (Z.b2z b + 1))
          | KStr _ => raise (Exception "can only concatenate str (not 'int') to str")
          end;;
          ps ← match genai_types.parts c with
               | Some ps => mret ps
               | None => raise (Exception "'NoneType' object is not iterable")
               end;
          turn ← for_parts ps ("", None);
          let '(text_in_this_turn, sql_in_this_turn) := turn in
          (if truthy text_in_this_turn then
             modify (fun st => set_llm_response_text
                                 (llm_response_text st +:+ text_in_this_turn) st)
           else mret tt);;
          (if truthy_opt sql_in_this_turn then
             append_part (chat_message "model"
                            (formatted_sql (default "" sql_in_this_turn)))
           else if truthy text_in_this_turn then
             append_part (chat_message "model" text_in_this_turn)
           else mret tt);;
          mret Next
        else mret Next
    end.

(** The [async for] loop over the items the generator still holds.  An item
    is taken off the generator before the body runs on it; [break] leaves
    the rest in the generator. *)
Fixpoint async_for (items : list StreamItem) : Eff ChatState unit :=
  match items with
  | [] => modify (set_generator [])
  | item :: rest =>
      modify (set_generator rest);;
      match item with
      | Throw e => raise e
      | Yield event =>
          ctl ← loop_body event;
          match ctl with
          | Break => mret tt
          | Next => async_for rest
          end
      end
  end.

(** ** [chat_handler]: the handler *)

(** The body of the [try] statement. *)
Definition chat_try (srv : Server) (req_data : ReqData) : Eff ChatState Response :=
  match req_data with
  | ReqNotDict => raise (Exception "'NoneType' object has no attribute 'get'")
  | ReqDict raw_user_id raw_session_id message =>
      let user_id := sanitize_for_log raw_user_id in
      modify (set_user_id user_id);;
      let session_id := sanitize_for_log raw_session_id in
      modify (set_session_id session_id);;
      inner ← match message with
              | MsgAbsent => mret PyNone
              | MsgDict v => mret v
              | MsgNotDict => raise (Exception "object has no attribute 'get'")
              end;
      let message_text := sanitize_for_log inner in
      if negb (truthy user_id && truthy session_id && truthy message_text) then
        mret (jsonify [("error", JStr "user_id, session_id, and message are required")] 400)
      else
        kpi_setitem "user_id" (KStr user_id);;
        kpi_setitem "session_id" (KStr session_id);;
        kpi_setitem "question" (KStr message_text);;
        modify (set_final_response_parts []);;
        modify (set_llm_response_text "");;
        kpi_setitem "llm_round_trips" (KInt 0);;
        let call := {| call_user_id := user_id; call_session_id := session_id;
                       call_message_text := message_text |} in
        modify (fun st => set_agent_calls (agent_calls st ++ [call]) st);;
        async_for (run_async srv call);;
        generated_sql ← kpi_getitem "generated_sql";
        llm_response_text ← gets llm_response_text;
        kpi_setitem "clarification_asked"
          (KBool (if decide (generated_sql = KStr "N/A")
                  then truthy llm_response_text else false));;
        final_response_parts ← gets final_response_parts;
        mret (jsonify [("session_id", JStr session_id);
                       ("messages", JArr final_response_parts)] 200)
  end.

(** The [except Exception as e] clause: [session_id or ""]. *)
Definition chat_except (e : exn) : Eff ChatState Response :=
  kpi_setitem "server_error" (KStr (exn_text e));;
  session_id ← gets session_id;
  mret (jsonify [("session_id",
                  JStr (if truthy_opt session_id then default "" session_id else ""));
                 ("messages", JArr []);
                 ("error", JStr "Internal server error")] 500).

(** [POST /api/chat], from the check of the three components on: the
    response, and the state the run ends in. *)
Definition chat_handler (srv : Server) (req_data : ReqData)
  : Outcome Response * ChatState :=
  if components_ready srv then
    try_except (chat_try srv req_data) chat_except initial_state
  else
    (Returned (jsonify [("error", JStr "Chat components not initialized on the server.")] 500),
     initial_state).

(** ** The response cache (the decorator [cache] of backend/app.py)

    Clock readings ([time.time()]) are exact rationals, in seconds. *)

(** The state a cached view runs in: the dict [wrapper.cache], from the
    request's URL to [(result, timestamp)], and the world [W] the wrapped
    view acts on. *)
Record Cached (W : Type) := {
  cache : gmap string (Response * Q);
  world : W
}.
Arguments cache {W} _.
Arguments world {W} _.

Section cache.
Context {W : Type}.
(** [time.time()], read off the world. *)
Variable time : W -> Q.
Variable timeout : Q.
(** The wrapped view [f]. *)
Variable f : Eff W Response.

(** [result = f(...); wrapper.cache[cache_key] = (result, time.time())]. *)
Definition recompute (cache_key : string) : Eff (Cached W) Response :=
  fun st =>
    match f (world st) with
    | (Returned result, w) =>
        (Returned result,
         {| cache := <[cache_key := (result, time w)]> (cache st); world := w |})
    | (Raised e, w) => (Raised e, {| cache := cache st; world := w |})
    end.

(** [wrapper], called for a request whose [request.url] is [cache_key]. *)
Definition wrapper (cache_key : string) : Eff (Cached W) Response :=
  fun st =>
    match cache st !! cache_key with
    | Some (result, timestamp) =>
        if Qlt_le_dec (time (world st) - timestamp) timeout
        then (Returned result, st)
        else recompute cache_key st
    | None => recompute cache_key st
    end.

End cache.

(** ** The metadata gateway (backend/utils.py) and [list_tables] *)

(** A row of [INFORMATION_SCHEMA.TABLES], with the columns the view reads. *)
Record TableRow := { table_name : string; ddl : option string }.

(** The warehouse behind the gateway: what each BigQuery operation gives
    when it is run, how long a gateway call takes, the clock, and the number
    of gateway calls made so far. *)
Record Warehouse := {
  clock : Q;
  latency : Q;
  bigquery_Client : Outcome unit;
  tables_query : Outcome (list TableRow);
  count_rows_query : string -> Outcome (list Z);
  count_columns_query : Outcome (list Z);
  gateway_calls : nat
}.

(** Entering a gateway function. *)
Definition enter_gateway : Eff Warehouse unit :=
  modify (fun w =>
    {| clock := clock w + latency w; latency := latency w;
       bigquery_Client := bigquery_Client w; tables_query := tables_query w;
       count_rows_query := count_rows_query w;
       count_columns_query := count_columns_query w;
       gateway_calls := S (gateway_calls w) |}).

(** Running a BigQuery operation. *)
Definition bq {A} (op : Warehouse -> Outcome A) : Eff Warehouse A :=
  fun w => (op w, w).

(** [get_table_ddl_strings]: the client is built outside the [try]. *)
Definition get_table_ddl_strings : Eff Warehouse (list TableRow) :=
  enter_gateway;;
  bq bigquery_Client;;
  try_except
    (rows ← bq tables_query;
     mret (filter (fun row => truthy_opt (ddl row) = true) rows))
    (fun _ => mret []).

(** [for row in results: return row[0]]: [None] when there is no row. *)
Definition first_row (rows : list Z) : option Z := head rows.

(** [get_total_rows]: the whole body is inside the [try]. *)
Definition get_total_rows (table_name : string) : Eff Warehouse (option Z) :=
  enter_gateway;;
  try_except
    (bq bigquery_Client;;
     rows ← bq (fun w => count_rows_query w table_name);
     mret (first_row rows))
    (fun _ => mret (Some 0%Z)).

(** [get_total_column_count]. *)
Definition get_total_column_count : Eff Warehouse (option Z) :=
  enter_gateway;;
  try_except
    (bq bigquery_Client;;
     rows ← bq count_columns_query;
     mret (first_row rows))
    (fun _ => mret (Some 0%Z)).

(** The loop [for table in tables] of [list_tables], on [total_rows] and
    [table_names]; [total_rows += None] raises. *)
Fixpoint sum_rows (tables : list TableRow) (total_rows : Z) (table_names : list string)
  : Eff Warehouse (Z * list string) :=
  match tables with
  | [] => mret (total_rows, table_names)
  | table :: rest =>
      let name := table_name table in
      n ← get_total_rows name;
      match n with
      | Some k => sum_rows rest (total_rows + k)%Z (table_names ++ [name])
      | None => raise (Exception "unsupported operand type(s) for +=: 'int' and 'NoneType'")
      end
  end.

Definition json_opt_int (o : option Z) : JSON :=
  match o with
  | Some z => JInt z
  | None => JNull
  end.

(** The view [list_tables], before the decorator is applied. *)
Definition list_tables_view : Eff Warehouse Response :=
  try_except
    (tables ← get_table_ddl_strings;
     let num_tables := Z.of_nat (length tables) in
     totals ← sum_rows tables 0%Z [];
     let '(total_rows, table_names) := totals in
     total_columns ← get_total_column_count;
     mret (jsonify [("tables", JArr (JStr <$> table_names));
                    ("num_tables", JInt num_tables);
                    ("total_columns", json_opt_int total_columns);
                    ("total_rows", JInt total_rows)] 200))
    (fun _ => mret (jsonify [("error", JStr "Internal server error")] 500)).

(** [GET /api/tables]: [@cache(timeout=3600)] applied to the view. *)
Definition list_tables : string -> Eff (Cached Warehouse) Response :=
  wrapper clock 3600 list_tables_view.

(** ** [os.path] on POSIX, and [get_code_file] *)

Module posixpath.

(** [p.rfind('/') + 1]: the length of the part of [p] up to and including
    its last slash, [0] when there is none. *)
Fixpoint head_length (p : string) : nat :=
  match p with
  | EmptyString => 0
  | String c rest =>
      match head_length rest with
      | 0 => if Ascii.eqb c "/" then 1 else 0
      | S n => S (S n)
      end
  end.

(** [basename(p) = p[p.rfind('/') + 1:]]. *)
Definition basename (p : string) : string :=
  substring (head_length p) (String.length p - head_length p) p.

Fixpoint endswith_slash (a : string) : bool :=
  match a with
  | EmptyString => false
  | String c EmptyString => Ascii.eqb c "/"
  | String _ rest => endswith_slash rest
  end.

(** [join(a, b)] for two components. *)
Definition join (a b : string) : string :=
  if String.prefix "/" b then b
  else if negb (truthy a) || endswith_slash a then a +:+ b
  else a +:+ "/" +:+ b.

End posixpath.

(** [s.startswith(p)]. *)
Definition startswith (s p : string) : bool := String.prefix p s.

(** What [open(path, 'r', encoding='utf-8')] followed by [f.read()] gives. *)
Inductive ReadResult :=
| FileContent (content : string)
| FileNotFoundError
| ReadError (e : exn).

(** [GET /api/code].  [project_root] is
    [os.path.dirname(os.path.dirname(os.path.abspath(__file__)))], [fs] the
    file system, [arg] the result of [request.args.get("filepath")]. *)
Definition get_code_file (project_root : string) (fs : string -> ReadResult)
    (arg : PyVal) : Response :=
  let filepath := sanitize_for_log arg in
  if negb (truthy filepath) then
    jsonify [("error", JStr "Filepath is required")] 400
  else
    let allowed_dir := posixpath.join project_root "data_agent" in
    let safe_filename := posixpath.basename filepath in
    let abs_filepath := posixpath.join allowed_dir safe_filename in
    if negb (startswith abs_filepath allowed_dir) then
      jsonify [("error", JStr "Invalid filepath")] 400
    else
      match fs abs_filepath with
      | FileContent content => jsonify [("content", JStr content)] 200
      | FileNotFoundError => jsonify [("error", JStr "File not found")] 404
      | ReadError _ => jsonify [("error", JStr "Internal server error")] 500
      end.

(** *** What it means for a requested path to escape the directory

    Not part of the code: the reading of "escapes the sandboxed directory"
    that the properties below are measured against.  A path escapes when,
    resolved against the directory, it names something outside it. *)

(** The components of a path, split at slashes. *)
Fixpoint components (p : string) : list string :=
  match p with
  | EmptyString => [EmptyString]
  | String c rest =>
      if Ascii.eqb c "/" then EmptyString :: components rest
      else match components rest with
           | [] => [String c EmptyString]
           | first :: others => String c first :: others
           end
  end.

(** Resolving [.], [..] and empty components against the directory stack
    [dir] (innermost first). *)
Fixpoint resolve (comps : list string) (dir : list string) : list string :=
  match comps with
  | [] => dir
  | comp :: rest =>
      if String.eqb comp "" || String.eqb comp "." then resolve rest dir
      else if String.eqb comp ".." then resolve rest (tail dir)
      else resolve rest (comp :: dir)
  end.

Definition normpath (p : string) : list string := rev (resolve (components p) []).

Fixpoint list_prefixb (l1 l2 : list string) : bool :=
  match l1, l2 with
  | [], _ => true
  | x :: l1', y :: l2' => String.eqb x y && list_prefixb l1' l2'
  | _ :: _, [] => false
  end.

Definition escapes_sandbox (project_root filepath : string) : bool :=
  let allowed_dir := posixpath.join project_root "data_agent" in
  negb (list_prefixb (normpath allowed_dir)
          (normpath (posixpath.join allowed_dir filepath))).

(** ** Startup prompt assembly (data_agent/instructions.py) *)

#[global] Instance Outcome_ret : MRet Outcome := fun A a => Returned a.

#[global] Instance Outcome_bind : MBind Outcome :=
  fun A B k m =>
    match m with
    | Returned a => k a
    | Raised e => Raised e
    end.

(** [try: m except Exception: h]. *)
Definition attempt {A} (m : Outcome A) (h : exn -> Outcome A) : Outcome A :=
  match m with
  | Returned a => Returned a
  | Raised e => h e
  end.

Section instructions.
(** The entries of the fetched collections (dicts). *)
Context {Row : Type}.

(** What each operation outside the module gives when startup runs it. *)
Record Startup := {
  fetch_table_entry_metadata : Outcome (list Row);
  fetch_bigquery_data_profiles : Outcome (list Row);
  fetch_sample_data_for_tables : Outcome (list Row);
  (* json.dumps(obj, indent=2, default=json_serial_default) *)
  json_dumps : list Row -> Outcome string;
  (* open(yaml_file_path), yaml.safe_load and "\n---\n".join of the values *)
  load_instruction_template : Outcome string;
  (* instruction_template.format(table_metadata=, data_profiles=, samples=) *)
  format : string -> string -> string -> string -> Outcome string;
  (* print(json.dumps(log_payload)) *)
  print_log_payload : string -> Outcome unit;
  (* the upload to the bucket, or the write to the temporary file *)
  write_prompt_file : string -> Outcome unit;
  (* genai.GenerativeModel(MODEL).count_tokens(final_prompt).total_tokens *)
  count_tokens : string -> Outcome Z;
  log_startup_kpis : list Row -> list Row -> Z -> Outcome unit
}.

Variable env : Startup.

Definition _log_prompt_for_debugging (prompt_content : string) : Outcome unit :=
  attempt (print_log_payload env prompt_content) (fun _ => mret tt).

Definition _save_instructions_for_debugging (prompt_content : string) : Outcome unit :=
  attempt (write_prompt_file env prompt_content) (fun _ => mret tt).

(** The body of the [try] statement of [_build_master_instructions]. *)
Definition build_try : Outcome string :=
  table_metadata ← fetch_table_entry_metadata env;
  data_profiles ← fetch_bigquery_data_profiles env;
  samples ← match data_profiles with
            | [] => fetch_sample_data_for_tables env
            | _ :: _ => mret []
            end;
  table_metadata_str ← json_dumps env table_metadata;
  data_profiles_str ← json_dumps env data_profiles;
  samples_str ← json_dumps env samples;
  instruction_template ← load_instruction_template env;
  final_prompt ← format env instruction_template
                   table_metadata_str data_profiles_str samples_str;
  _log_prompt_for_debugging final_prompt;;
  _save_instructions_for_debugging final_prompt;;
  token_count ← attempt (count_tokens env final_prompt) (fun _ => mret 0%Z);
  log_startup_kpis env table_metadata data_profiles token_count;;
  mret final_prompt.

Definition _build_master_instructions : Outcome string :=
  attempt build_try (fun _ => mret "").

(** The module-level constant:
    [CACHED_INSTRUCTIONS = _build_master_instructions()]. *)
Definition CACHED_INSTRUCTIONS : Outcome string := _build_master_instructions.

End instructions.
Arguments Startup : clear implicits.

(** ** [create_app]: the attributes of the application object *)

(** An attribute of the application object: never assigned, or assigned a
    value, which may be [None]. *)
Inductive Attr (A : Type) :=
| Unset
| Assigned (v : option A).
Arguments Unset {A}.
Arguments Assigned {A} v.

(** An event of the agent runtime with the attribute [error_message], which
    only [test_query] reads; [adk_event] holds what [chat_handler] reads. *)
Record AdkEvent := {
  adk_event : Event;
  error_message : option string
}.

Inductive AdkItem :=
| AdkYield (event : AdkEvent)
| AdkThrow (e : exn).

Definition chat_item (item : AdkItem) : StreamItem :=
  match item with
  | AdkYield event => Yield (adk_event event)
  | AdkThrow e => Throw e
  end.

Inductive SessionService := DatabaseSessionService | InMemorySessionService.

(** The [Runner] object: the name it was built with, its session service,
    and the runtime behind it. *)
Record Runner := {
  app_name : string;
  runner_session_service : SessionService;
  runner_run_async : AgentCall -> list AdkItem
}.

Record App := {
  app_runner : Attr Runner;
  app_session_service : Attr SessionService;
  app_genai_types : Attr unit
}.

(** What building the application meets: whether the agent modules were
    imported (on an [ImportError] all their names are [None]), the outcome
    of connecting to the database and building [DatabaseSessionService],
    the outcome of building the [Runner], and the runtime. *)
Record Boot := {
  imports_ok : bool;
  database_session : Outcome unit;
  build_runner : Outcome unit;
  runtime : AgentCall -> list AdkItem
}.

Definition APP_NAME : string := "data_agent_chatbot".

(** The part of [create_app] that sets [app.runner], [app.session_service]
    and [app.genai_types]. *)
Definition create_app (boot : Boot) : App :=
  if imports_ok boot then
    let session_service :=
      match database_session boot with
      | Returned _ => DatabaseSessionService
      | Raised _ => InMemorySessionService
      end in
    match build_runner boot with
    | Returned _ =>
        {| app_runner := Assigned (Some {| app_name := APP_NAME;
                                           runner_session_service := session_service;
                                           runner_run_async := runtime boot |});
           app_session_service := Assigned (Some session_service);
           app_genai_types := Assigned (Some tt) |}
    | Raised _ =>
        {| app_runner := Assigned None;
           app_session_service := Unset;
           app_genai_types := Unset |}
    end
  else
    {| app_runner := Assigned None;
       app_session_service := Unset;
       app_genai_types := Unset |}.

(** [current_app.<name>]: reading an attribute that was never assigned
    raises [AttributeError]. *)
Definition getattr {S A} (name : string) (a : Attr A) : Eff S (option A) :=
  match a with
  | Assigned v => mret v
  | Unset => raise (Exception ("'Flask' object has no attribute '" +:+ name +:+ "'"))
  end.

(** ** The session store, [login] and [logout] *)

Record Session := {
  session_app_name : string;
  session_user_id : string;
  id : string
}.

(** The sessions the service holds, and what [create_session] gives for an
    application and a user when it holds them: the identifier of the new
    session, or an exception. *)
Record SessionStore := {
  sessions : list Session;
  new_session : list Session -> string -> string -> Outcome string
}.

(** [session_service.create_session(app_name=..., user_id=...)]. *)
Definition create_session (app_name user_id : string) : Eff SessionStore Session :=
  fun store =>
    match new_session store (sessions store) app_name user_id with
    | Returned sid =>
        let session := {| session_app_name := app_name;
                          session_user_id := user_id; id := sid |} in
        (Returned session,
         {| sessions := sessions store ++ [session];
            new_session := new_session store |})
    | Raised e => (Raised e, store)
    end.

(** [req_data.get('user_id')] and [req_data.get('session_id')]. *)
Definition req_get_user_id {S} (req_data : ReqData) : Eff S PyVal :=
  match req_data with
  | ReqDict raw_user_id _ _ => mret raw_user_id
  | ReqNotDict => raise (Exception "'NoneType' object has no attribute 'get'")
  end.

Definition req_get_session_id {S} (req_data : ReqData) : Eff S PyVal :=
  match req_data with
  | ReqDict _ raw_session_id _ => mret raw_session_id
  | ReqNotDict => raise (Exception "'NoneType' object has no attribute 'get'")
  end.

(** [POST /api/login].  A [Raised] outcome is an exception that leaves the
    view. *)
Definition login (app : App) (req_data : ReqData) : Eff SessionStore Response :=
  session_service ← getattr "session_service" (app_session_service app);
  runner ← getattr "runner" (app_runner app);
  match session_service, runner with
  | Some _, Some runner =>
      raw_user_id ← req_get_user_id req_data;
      let user_id := sanitize_for_log raw_user_id in
      if negb (truthy user_id) then
        mret (jsonify [("error", JStr "user_id is required")] 400)
      else
        try_except
          (session ← create_session (app_name runner) user_id;
           mret (jsonify [("session_id", JStr (id session));
                          ("user_id", JStr user_id)] 200))
          (fun _ => mret (jsonify [("error", JStr "Could not create session.")] 500))
  | _, _ => mret (jsonify [("error", JStr "Session service not initialized.")] 500)
  end.

(** [POST /api/logout]. *)
Definition logout (req_data : ReqData) : Eff SessionStore Response :=
  raw_user_id ← req_get_user_id req_data;
  raw_session_id ← req_get_session_id req_data;
  let user_id := sanitize_for_log raw_user_id in
  let session_id := sanitize_for_log raw_session_id in
  mret (jsonify [("message", JStr "Logout successful")] 200).

(** [POST /api/chat] from the application object: the three attributes are
    read before the [try] statement. *)
Definition chat_endpoint (app : App) (req_data : ReqData) : Outcome Response :=
  match app_runner app, app_session_service app, app_genai_types app with
  | Unset, _, _ => Raised (Exception "'Flask' object has no attribute 'runner'")
  | _, Unset, _ => Raised (Exception "'Flask' object has no attribute 'session_service'")
  | _, _, Unset => Raised (Exception "'Flask' object has no attribute 'genai_types'")
  | Assigned runner, Assigned session_service, Assigned genai_types =>
      (chat_handler
         {| components_ready :=
              bool_decide (is_Some runner) && bool_decide (is_Some session_service)
              && bool_decide (is_Some genai_types);
            run_async := fun call =>
              match runner with
              | Some r => chat_item <$> runner_run_async r call
              | None => []
              end |}
         req_data).1
  end.

(** ** [test_query] (backend/app.py) *)

(** The locals of the loop of [test_query]. *)
Record TestLocals := {
  generated_sql : option string;
  agent_error : option (string * option string);
  llm_response : string
}.

(** The body of [for part in event.content.parts] in [test_query]: the
    function call is looked at first, then the text. *)
Definition test_part_step (part : genai_types.Part) (acc : option string * string)
  : Outcome (option string * string) :=
  let '(generated_sql, llm_response) := acc in
  generated_sql ←
    match genai_types.function_call part with
    | None => mret generated_sql
    | Some fc =>
        match genai_types.args fc with
        | None => Raised (Exception "'NoneType' object has no attribute 'get'")
        | Some d =>
            match d !! "sql_query" with
            | Some raw_sql => if truthy raw_sql then mret (Some raw_sql)
                              else mret generated_sql
            | None => mret generated_sql
            end
        end
    end;
  mret (generated_sql,
        match genai_types.text part with
        | Some t => if truthy t then llm_response +:+ t else llm_response
        | None => llm_response
        end).

Fixpoint test_for_parts (ps : list genai_types.Part) (acc : option string * string)
  : Outcome (option string * string) :=
  match ps with
  | [] => mret acc
  | part :: rest => acc' ← test_part_step part acc; test_for_parts rest acc'
  end.

(** The body of the [async for] loop of [test_query]. *)
Definition test_loop_body (event : AdkEvent) (locals : TestLocals)
  : Outcome (Control * TestLocals) :=
  if truthy_opt (error_code (adk_event event)) then
    mret (Break,
          {| generated_sql := generated_sql locals;
             agent_error := Some (default "" (error_code (adk_event event)),
                                  error_message event);
             llm_response := llm_response locals |})
  else
    acc ← match content (adk_event event) with
          | None => mret (generated_sql locals, llm_response locals)
          | Some c =>
              match genai_types.parts c with
              | None => Raised (Exception "'NoneType' object is not iterable")
              | Some ps => test_for_parts ps (generated_sql locals, llm_response locals)
              end
          end;
    let locals' := {| generated_sql := acc.1; agent_error := agent_error locals;
                      llm_response := acc.2 |} in
    mret (if truthy_opt (generated_sql locals') || bool_decide (is_Some (agent_error locals'))
          then Break else Next,
          locals').

(** The loop: the final locals or the exception, and the items left in the
    generator. *)
Fixpoint test_async_for (items : list AdkItem) (locals : TestLocals)
  : Outcome TestLocals * list AdkItem :=
  match items with
  | [] => (Returned locals, [])
  | AdkThrow e :: rest => (Raised e, rest)
  | AdkYield event :: rest =>
      match test_loop_body event locals with
      | Raised e => (Raised e, rest)
      | Returned (Break, locals') => (Returned locals', rest)
      | Returned (Next, locals') => test_async_for rest locals'
      end
  end.

(** What a run of [test_query] leaves behind: the session store, the calls
    made to the agent runtime, and the items left in its generator. *)
Record TestWorld := {
  test_store : SessionStore;
  test_calls : list AgentCall;
  test_generator : list AdkItem
}.

Definition json_opt_str (o : option string) : JSON :=
  match o with
  | Some s => JStr s
  | None => JNull
  end.

(** The statements of [test_query] after the loop. *)
Definition test_answer (strip : string -> string) (locals : TestLocals) : Response :=
  match agent_error locals with
  | Some (code, message) =>
      jsonify [("status", JStr "AgentError");
               ("error", JObj [("code", JStr code); ("message", json_opt_str message)])]
        400
  | None =>
      if negb (truthy_opt (generated_sql locals)) && truthy (llm_response locals) then
        jsonify [("status", JStr "ClarificationNeeded");
                 ("clarification_question", JStr (strip (llm_response locals)))] 200
      else
        jsonify [("status", JStr "Success");
                 ("generated_sql",
                  JStr (if truthy_opt (generated_sql locals)
                        then default "" (generated_sql locals)
                        else "No SQL generated."))] 200
  end.

(** [GET /api/test_query].  [strip] is [str.strip]; [user_id_arg] and
    [question_arg] are the results of [request.args.get]; a [Raised]
    outcome is an exception that leaves the view. *)
Definition test_query (strip : string -> string) (app : App)
    (user_id_arg question_arg : PyVal) (store : SessionStore)
  : Outcome Response * TestWorld :=
  let untouched := {| test_store := store; test_calls := []; test_generator := [] |} in
  let user_id := sanitize_for_log user_id_arg in
  let question := sanitize_for_log question_arg in
  if negb (truthy user_id && truthy question) then
    (Returned (jsonify [("error", JStr "Both 'user_id' and 'question' required")] 400),
     untouched)
  else
    match app_runner app, app_genai_types app, app_session_service app with
    | Unset, _, _ =>
        (Raised (Exception "'Flask' object has no attribute 'runner'"), untouched)
    | _, Unset, _ =>
        (Raised (Exception "'Flask' object has no attribute 'genai_types'"), untouched)
    | _, _, Unset =>
        (Raised (Exception "'Flask' object has no attribute 'session_service'"), untouched)
    | Assigned (Some runner), Assigned (Some _), Assigned (Some _) =>
        match create_session (app_name runner) user_id store with
        | (Raised _, store') =>
            (Returned (jsonify [("error", JStr "Internal server error")] 500),
             {| test_store := store'; test_calls := []; test_generator := [] |})
        | (Returned temp_session, store') =>
            let call := {| call_user_id := user_id;
                           call_session_id := id temp_session;
                           call_message_text := question |} in
            let run := test_async_for (runner_run_async runner call)
                         {| generated_sql := None; agent_error := None;
                            llm_response := "" |} in
            (Returned (match run.1 with
                       | Returned locals => test_answer strip locals
                       | Raised _ => jsonify [("error", JStr "Internal server error")] 500
                       end),
             {| test_store := store'; test_calls := [call]; test_generator := run.2 |})
        end
    | _, _, _ =>
        (Returned (jsonify [("error", JStr "Chat components not initialized")] 500),
         untouched)
    end.

(** ** [get_table_data] and the functions of backend/utils.py it calls *)

(** data_agent/constants.py. *)
Definition PROJECT_ID : string := "agentic-data".
Definition DATASET_NAME : string := "mdp_ad_td_bqd_common_prod".

Section table_data.
(** A value of a row as BigQuery gives it. *)
Context {Cell : Type}.

(** The warehouse as these functions see it: the outcome of building the
    client, of [client.list_rows(table, max_results=n)], of
    [client.get_table(table).description], of turning a row into JSON, and
    the clock. *)
Record Tables := {
  table_client : Outcome unit;
  list_rows : string -> nat -> Outcome (list (list (string * Cell)));
  get_table_description_of : string -> Outcome (option string);
  row_to_json : list (string * Cell) -> Outcome JSON;
  table_clock : Q
}.

(** [fetch_sample_data_for_single_table(table_name, num_rows=3)]. *)
Definition fetch_sample_data_for_single_table (w : Tables) (table_name : string)
  : Outcome (list (list (string * Cell))) :=
  if negb (truthy PROJECT_ID) || negb (truthy DATASET_NAME) then mret []
  else
    match table_client w with
    | Raised _ => mret []
    | Returned _ =>
        let full_table_name := PROJECT_ID +:+ "." +:+ DATASET_NAME +:+ "." +:+ table_name in
        attempt (list_rows w full_table_name 3) (fun _ => mret [])
    end.

(** [get_table_description(table_name)]. *)
Definition get_table_description (w : Tables) (table_name : string) : Outcome string :=
  attempt
    (table_client w;;
     let table_id := PROJECT_ID +:+ "." +:+ DATASET_NAME +:+ "." +:+ table_name in
     description ← get_table_description_of w table_id;
     mret (if truthy_opt description then default "" description else ""))
    (fun _ => mret "").

(** [jsonify] of the rows: it raises when a value cannot be serialized. *)
Fixpoint rows_to_json (w : Tables) (rows : list (list (string * Cell)))
  : Outcome (list JSON) :=
  match rows with
  | [] => mret []
  | row :: rest =>
      j ← row_to_json w row; js ← rows_to_json w rest; mret (j :: js)
  end.

(** The view [get_table_data], before the decorator is applied; [arg] is
    the result of [request.args.get("table_name")]. *)
Definition get_table_data_view (arg : PyVal) : Eff Tables Response :=
  fun w =>
    let table_name := sanitize_for_log arg in
    if negb (truthy table_name) then
      (Returned (jsonify [("error", JStr "Table name is required")] 400), w)
    else
      (attempt
         (sample_rows ← fetch_sample_data_for_single_table w table_name;
          description ← get_table_description w table_name;
          data ← rows_to_json w sample_rows;
          mret (jsonify [("data", JArr data); ("description", JStr description)] 200))
         (fun _ => mret (jsonify [("error", JStr "Internal server error")] 500)),
       w).

(** [GET /api/table_data]: [@cache(timeout=3600)] applied to the view. *)
Definition get_table_data (arg : PyVal) : string -> Eff (Cached Tables) Response :=
  wrapper table_clock 3600 (get_table_data_view arg).

End table_data.
Arguments Tables : clear implicits.

(** ** [sanitize_for_log] of backend/utils.py *)

(** [s.replace(old, new)] for a pattern [old] of one character. *)
Fixpoint replace_char (old : ascii) (new : string) (s : string) : string :=
  match s with
  | EmptyString => EmptyString
  | String c rest =>
      if Ascii.eqb c old then new +:+ replace_char old new rest
      else String c (replace_char old new rest)
  end.

Definition LF : ascii := ascii_of_nat 10.
Definition CR : ascii := ascii_of_nat 13.

Module backend_utils.

(** [value.replace("\n", "\\n").replace("\r", "\\r")]: the new texts are a
    backslash followed by a letter. *)
Definition sanitize_for_log (value : PyVal) : string :=
  replace_char CR "\r" (replace_char LF "\n" (py_str value)).

End backend_utils.

(** ** data_agent/utils.py: the data fetched from the warehouse *)

Module data_agent_utils.

Section warehouse_data.
(** [decimal.Decimal] values, floats, and every other value that is not a
    list, a dict, a [Decimal], a float or an integer. *)
Context {Dec Flo Atom : Type}.
(** [float(obj)] for a [Decimal], and [x > 90] for a float. *)
Variable float : Dec -> Flo.
Variable gt90 : Flo -> bool.

(** The Python values these functions handle.  A dict is the list of its
    items, in their order; the keys are column names. *)
Inductive PyData :=
| DList (items : list PyData)
| DDict (entries : list (string * PyData))
| DDecimal (d : Dec)
| DFloat (f : Flo)
| DInt (z : Z)
| DAtom (a : Atom).

(** [_convert_decimals]. *)
Fixpoint _convert_decimals (obj : PyData) : PyData :=
  match obj with
  | DList items => DList (map _convert_decimals items)
  | DDict entries =>
      DDict (map (fun kv => match kv with (k, v) => (k, _convert_decimals v) end) entries)
  | DDecimal d => DFloat (float d)
  | DFloat f => DFloat f
  | DInt z => DInt z
  | DAtom a => DAtom a
  end.

(** [p.get(key)] on the items of a dict. *)
Fixpoint dict_get (key : string) (entries : list (string * PyData)) : option PyData :=
  match entries with
  | [] => None
  | (k, v) :: rest => if String.eqb k key then Some v else dict_get key rest
  end.

(** [isinstance(p.get('percent_null'), (float, int)) and
    p.get('percent_null') > 90] on the items of the dict [p]. *)
Definition mostly_null (p : list (string * PyData)) : bool :=
  match dict_get "percent_null" p with
  | Some (DFloat f) => gt90 f
  | Some (DInt z) => (90 <? z)%Z
  | _ => false
  end.

(** [_convert_decimals(raw_rows)] for the list of dicts
    [raw_rows = [dict(row.items()) for row in ...]], as a list of dicts. *)
Definition cleaned_rows (raw_rows : list (list (string * PyData)))
  : list (list (string * PyData)) :=
  map (fun row => map (fun kv => match kv with (k, v) => (k, _convert_decimals v) end) row)
      raw_rows.

(** What the fetches meet: the configured profiles table, the table names
    configured, the outcome of building a client, of the profiles query, of
    listing the tables of the dataset (the names of those of type
    ['TABLE']), and of [client.list_rows] for a table. *)
Record Dataset := {
  DATA_PROFILES_TABLE_FULL_ID : option string;
  TABLE_NAMES : list string;
  bigquery_client : Outcome unit;
  profiles_query : Outcome (list (list (string * PyData)));
  list_dataset_tables : Outcome (list string);
  list_table_rows : string -> Outcome (list (list (string * PyData)))
}.

(** [fetch_bigquery_data_profiles]: the client is built outside the [try]. *)
Definition fetch_bigquery_data_profiles (ds : Dataset) : Outcome (list (list (string * PyData))) :=
  if negb (truthy_opt (DATA_PROFILES_TABLE_FULL_ID ds)) then mret []
  else
    bigquery_client ds;;
    attempt
      (raw_profiles_data ← profiles_query ds;
       let cleaned_profiles_data := cleaned_rows raw_profiles_data in
       mret (List.filter (fun p => negb (mostly_null p)) cleaned_profiles_data))
      (fun _ => mret []).

(** One entry of the result of [fetch_sample_data_for_tables]: the dict
    [{"table_name": ..., "sample_rows": ...}]. *)
Record TableSample := {
  sample_table_name : string;
  sample_rows : list (list (string * PyData))
}.

(** The loop [for table_id in tables_to_fetch] on [sample_data_results]. *)
Fixpoint sample_loop (ds : Dataset) (tables_to_fetch : list string)
    (sample_data_results : list TableSample) : list TableSample :=
  match tables_to_fetch with
  | [] => sample_data_results
  | table_id :: rest =>
      let full_table_name := PROJECT_ID +:+ "." +:+ DATASET_NAME +:+ "." +:+ table_id in
      match list_table_rows ds full_table_name with
      | Returned raw_rows =>
          match cleaned_rows raw_rows with
          | [] => sample_loop ds rest sample_data_results
          | cleaned =>
              sample_loop ds rest
                (sample_data_results ++
                 [{| sample_table_name := full_table_name; sample_rows := cleaned |}])
          end
      | Raised _ => sample_loop ds rest sample_data_results
      end
  end.

(** [fetch_sample_data_for_tables]. *)
Definition fetch_sample_data_for_tables (ds : Dataset) : Outcome (list TableSample) :=
  bigquery_client ds;;
  let tables_to_fetch :=
    match TABLE_NAMES ds with
    | [] => match list_dataset_tables ds with
            | Returned names => names
            | Raised _ => []
            end
    | names => names
    end in
  mret (sample_loop ds tables_to_fetch []).

End warehouse_data.
Arguments PyData : clear implicits.
Arguments Dataset : clear implicits.
Arguments TableSample : clear implicits.

End data_agent_utils.

(** ** data_agent/utils.py: [fetch_table_entry_metadata] *)

Definition LOCATION : string := "asia-south1".

Module data_agent_catalog.

Section catalog.
(** The aspects of a Dataplex entry, converted to dicts. *)
Context {Aspects : Type}.

(** What the function meets: the table names configured, the outcome of
    building the two clients, of searching the entries of the dataset, of
    [dataplex_client.get_entry] for an entry name, and of
    [bq_client.get_table(id).description] for a table id. *)
Record Catalog := {
  TABLE_NAMES : list string;
  clients : Outcome unit;
  search_entries : Outcome (list string);
  get_entry : string -> Outcome Aspects;
  get_table : string -> Outcome (option string)
}.

(** One element of the result: the dict with the keys ['table_name'],
    ['description'] and ['aspects']. *)
Record EntryMetadata := {
  table_name : string;
  description : string;
  aspects : Aspects
}.

(** The entry name built for a configured table name. *)
Definition entry_name_of (table_name : string) : string :=
  "projects/" +:+ PROJECT_ID +:+ "/locations/" +:+ LOCATION
  +:+ "/entryGroups/@bigquery/entries/"
  +:+ "bigquery.googleapis.com%2Fprojects%2F" +:+ PROJECT_ID
  +:+ "%2Fdatasets%2F" +:+ DATASET_NAME +:+ "%2Ftables%2F" +:+ table_name.

(** [entry_name.split('/')[-1]]. *)
Definition short_table_name (entry_name : string) : string :=
  List.last (components entry_name) "".

(** The body of [for entry_name in target_entry_names], on
    [all_entry_metadata]. *)
Fixpoint entry_loop (c : Catalog) (target_entry_names : list string)
    (all_entry_metadata : list EntryMetadata) : list EntryMetadata :=
  match target_entry_names with
  | [] => all_entry_metadata
  | entry_name :: rest =>
      match get_entry c entry_name with
      | Raised _ => entry_loop c rest all_entry_metadata
      | Returned aspects_data =>
          let short := short_table_name entry_name in
          let full_bq_table_id := PROJECT_ID +:+ "." +:+ DATASET_NAME +:+ "." +:+ short in
          let table_description :=
            match get_table c full_bq_table_id with
            | Returned d => if truthy_opt d then default "" d else ""
            | Raised _ => ""
            end in
          entry_loop c rest
            (all_entry_metadata ++
             [{| table_name := short; description := table_description;
                 aspects := aspects_data |}])
      end
  end.

Definition fetch_table_entry_metadata (c : Catalog) : Outcome (list EntryMetadata) :=
  clients c;;
  let target_entry_names :=
    match TABLE_NAMES c with
    | [] => match search_entries c with
            | Returned names => names
            | Raised _ => []
            end
    | names => entry_name_of <$> names
    end in
  mret (entry_loop c target_entry_names []).

End catalog.
Arguments Catalog : clear implicits.
Arguments EntryMetadata : clear implicits.

End data_agent_catalog.

(** * Vocabulary of the properties

    Definitions used to state the properties below; none of them is part of
    the code. *)

(** A computation keeps a component [proj] of the state when no run of it
    changes that component, whether it returns or raises. *)
Definition keeps {S A B} (proj : S -> B) (m : Eff S A) : Prop :=
  forall st, proj (m st).2 = proj st.

(** A computation does not depend on what the generator still holds. *)
Definition generator_blind {A} (m : Eff ChatState A) : Prop :=
  forall g st, m (set_generator g st) = ((m st).1, set_generator g (m st).2).

(** The value [req_data.get('message', {}).get('message')] when evaluating
    it does not raise. *)
Definition message_value (message : MessageField) : option PyVal :=
  match message with
  | MsgAbsent => Some PyNone
  | MsgDict v => Some v
  | MsgNotDict => None
  end.

(** The request passes the check [all([user_id, session_id, message_text])];
    the result is the call the handler then makes to the agent runtime. *)
Definition validated (req_data : ReqData) : option AgentCall :=
  match req_data with
  | ReqNotDict => None
  | ReqDict raw_user_id raw_session_id message =>
      match message_value message with
      | None => None
      | Some inner =>
          let call := {| call_user_id := sanitize_for_log raw_user_id;
                         call_session_id := sanitize_for_log raw_session_id;
                         call_message_text := sanitize_for_log inner |} in
          if truthy (call_user_id call) && truthy (call_session_id call)
             && truthy (call_message_text call)
          then Some call else None
      end
  end.

(** The state in which the [async for] loop is entered. *)
Definition loop_entry (call : AgentCall) : ChatState :=
  {| user_id := Some (call_user_id call);
     session_id := Some (call_session_id call);
     kpi_data := <["llm_round_trips" := KInt 0]>
                   (<["question" := KStr (call_message_text call)]>
                      (<["session_id" := KStr (call_session_id call)]>
                         (<["user_id" := KStr (call_user_id call)]> ∅)));
     final_response_parts := [];
     llm_response_text := "";
     agent_calls := [call];
     generator := [] |}.

(** The statements of [chat_try] after the loop. *)
Definition chat_finish (session_id : string) : Eff ChatState Response :=
  generated_sql ← kpi_getitem "generated_sql";
  llm_response_text ← gets llm_response_text;
  kpi_setitem "clarification_asked"
    (KBool (if decide (generated_sql = KStr "N/A")
            then truthy llm_response_text else false));;
  final_response_parts ← gets final_response_parts;
  mret (jsonify [("session_id", JStr session_id);
                 ("messages", JArr final_response_parts)] 200).

(** The round-trip counter holds an integer. *)
Definition counter_ok (st : ChatState) : Prop :=
  exists n, kpi_data st !! "llm_round_trips" = Some (KInt n).

(** The text fragments of the parts of one event, joined. *)
Fixpoint turn_text (ps : list genai_types.Part) : string :=
  match ps with
  | [] => ""
  | part :: rest =>
      match genai_types.text part with
      | Some t => t +:+ turn_text rest
      | None => turn_text rest
      end
  end.

(** The SQL string a part carries: a non-empty [sql_query] argument of its
    function call. *)
Definition part_sql (part : genai_types.Part) : option string :=
  fc ← genai_types.function_call part;
  d ← genai_types.args fc;
  raw_sql ← d !! "sql_query";
  if truthy raw_sql then Some raw_sql else None.

(** The SQL string captured in one event: the last one its parts carry. *)
Fixpoint turn_sql (ps : list genai_types.Part) : option string :=
  match ps with
  | [] => None
  | part :: rest =>
      match turn_sql rest with
      | Some sql => Some sql
      | None => part_sql part
      end
  end.

(** Every function call among the parts has its [args] dict. *)
Definition parts_have_args (ps : list genai_types.Part) : Prop :=
  forall part fc, part ∈ ps -> genai_types.function_call part = Some fc ->
                  genai_types.args fc <> None.

(** The output messages the specification assigns to a model event. *)
Definition turn_messages (ps : list genai_types.Part) : list JSON :=
  match turn_sql ps with
  | Some sql => [chat_message "model" (formatted_sql sql)]
  | None => if truthy (turn_text ps) then [chat_message "model" (turn_text ps)]
            else []
  end.

(** An output message of role ["model"]. *)
Definition is_model_message (m : JSON) : Prop :=
  exists content, m = chat_message "model" content.

(** The event that carries the error code [code]. *)
Definition carries_error_code (event : Event) (code : string) : Prop :=
  error_code event = Some code /\ truthy code = true.

(** Events for the examples: a text part, a part calling a tool with the
    argument [sql_query], a model event with given parts, an error event. *)
Definition text_part (t : string) : genai_types.Part :=
  {| genai_types.text := Some t; genai_types.function_call := None |}.

Definition sql_part (q : string) : genai_types.Part :=
  {| genai_types.text := None;
     genai_types.function_call :=
       Some {| genai_types.args := Some {[ "sql_query" := q ]} |} |}.

Definition model_event (ps : list genai_types.Part) : Event :=
  {| error_code := None;
     content := Some {| genai_types.role := Some "model";
                        genai_types.parts := Some ps |} |}.

Definition error_event (code : string) : Event :=
  {| error_code := Some code; content := None |}.

(** A server whose runtime answers every call with the same stream. *)
Definition server_with (items : list StreamItem) : Server :=
  {| components_ready := true; run_async := fun _ => items |}.

(** The request [{"user_id": "u1", "session_id": "s1",
    "message": {"message": "hi"}}] and the call it leads to. *)
Definition sample_request : ReqData :=
  ReqDict (PyStr "u1") (PyStr "s1") (MsgDict (PyStr "hi")).

Definition sample_call : AgentCall :=
  {| call_user_id := "u1"; call_session_id := "s1"; call_message_text := "hi" |}.

(** Warehouses for the examples: one that answers, and one for which the
    BigQuery client cannot be built. *)
Definition sample_warehouse : Warehouse :=
  {| clock := 1000; latency := 1;
     bigquery_Client := Returned tt;
     tables_query := Returned [{| table_name := "sales"; ddl := Some "CREATE TABLE sales" |}];
     count_rows_query := fun _ => Returned [42%Z];
     count_columns_query := Returned [7%Z];
     gateway_calls := 0 |}.

Definition broken_warehouse : Warehouse :=
  {| clock := 1000; latency := 1;
     bigquery_Client := Raised (Exception "DefaultCredentialsError");
     tables_query := Returned [];
     count_rows_query := fun _ => Returned [];
     count_columns_query := Returned [];
     gateway_calls := 0 |}.

(** The same warehouse, read at a later time. *)
Definition at_time (t : Q) (w : Warehouse) : Warehouse :=
  {| clock := t; latency := latency w;
     bigquery_Client := bigquery_Client w; tables_query := tables_query w;
     count_rows_query := count_rows_query w;
     count_columns_query := count_columns_query w;
     gateway_calls := gateway_calls w |}.

Definition tables_url : string := "http://localhost:8080/api/tables".

Definition internal_server_error : Response :=
  jsonify [("error", JStr "Internal server error")] 500.

(** A step of startup prompt assembly raises when it is run: each fetch,
    the serialization of a fetched collection, the loading of the template,
    and the interpolation of the serialized strings. *)
Inductive step_raises {Row : Type} (env : Startup Row) : Prop :=
| metadata_fetch_raises e :
    fetch_table_entry_metadata env = Raised e -> step_raises env
| profile_fetch_raises e :
    fetch_bigquery_data_profiles env = Raised e -> step_raises env
| sample_fetch_raises e :
    fetch_bigquery_data_profiles env = Returned [] ->
    fetch_sample_data_for_tables env = Raised e -> step_raises env
| serialization_raises rows e :
    fetch_table_entry_metadata env = Returned rows \/
    fetch_bigquery_data_profiles env = Returned rows \/
    (fetch_bigquery_data_profiles env = Returned [] /\
     fetch_sample_data_for_tables env = Returned rows) ->
    json_dumps env rows = Raised e -> step_raises env
| template_load_raises e :
    load_instruction_template env = Raised e -> step_raises env
| interpolation_raises table_metadata data_profiles samples a b c template e :
    fetch_table_entry_metadata env = Returned table_metadata ->
    fetch_bigquery_data_profiles env = Returned data_profiles ->
    match data_profiles with
    | [] => fetch_sample_data_for_tables env
    | _ :: _ => Returned []
    end = Returned samples ->
    json_dumps env table_metadata = Returned a ->
    json_dumps env data_profiles = Returned b ->
    json_dumps env samples = Returned c ->
    load_instruction_template env = Returned template ->
    format env template a b c = Raised e -> step_raises env.

(** The same startup with another outcome of the debug save. *)
Definition with_write_prompt_file {Row : Type}
    (write : string -> Outcome unit) (env : Startup Row) : Startup Row :=
  {| fetch_table_entry_metadata := fetch_table_entry_metadata env;
     fetch_bigquery_data_profiles := fetch_bigquery_data_profiles env;
     fetch_sample_data_for_tables := fetch_sample_data_for_tables env;
     json_dumps := json_dumps env;
     load_instruction_template := load_instruction_template env;
     format := format env;
     print_log_payload := print_log_payload env;
     write_prompt_file := write;
     count_tokens := count_tokens env;
     log_startup_kpis := log_startup_kpis env |}.

(** A startup over rows that are plain strings, in which every step
    succeeds and the template is filled by concatenation. *)
Definition sample_startup : Startup string :=
  {| fetch_table_entry_metadata := Returned ["sales"];
     fetch_bigquery_data_profiles := Returned [];
     fetch_sample_data_for_tables := Returned ["row"];
     json_dumps := fun rows => Returned (String.concat "," rows);
     load_instruction_template := Returned "Tables: ";
     format := fun template a b c => Returned (template +:+ a +:+ ";" +:+ b +:+ ";" +:+ c);
     print_log_payload := fun _ => Returned tt;
     write_prompt_file := fun _ => Returned tt;
     count_tokens := fun _ => Returned 12%Z;
     log_startup_kpis := fun _ _ _ => Returned tt |}.

(** The same, with a metadata fetch that raises. *)
Definition failing_startup : Startup string :=
  {| fetch_table_entry_metadata := Raised (Exception "PermissionDenied");
     fetch_bigquery_data_profiles := Returned [];
     fetch_sample_data_for_tables := Returned ["row"];
     json_dumps := fun rows => Returned (String.concat "," rows);
     load_instruction_template := Returned "Tables: ";
     format := fun template a b c => Returned (template +:+ a +:+ ";" +:+ b +:+ ";" +:+ c);
     print_log_payload := fun _ => Returned tt;
     write_prompt_file := fun _ => Returned tt;
     count_tokens := fun _ => Returned 12%Z;
     log_startup_kpis := fun _ _ _ => Returned tt |}.

(** A file system for the examples: the project is at [/app], and
    [data_agent] holds [utils.py]. *)
Definition sample_fs (path : string) : ReadResult :=
  if String.eqb path "/app/data_agent/utils.py"
  then FileContent "import collections"
  else FileNotFoundError.

(** The parts the handler scans in an event: those of a content of role
    ["model"]. *)
Definition event_parts (event : Event) : list genai_types.Part :=
  match content event with
  | Some c =>
      if decide (genai_types.role c = Some "model")
      then default [] (genai_types.parts c) else []
  | None => []
  end.

(** The handler can scan the event: a content of role ["model"] has its
    list of parts, and each function call in it its [args]. *)
Definition event_scannable (event : Event) : Prop :=
  forall c, content event = Some c -> genai_types.role c = Some "model" ->
            exists ps, genai_types.parts c = Some ps /\ parts_have_args ps.

(** The assistant text of a whole exchange, and the SQL string captured
    last in it. *)
Fixpoint exchange_text (events : list Event) : string :=
  match events with
  | [] => ""
  | event :: rest => turn_text (event_parts event) +:+ exchange_text rest
  end.

Fixpoint exchange_sql (events : list Event) : option string :=
  match events with
  | [] => None
  | event :: rest =>
      match exchange_sql rest with
      | Some sql => Some sql
      | None => turn_sql (event_parts event)
      end
  end.

(** The event has a content of role ["model"]: one round trip to the
    model. *)
Definition is_model_content (event : Event) : bool :=
  match content event with
  | Some c => bool_decide (genai_types.role c = Some "model")
  | None => false
  end.

(** The output messages of a whole exchange, in the order of its events,
    and the number of its round trips. *)
Fixpoint exchange_messages (events : list Event) : list JSON :=
  match events with
  | [] => []
  | event :: rest => turn_messages (event_parts event) ++ exchange_messages rest
  end.

Fixpoint round_trips (events : list Event) : Z :=
  match events with
  | [] => 0
  | event :: rest => (if is_model_content event then 1 else 0) + round_trips rest
  end.

(** Deciding [parts_have_args] and [event_scannable]. *)
Definition parts_have_argsb (ps : list genai_types.Part) : bool :=
  forallb (fun part =>
             match genai_types.function_call part with
             | Some fc => bool_decide (is_Some (genai_types.args fc))
             | None => true
             end) ps.

Definition event_scannableb (event : Event) : bool :=
  match content event with
  | Some c =>
      if decide (genai_types.role c = Some "model") then
        match genai_types.parts c with
        | Some ps => parts_have_argsb ps
        | None => false
        end
      else true
  | None => true
  end.

(** An exchange the handler can process to its end: no event carries an
    error code, and every event can be scanned. *)
Definition exchange_cleanb (events : list Event) : bool :=
  forallb (fun e => negb (truthy_opt (error_code e)) && event_scannableb e) events.

(** What [get_total_rows] and [get_total_column_count] make of the outcome
    of their query: [0] when it raises, the first value when there is a
    row, [None] when there is none. *)
Definition count_or_zero (o : Outcome (list Z)) : option Z :=
  match o with
  | Raised _ => Some 0%Z
  | Returned rows => head rows
  end.

(** The tables [get_table_ddl_strings] lists: none when the query raises. *)
Definition listed_tables (w : Warehouse) : list TableRow :=
  match tables_query w with
  | Returned rows => filter (fun row => truthy_opt (ddl row) = true) rows
  | Raised _ => []
  end.

(** The world after one more gateway call. *)
Definition tick (w : Warehouse) : Warehouse := (enter_gateway w).2.

(** The parts [test_query] scans in an event: those of any content,
    whatever its role. *)
Definition test_event_parts (event : AdkEvent) : list genai_types.Part :=
  match content (adk_event event) with
  | Some c => default [] (genai_types.parts c)
  | None => []
  end.

(** [test_query] passes over the event: it carries no error code, its
    parts can be scanned, and they capture no SQL string. *)
Definition test_quietb (event : AdkEvent) : bool :=
  negb (truthy_opt (error_code (adk_event event))) &&
  match content (adk_event event) with
  | Some c =>
      match genai_types.parts c with
      | Some ps => parts_have_argsb ps && bool_decide (turn_sql ps = None)
      | None => false
      end
  | None => true
  end.

(** The text [test_query] accumulates over events. *)
Fixpoint test_text (events : list AdkEvent) : string :=
  match events with
  | [] => ""
  | event :: rest => turn_text (test_event_parts event) +:+ test_text rest
  end.

(** An event of the runtime without error message. *)
Definition plain (event : Event) : AdkEvent :=
  {| adk_event := event; error_message := None |}.

(** An application for the examples, built with a runtime that answers
    every call with the same stream, and an empty session store that names
    its sessions ["temp-1"]. *)
Definition sample_app (items : list AdkItem) : App :=
  create_app {| imports_ok := true; database_session := Returned tt;
                build_runner := Returned tt; runtime := fun _ => items |}.

Definition sample_store : SessionStore :=
  {| sessions := []; new_session := fun _ _ _ => Returned "temp-1" |}.

(** A [Decimal] occurs in the value, at any depth of its lists and dicts. *)
Fixpoint has_decimal {Dec Flo Atom : Type} (obj : data_agent_utils.PyData Dec Flo Atom)
  : bool :=
  match obj with
  | data_agent_utils.DList items => existsb has_decimal items
  | data_agent_utils.DDict entries =>
      existsb (fun kv => match kv with (_, v) => has_decimal v end) entries
  | data_agent_utils.DDecimal _ => true
  | _ => false
  end.

(** The tables [fetch_sample_data_for_tables] goes through: the configured
    ones, or else those the dataset lists, none when listing raises. *)
Definition tables_to_fetch {Dec Flo Atom : Type}
    (ds : data_agent_utils.Dataset Dec Flo Atom) : list string :=
  match data_agent_utils.TABLE_NAMES ds with
  | [] => match data_agent_utils.list_dataset_tables ds with
          | Returned names => names
          | Raised _ => []
          end
  | names => names
  end.

(** The sample of one table: none when reading its rows raises or gives no
    row. *)
Definition sample_of {Dec Flo Atom : Type} (float : Dec -> Flo)
    (ds : data_agent_utils.Dataset Dec Flo Atom) (table_id : string)
  : option (data_agent_utils.TableSample Dec Flo Atom) :=
  let full_table_name := PROJECT_ID +:+ "." +:+ DATASET_NAME +:+ "." +:+ table_id in
  match data_agent_utils.list_table_rows ds full_table_name with
  | Returned raw_rows =>
      match data_agent_utils.cleaned_rows float raw_rows with
      | [] => None
      | cleaned =>
          Some {| data_agent_utils.sample_table_name := full_table_name;
                  data_agent_utils.sample_rows := cleaned |}
      end
  | Raised _ => None
  end.

(** The element [fetch_table_entry_metadata] adds for an entry name: none
    when [get_entry] raises; an empty description when the lookup of the
    table raises or gives none. *)
Definition entry_of {Aspects : Type} (c : data_agent_catalog.Catalog Aspects)
    (entry_name : string) : option (data_agent_catalog.EntryMetadata Aspects) :=
  match data_agent_catalog.get_entry c entry_name with
  | Raised _ => None
  | Returned aspects_data =>
      let short := data_agent_catalog.short_table_name entry_name in
      Some {| data_agent_catalog.table_name := short;
              data_agent_catalog.description :=
                match data_agent_catalog.get_table c
                        (PROJECT_ID +:+ "." +:+ DATASET_NAME +:+ "." +:+ short) with
                | Returned d => if truthy_opt d then default "" d else ""
                | Raised _ => ""
                end;
              data_agent_catalog.aspects := aspects_data |}
  end.

(** The last component of the entry name of a configured table: the
    identifier of the table in the catalog, with its slashes encoded. *)
Definition encoded_table_id (table_name : string) : string :=
  "bigquery.googleapis.com%2Fprojects%2Fagentic-data%2Fdatasets%2Fmdp_ad_td_bqd_common_prod%2Ftables%2F"
  +:+ table_name.

(** The token count handed to the KPI log: the count of the model, or 0
    when counting raises. *)
Definition token_count_or_zero {Row : Type} (env : Startup Row) (prompt : string) : Z :=
  match count_tokens env prompt with
  | Returned n => n
  | Raised _ => 0%Z
  end.

(** The sample startup whose KPI log raises. *)
Definition kpi_failing_startup : Startup string :=
  {| fetch_table_entry_metadata := fetch_table_entry_metadata sample_startup;
     fetch_bigquery_data_profiles := fetch_bigquery_data_profiles sample_startup;
     fetch_sample_data_for_tables := fetch_sample_data_for_tables sample_startup;
     json_dumps := json_dumps sample_startup;
     load_instruction_template := load_instruction_template sample_startup;
     format := format sample_startup;
     print_log_payload := fun _ => Raised (Exception "BrokenPipeError");
     write_prompt_file := write_prompt_file sample_startup;
     count_tokens := fun _ => Raised (Exception "Unauthenticated");
     log_startup_kpis := fun _ _ _ => Raised (Exception "AttributeError") |}.

(** A part that calls a tool without arguments: its function call has no
    [args]. *)
Definition call_without_args : genai_types.Part :=
  {| genai_types.text := None;
     genai_types.function_call := Some {| genai_types.args := None |} |}.

(** A server whose runtime echoes the arguments of the call it receives, in
    the text of one model event. *)
Definition echo_server : Server :=
  {| components_ready := true;
     run_async := fun call =>
       [Yield (model_event [text_part (call_user_id call +:+ "|" +:+
                                       call_session_id call +:+ "|" +:+
                                       call_message_text call)])] |}.


(** * Properties *)

(** ** The monad *)

Lemma bind_unfold {S A B} (m : Eff S A) (k : A -> Eff S B) (st : S) :
  (m ≫= k) st =
  match m st with
  | (Returned a, st') => k a st'
  | (Raised e, st') => (Raised e, st')
  end.
Proof. reflexivity. Qed.

Lemma bind_returned {S A B} (m : Eff S A) (k : A -> Eff S B) st a st' :
  m st = (Returned a, st') -> (m ≫= k) st = k a st'.
Proof. intros H. rewrite bind_unfold, H. reflexivity. Qed.

Lemma bind_raised {S A B} (m : Eff S A) (k : A -> Eff S B) st e st' :
  m st = (Raised e, st') -> (m ≫= k) st = (Raised e, st').
Proof. intros H. rewrite bind_unfold, H. reflexivity. Qed.

Lemma keeps_ret {S A B} (proj : S -> B) (a : A) : keeps proj (mret a).
Proof. intros st. reflexivity. Qed.

Lemma keeps_raise {S A B} (proj : S -> B) (e : exn) : keeps proj (@raise S A e).
Proof. intros st. reflexivity. Qed.

Lemma keeps_gets {S A B} (proj : S -> B) (g : S -> A) : keeps proj (gets g).
Proof. intros st. reflexivity. Qed.

Lemma keeps_modify {S B} (proj : S -> B) (g : S -> S) :
  (forall st, proj (g st) = proj st) -> keeps proj (modify g).
Proof. intros H st. apply H. Qed.

Lemma keeps_bind {S A A' B} (proj : S -> B) (m : Eff S A) (k : A -> Eff S A') :
  keeps proj m -> (forall a, keeps proj (k a)) -> keeps proj (m ≫= k).
Proof.
  intros Hm Hk st. rewrite bind_unfold.
  specialize (Hm st). destruct (m st) as [[a|e] st']; simpl in *.
  - rewrite Hk. exact Hm.
  - exact Hm.
Qed.


(** ** [sanitize_for_log] *)

Lemma is_control_spec (c : ascii) :
  is_control c = true <-> (nat_of_ascii c <= 31 \/ nat_of_ascii c = 127)%nat.
Proof.
  unfold is_control. rewrite orb_true_iff, Nat.leb_le, Nat.eqb_eq. reflexivity.
Qed.

Lemma question_mark_not_control : is_control "?" = false.
Proof. reflexivity. Qed.

(** Every character of the result is the character at the same place of
    the input, or ['?'] where that was a control character. *)
Lemma re_sub_control_get (s : string) (i : nat) :
  String.get i (re_sub_control s) =
  (fun c => if is_control c then "?"%char else c) <$> String.get i s.
Proof.
  revert i. induction s as [|c s IH]; intros i; simpl.
  - reflexivity.
  - destruct i as [|i]; [reflexivity | apply IH].
Qed.

Lemma re_sub_control_length (s : string) :
  String.length (re_sub_control s) = String.length s.
Proof. induction s as [|c s IH]; simpl; congruence. Qed.

(** No control character is left in the result. *)
Lemma re_sub_control_clean (s : string) (i : nat) (c : ascii) :
  String.get i (re_sub_control s) = Some c -> is_control c = false.
Proof.
  rewrite re_sub_control_get. destruct (String.get i s) as [c0|]; simpl; [|discriminate].
  intros [= <-]. destruct (is_control c0) eqn:E; [reflexivity | exact E].
Qed.

(** A string without control characters is left as it is. *)
Lemma re_sub_control_id (s : string) :
  (forall i c, String.get i s = Some c -> is_control c = false) ->
  re_sub_control s = s.
Proof.
  induction s as [|c s IH]; intros H; simpl; [reflexivity|].
  rewrite (H 0%nat c eq_refl). f_equal. apply IH.
  intros i c' Hi. apply (H (S i)). exact Hi.
Qed.

(** ** Strings *)

Lemma append_cons (c : ascii) (s1 s2 : string) :
  String c s1 +:+ s2 = String c (s1 +:+ s2).
Proof. reflexivity. Qed.

Lemma append_nil_l (s : string) : "" +:+ s = s.
Proof. reflexivity. Qed.

Lemma append_nil_r (s : string) : s +:+ "" = s.
Proof.
  induction s as [|c s IH]; [reflexivity|]. rewrite append_cons, IH. reflexivity.
Qed.

Lemma append_assoc (s1 s2 s3 : string) : (s1 +:+ s2) +:+ s3 = s1 +:+ (s2 +:+ s3).
Proof.
  induction s1 as [|c s1 IH]; [reflexivity|]. rewrite !append_cons, IH. reflexivity.
Qed.

Lemma truthy_false (s : string) : truthy s = false <-> s = "".
Proof. destruct s; simpl; split; intros H; (reflexivity || discriminate H). Qed.

Lemma truthy_append (s1 s2 : string) : truthy s1 = true -> truthy (s1 +:+ s2) = true.
Proof. destruct s1; [discriminate | reflexivity]. Qed.

(** ** The chat loop: what it leaves alone *)

Section frames.
Context {B : Type} (proj : ChatState -> B).
Hypothesis frame_kpi : forall v st, proj (set_kpi_data v st) = proj st.

Lemma kpi_getitem_keeps key : keeps proj (kpi_getitem key).
Proof.
  intros st. unfold kpi_getitem. destruct (kpi_data st !! key); simpl; [reflexivity|].
  apply frame_kpi.
Qed.

Lemma kpi_setitem_keeps key v : keeps proj (kpi_setitem key v).
Proof. apply keeps_modify. intros st. apply frame_kpi. Qed.

Lemma part_step_keeps part turn : keeps proj (part_step part turn).
Proof.
  unfold part_step. destruct turn as [t s].
  destruct (genai_types.function_call part) as [fc|]; [|apply keeps_ret].
  destruct (genai_types.args fc) as [d|]; [|apply keeps_raise].
  destruct (d !! "sql_query") as [raw_sql|]; [|apply keeps_ret].
  destruct (truthy raw_sql); [|apply keeps_ret].
  apply keeps_bind; [apply kpi_setitem_keeps | intros; apply keeps_ret].
Qed.

Lemma for_parts_keeps ps turn : keeps proj (for_parts ps turn).
Proof.
  revert turn. induction ps as [|part ps IH]; intros turn; simpl.
  - apply keeps_ret.
  - apply keeps_bind; [apply part_step_keeps | exact IH].
Qed.

Hypothesis frame_parts : forall v st, proj (set_final_response_parts v st) = proj st.
Hypothesis frame_text : forall v st, proj (set_llm_response_text v st) = proj st.

Lemma append_part_keeps m : keeps proj (append_part m).
Proof. apply keeps_modify. intros st. apply frame_parts. Qed.

Lemma loop_body_keeps event : keeps proj (loop_body event).
Proof.
  unfold loop_body. destruct (truthy_opt (error_code event)).
  { apply keeps_bind; [apply append_part_keeps | intros _].
    apply keeps_bind; [apply kpi_setitem_keeps | intros _; apply keeps_ret]. }
  destruct (content event) as [c|]; [|apply keeps_ret].
  case_decide; [|apply keeps_ret].
  apply keeps_bind; [apply kpi_getitem_keeps | intros trips].
  apply keeps_bind.
  { destruct trips; auto using kpi_setitem_keeps, keeps_raise. }
  intros _. apply keeps_bind.
  { destruct (genai_types.parts c); auto using keeps_ret, keeps_raise. }
  intros ps. apply keeps_bind; [apply for_parts_keeps | intros [t s]].
  apply keeps_bind.
  { destruct (truthy t); [|apply keeps_ret].
    apply keeps_modify. intros st. apply frame_text. }
  intros _. apply keeps_bind; [|intros; apply keeps_ret].
  destruct (truthy_opt s); [apply append_part_keeps|].
  destruct (truthy t); [apply append_part_keeps | apply keeps_ret].
Qed.

Hypothesis frame_generator : forall v st, proj (set_generator v st) = proj st.

Lemma async_for_keeps items : keeps proj (async_for items).
Proof.
  induction items as [|item rest IH]; simpl.
  - apply keeps_modify. intros st. apply frame_generator.
  - apply keeps_bind; [apply keeps_modify; intros st; apply frame_generator | intros _].
    destruct item as [event|e]; [|apply keeps_raise].
    apply keeps_bind; [apply loop_body_keeps | intros [|]]; [exact IH | apply keeps_ret].
Qed.

End frames.

(** The loop body breaks exactly on an event with an error code. *)
Lemma loop_body_break event st st' :
  loop_body event st = (Returned Break, st') -> truthy_opt (error_code event) = true.
Proof.
  unfold loop_body. destruct (truthy_opt (error_code event)); [reflexivity|].
  destruct (content event) as [c|]; [|discriminate].
  case_decide; [|discriminate].
  rewrite bind_unfold. destruct (kpi_getitem _ st) as [[trips|e] st1]; [|discriminate].
  rewrite bind_unfold. destruct (_ st1) as [[[]|e] st2]; [|discriminate].
  rewrite bind_unfold. destruct (_ st2) as [[ps|e] st3]; [|discriminate].
  rewrite bind_unfold. destruct (for_parts ps _ st3) as [[[t s]|e] st4]; [|discriminate].
  rewrite bind_unfold. destruct (_ st4) as [[[]|e] st5]; [|discriminate].
  rewrite bind_unfold. destruct (_ st5) as [[[]|e] st6]; discriminate.
Qed.

Lemma loop_body_error event code st :
  carries_error_code event code ->
  loop_body event st =
  (Returned Break,
   set_kpi_data (<["agent_error" := KStr code]> (kpi_data st))
     (set_final_response_parts
        (final_response_parts st ++ [chat_message "assistant" (apology +:+ code)]) st)).
Proof.
  intros [Hcode Htruthy]. unfold loop_body. rewrite Hcode. simpl. rewrite Htruthy.
  reflexivity.
Qed.

(** ** [chat_handler]: the shape of a run *)

Lemma validated_inv req_data call :
  validated req_data = Some call ->
  exists raw_user_id raw_session_id message inner,
    req_data = ReqDict raw_user_id raw_session_id message /\
    message_value message = Some inner /\
    call = {| call_user_id := sanitize_for_log raw_user_id;
              call_session_id := sanitize_for_log raw_session_id;
              call_message_text := sanitize_for_log inner |} /\
    truthy (call_user_id call) = true /\
    truthy (call_session_id call) = true /\
    truthy (call_message_text call) = true.
Proof.
  destruct req_data as [|u s m]; simpl; [discriminate|].
  destruct (message_value m) as [inner|] eqn:Hm; [|discriminate].
  destruct (truthy (sanitize_for_log u)) eqn:Hu; [|discriminate].
  destruct (truthy (sanitize_for_log s)) eqn:Hs; [|discriminate].
  destruct (truthy (sanitize_for_log inner)) eqn:Hi; [|discriminate].
  simpl. intros [= <-]. exists u, s, m, inner. simpl. auto 10.
Qed.

(** A validated request reaches the loop in the state [loop_entry], after
    exactly one call to the agent runtime. *)
Lemma chat_try_valid srv req_data call :
  validated req_data = Some call ->
  chat_try srv req_data initial_state =
  (async_for (run_async srv call);; chat_finish (call_session_id call))
    (loop_entry call).
Proof.
  intros H. apply validated_inv in H as (u & s & m & inner & -> & Hm & -> & Hu & Hs & Hi).
  simpl in Hu, Hs, Hi. unfold chat_try.
  destruct m as [|v|]; simpl in Hm; try discriminate; injection Hm as ->;
    cbv [mbind mret Eff_bind Eff_ret modify]; cbv beta iota;
    rewrite Hu, Hs, Hi; reflexivity.
Qed.

(** A request that does not pass the check never reaches the agent runtime. *)
Lemma chat_try_invalid srv req_data :
  validated req_data = None ->
  agent_calls (chat_try srv req_data initial_state).2 = [].
Proof.
  destruct req_data as [|u s m]; [reflexivity|]. unfold validated, chat_try.
  destruct m as [|v|]; cbv [message_value]; cbv beta iota; try reflexivity;
    cbv [mbind mret Eff_bind Eff_ret modify call_user_id call_session_id
         call_message_text]; cbv beta iota;
    match goal with
    | |- context [truthy ?a && truthy ?b && truthy ?c] =>
        destruct (truthy a && truthy b && truthy c);
        intros H; [discriminate H | reflexivity]
    end.
Qed.

Lemma chat_finish_returns sid st :
  exists st', chat_finish sid st =
              (Returned (jsonify [("session_id", JStr sid);
                                  ("messages", JArr (final_response_parts st))] 200), st')
              /\ generator st' = generator st
              /\ agent_calls st' = agent_calls st
              /\ final_response_parts st' = final_response_parts st.
Proof.
  unfold chat_finish, kpi_getitem. rewrite bind_unfold.
  destruct (kpi_data st !! "generated_sql"); eexists; split; reflexivity || auto.
Qed.

Lemma chat_except_returns e st :
  chat_except e st =
  (Returned (jsonify [("session_id",
                       JStr (if truthy_opt (session_id st)
                             then default "" (session_id st) else ""));
                      ("messages", JArr []);
                      ("error", JStr "Internal server error")] 500),
   set_kpi_data (<["server_error" := KStr (exn_text e)]> (kpi_data st)) st).
Proof. reflexivity. Qed.

(** The run of the handler on a validated request, in terms of the run of
    its loop. *)
Lemma chat_handler_valid srv req_data call :
  components_ready srv = true ->
  validated req_data = Some call ->
  chat_handler srv req_data =
  match async_for (run_async srv call) (loop_entry call) with
  | (Returned _, st) => chat_finish (call_session_id call) st
  | (Raised e, st) => chat_except e st
  end.
Proof.
  intros Hready Hvalid. unfold chat_handler, try_except. rewrite Hready.
  rewrite (chat_try_valid _ _ _ Hvalid), bind_unfold.
  destruct (async_for _ _) as [[[]|e] st]; [|reflexivity].
  destruct (chat_finish_returns (call_session_id call) st) as (st' & -> & _).
  reflexivity.
Qed.

(** No exception leaves the handler. *)
Lemma chat_handler_returns srv req_data :
  exists r, (chat_handler srv req_data).1 = Returned r.
Proof.
  unfold chat_handler. destruct (components_ready srv); [|eexists; reflexivity].
  unfold try_except. destruct (chat_try _ _ _) as [[r|e] st]; eexists; reflexivity.
Qed.

Lemma async_for_agent_calls items st :
  agent_calls (async_for items st).2 = agent_calls st.
Proof. apply (async_for_keeps agent_calls); reflexivity. Qed.

Lemma async_for_session_id items st :
  session_id (async_for items st).2 = session_id st.
Proof. apply (async_for_keeps session_id); reflexivity. Qed.

(** A validated request makes exactly one call to the agent runtime. *)
Lemma chat_handler_valid_calls srv req_data call :
  components_ready srv = true ->
  validated req_data = Some call ->
  agent_calls (chat_handler srv req_data).2 = [call].
Proof.
  intros Hready Hvalid. rewrite (chat_handler_valid _ _ _ Hready Hvalid).
  pose proof (async_for_agent_calls (run_async srv call) (loop_entry call)) as H.
  destruct (async_for _ _) as [[[]|e] st]; simpl in H.
  - destruct (chat_finish_returns (call_session_id call) st) as (st' & -> & _ & Hc & _).
    simpl. rewrite Hc. exact H.
  - rewrite chat_except_returns. exact H.
Qed.

(** Any other request makes none. *)
Lemma chat_handler_invalid_calls srv req_data :
  validated req_data = None ->
  agent_calls (chat_handler srv req_data).2 = [].
Proof.
  intros Hinvalid. unfold chat_handler. destruct (components_ready srv); [|reflexivity].
  unfold try_except. pose proof (chat_try_invalid srv _ Hinvalid) as H.
  destruct (chat_try _ _ _) as [[r|e] st]; simpl in H; [exact H|].
  rewrite chat_except_returns. exact H.
Qed.

Lemma handler_not_ready_calls srv req_data :
  components_ready srv = false ->
  agent_calls (chat_handler srv req_data).2 = [].
Proof. intros H. unfold chat_handler. rewrite H. reflexivity. Qed.

(** A field that is absent from the body passes the check: its sanitized
    form is the text ["None"]. *)
Lemma missing_user_id_validated raw_session_id inner :
  truthy (sanitize_for_log raw_session_id) = true ->
  truthy (sanitize_for_log inner) = true ->
  validated (ReqDict PyNone raw_session_id (MsgDict inner)) =
  Some {| call_user_id := "None";
          call_session_id := sanitize_for_log raw_session_id;
          call_message_text := sanitize_for_log inner |}.
Proof.
  intros Hs Hi. unfold validated, message_value.
  cbv [call_user_id call_session_id call_message_text].
  rewrite Hs, Hi. reflexivity.
Qed.

(** What the check does reject: a field whose sanitized form is empty,
    that is, a field that is present and is the empty string. *)
Lemma empty_field_rejected srv raw_user_id raw_session_id message inner :
  components_ready srv = true ->
  message_value message = Some inner ->
  sanitize_for_log raw_user_id = "" \/ sanitize_for_log raw_session_id = "" \/
  sanitize_for_log inner = "" ->
  chat_handler srv (ReqDict raw_user_id raw_session_id message) =
  (Returned (jsonify [("error", JStr "user_id, session_id, and message are required")] 400),
   set_session_id (sanitize_for_log raw_session_id)
     (set_user_id (sanitize_for_log raw_user_id) initial_state)).
Proof.
  intros Hready Hm Hempty. unfold chat_handler, try_except, chat_try. rewrite Hready.
  assert (truthy (sanitize_for_log raw_user_id) && truthy (sanitize_for_log raw_session_id)
          && truthy (sanitize_for_log inner) = false) as Hcheck.
  { destruct Hempty as [-> | [-> | ->]]; simpl;
      rewrite ?andb_false_r; reflexivity. }
  destruct message as [|v|]; simpl in Hm; try discriminate; injection Hm as <-;
    cbv [mbind mret Eff_bind Eff_ret modify]; cbv beta iota;
    rewrite Hcheck; reflexivity.
Qed.

(** C1 (evaluation of the code at a request without [user_id]): the body
    [{"session_id": "s1", "message": {"message": "hi"}}] is not answered
    with 400.  The handler calls the agent runtime once, with the user
    identifier ["None"], and answers 200. *)
Theorem C1_missing_user_id_reaches_agent :
  let srv := {| components_ready := true; run_async := fun _ => [] |} in
  let req_data := ReqDict PyNone (PyStr "s1") (MsgDict (PyStr "hi")) in
  (chat_handler srv req_data).1 =
    Returned (jsonify [("session_id", JStr "s1"); ("messages", JArr [])] 200) /\
  agent_calls (chat_handler srv req_data).2 =
    [{| call_user_id := "None"; call_session_id := "s1"; call_message_text := "hi" |}].
Proof. vm_compute. split; reflexivity. Qed.

(** C6: when the processing of a validated request raises, whatever the
    exception, the handler answers with status 500 and the body
    [{"session_id": <sanitized session id>, "messages": [], "error":
    "Internal server error"}].  The response is fixed by the request
    alone: the exception and its text take no part in it. *)
Theorem C6_exception_gives_generic_500 srv req_data call e st :
  components_ready srv = true ->
  validated req_data = Some call ->
  async_for (run_async srv call) (loop_entry call) = (Raised e, st) ->
  (chat_handler srv req_data).1 =
    Returned {| body := JObj [("session_id", JStr (call_session_id call));
                              ("messages", JArr []);
                              ("error", JStr "Internal server error")];
                status := 500 |}.
Proof.
  intros Hready Hvalid Hraise.
  rewrite (chat_handler_valid _ _ _ Hready Hvalid), Hraise, chat_except_returns.
  pose proof (async_for_session_id (run_async srv call) (loop_entry call)) as Hsid.
  rewrite Hraise in Hsid. simpl in Hsid. rewrite Hsid.
  apply validated_inv in Hvalid as (u & s & m & inner & _ & _ & -> & _ & Hs & _).
  simpl in *. rewrite Hs. reflexivity.
Qed.

Lemma C6_exception_gives_generic_500_witness :
  let e := Exception "connection to 10.0.0.7 refused, token=abc123" in
  let srv := {| components_ready := true; run_async := fun _ => [Throw e] |} in
  let req_data := ReqDict (PyStr "u1") (PyStr "s1") (MsgDict (PyStr "hi")) in
  (chat_handler srv req_data).1 =
    Returned {| body := JObj [("session_id", JStr "s1");
                              ("messages", JArr []);
                              ("error", JStr "Internal server error")];
                status := 500 |}.
Proof.
  intros e srv req_data.
  apply (C6_exception_gives_generic_500 srv req_data
           {| call_user_id := "u1"; call_session_id := "s1"; call_message_text := "hi" |}
           e (set_generator [] (loop_entry
              {| call_user_id := "u1"; call_session_id := "s1";
                 call_message_text := "hi" |})));
    reflexivity.
Defined.

(** ** One model event *)

Lemma turn_sql_truthy ps sql : turn_sql ps = Some sql -> truthy sql = true.
Proof.
  induction ps as [|part ps IH]; simpl; [discriminate|].
  destruct (turn_sql ps) as [q|]; [intros [= <-]; apply IH; reflexivity|].
  unfold part_sql. destruct (genai_types.function_call part) as [fc|]; simpl; [|discriminate].
  destruct (genai_types.args fc) as [d|]; simpl; [|discriminate].
  destruct (d !! "sql_query") as [raw|]; simpl; [|discriminate].
  destruct (truthy raw) eqn:E; [|discriminate]. intros [= <-]. exact E.
Qed.

(** The part of the KPI record a part can change is [generated_sql]. *)
Lemma part_step_spec part t s st :
  (forall fc, genai_types.function_call part = Some fc -> genai_types.args fc <> None) ->
  exists st',
    part_step part (t, s) st =
      (Returned (t +:+ default "" (genai_types.text part),
                 match part_sql part with Some q => Some q | None => s end), st') /\
    final_response_parts st' = final_response_parts st /\
    llm_response_text st' = llm_response_text st /\
    (forall key, key <> "generated_sql" -> kpi_data st' !! key = kpi_data st !! key) /\
    kpi_data st' !! "generated_sql" =
      match part_sql part with
      | Some q => Some (KStr q)
      | None => kpi_data st !! "generated_sql"
      end.
Proof.
  intros Hargs. unfold part_step, part_sql.
  assert ((match genai_types.text part with
           | Some t0 => if truthy t0 then t +:+ t0 else t
           | None => t
           end) = t +:+ default "" (genai_types.text part)) as ->.
  { destruct (genai_types.text part) as [t0|]; simpl; [|symmetry; apply append_nil_r].
    destruct t0; [symmetry; apply append_nil_r | reflexivity]. }
  destruct (genai_types.function_call part) as [fc|]; simpl;
    [|eexists; repeat split; reflexivity].
  specialize (Hargs fc eq_refl).
  destruct (genai_types.args fc) as [d|]; [|congruence]. simpl.
  destruct (d !! "sql_query") as [raw|]; simpl; [|eexists; repeat split; reflexivity].
  destruct (truthy raw); [|eexists; repeat split; reflexivity].
  eexists. split; [reflexivity|]. simpl. repeat split.
  - intros key Hkey. apply lookup_insert_ne. congruence.
  - apply lookup_insert_eq.
Qed.

Lemma for_parts_spec ps t s st :
  parts_have_args ps ->
  exists st',
    for_parts ps (t, s) st =
      (Returned (t +:+ turn_text ps,
                 match turn_sql ps with Some q => Some q | None => s end), st') /\
    final_response_parts st' = final_response_parts st /\
    llm_response_text st' = llm_response_text st /\
    (forall key, key <> "generated_sql" -> kpi_data st' !! key = kpi_data st !! key) /\
    kpi_data st' !! "generated_sql" =
      match turn_sql ps with
      | Some q => Some (KStr q)
      | None => kpi_data st !! "generated_sql"
      end.
Proof.
  revert t s st. induction ps as [|part ps IH]; intros t s st Hargs.
  - exists st. simpl. rewrite append_nil_r. auto 6.
  - destruct (part_step_spec part t s st) as (st1 & Hstep & Hp1 & Ht1 & Hk1 & Hg1).
    { intros fc Hfc. apply (Hargs part fc); [apply list_elem_of_here | exact Hfc]. }
    destruct (IH (t +:+ default "" (genai_types.text part))
                 (match part_sql part with Some q => Some q | None => s end) st1)
      as (st2 & Hrest & Hp2 & Ht2 & Hk2 & Hg2).
    { intros p fc Hp. apply Hargs. apply list_elem_of_further. exact Hp. }
    exists st2. split.
    + simpl for_parts. rewrite (bind_returned _ _ _ _ _ Hstep), Hrest.
      assert ((t +:+ default "" (genai_types.text part)) +:+ turn_text ps
              = t +:+ turn_text (part :: ps)) as ->.
      { rewrite append_assoc. simpl turn_text.
        destruct (genai_types.text part); reflexivity. }
      simpl turn_sql. destruct (turn_sql ps); reflexivity.
    + repeat split; [congruence | congruence | |].
      * intros key Hkey. rewrite Hk2, Hk1 by exact Hkey. reflexivity.
      * rewrite Hg2, Hg1. simpl turn_sql. destruct (turn_sql ps); reflexivity.
Qed.

Lemma loop_body_model st event c ps n :
  truthy_opt (error_code event) = false ->
  content event = Some c ->
  genai_types.role c = Some "model" ->
  genai_types.parts c = Some ps ->
  parts_have_args ps ->
  kpi_data st !! "llm_round_trips" = Some (KInt n) ->
  exists st',
    loop_body event st = (Returned Next, st') /\
    final_response_parts st' = final_response_parts st ++ turn_messages ps /\
    llm_response_text st' = llm_response_text st +:+ turn_text ps /\
    kpi_data st' !! "llm_round_trips" = Some (KInt (n + 1)) /\
    kpi_data st' !! "generated_sql" =
      match turn_sql ps with
      | Some q => Some (KStr q)
      | None => kpi_data st !! "generated_sql"
      end.
Proof.
  intros Herr Hc Hrole Hparts Hargs Hn. unfold loop_body. rewrite Herr, Hc.
  destruct (decide (genai_types.role c = Some "model")) as [_|Hne]; [|contradiction].
  erewrite bind_returned; [|unfold kpi_getitem; rewrite Hn; reflexivity].
  erewrite bind_returned; [|reflexivity].
  rewrite Hparts. erewrite bind_returned; [|reflexivity].
  match goal with
  | |- context [(for_parts ps _ ≫= _) ?s] =>
      destruct (for_parts_spec ps "" None s Hargs)
        as (st2 & Hfor & Hp2 & Ht2 & Hk2 & Hg2)
  end.
  rewrite append_nil_l in Hfor. simpl in Hp2, Ht2.
  erewrite bind_returned; [|exact Hfor]. cbv beta iota.
  assert (kpi_data st2 !! "llm_round_trips" = Some (KInt (n + 1))) as Hn2.
  { rewrite Hk2 by discriminate. simpl. apply lookup_insert_eq. }
  assert (kpi_data st2 !! "generated_sql" =
          match turn_sql ps with
          | Some q => Some (KStr q)
          | None => kpi_data st !! "generated_sql"
          end) as Hsql2.
  { rewrite Hg2. simpl. rewrite lookup_insert_ne by discriminate. reflexivity. }
  unfold turn_messages.
  destruct (turn_sql ps) as [sql|] eqn:Hsql.
  - simpl truthy_opt. simpl default. rewrite (turn_sql_truthy _ _ Hsql).
    destruct (truthy (turn_text ps)) eqn:Htext.
    + eexists. split; [reflexivity|]. simpl. rewrite Hp2, Ht2. auto.
    + eexists. split; [reflexivity|]. simpl. rewrite Hp2, Ht2.
      apply truthy_false in Htext as ->. rewrite append_nil_r. auto.
  - simpl truthy_opt. cbv iota.
    destruct (truthy (turn_text ps)) eqn:Htext.
    + eexists. split; [reflexivity|]. simpl. rewrite Hp2, Ht2. auto.
    + eexists. split; [reflexivity|]. simpl. rewrite Hp2, Ht2.
      apply truthy_false in Htext as ->. rewrite app_nil_r, append_nil_r. auto.
Qed.

Lemma loop_entry_counter call : counter_ok (loop_entry call).
Proof. exists 0%Z. simpl. apply lookup_insert_eq. Qed.

Lemma async_for_single event st :
  async_for [Yield event] st =
  match loop_body event (set_generator [] st) with
  | (Returned Next, st') => (Returned tt, set_generator [] st')
  | (Returned Break, st') => (Returned tt, st')
  | (Raised e, st') => (Raised e, st')
  end.
Proof.
  simpl. rewrite bind_unfold. simpl. rewrite bind_unfold.
  destruct (loop_body _ _) as [[[]|e] st']; reflexivity.
Qed.

(** Scanning the parts stops with an exception at a function call that
    has no [args]. *)
Lemma for_parts_raises ps turn st :
  (exists part fc, part ∈ ps /\ genai_types.function_call part = Some fc /\
                   genai_types.args fc = None) ->
  exists e st', for_parts ps turn st = (Raised e, st').
Proof.
  revert turn st.
  induction ps as [|p ps IH]; intros turn st (part & fc & Hin & Hfc & Hargs).
  - inversion Hin.
  - simpl for_parts. rewrite bind_unfold.
    destruct (part_step p turn st) as [[turn'|e] st1] eqn:Hstep; [|eauto].
    apply IH. apply elem_of_cons in Hin as [-> | Hin]; [|eauto].
    exfalso. revert Hstep. unfold part_step. destruct turn as [t s].
    rewrite Hfc, Hargs. discriminate.
Qed.

(** A model event that cannot be scanned: the body of the loop raises, and
    the output is as it was. *)
Lemma loop_body_unscannable st event c :
  truthy_opt (error_code event) = false ->
  content event = Some c ->
  genai_types.role c = Some "model" ->
  counter_ok st ->
  (genai_types.parts c = None \/
   exists ps part fc, genai_types.parts c = Some ps /\ part ∈ ps /\
     genai_types.function_call part = Some fc /\ genai_types.args fc = None) ->
  exists e st', loop_body event st = (Raised e, st') /\
                final_response_parts st' = final_response_parts st.
Proof.
  intros Herr Hc Hrole [n Hn] Hbad. unfold loop_body. rewrite Herr, Hc.
  destruct (decide (genai_types.role c = Some "model")) as [_|Hne]; [|contradiction].
  erewrite bind_returned; [|unfold kpi_getitem; rewrite Hn; reflexivity].
  erewrite bind_returned; [|reflexivity].
  destruct Hbad as [Hnone | (ps & part & fc & Hps & Hbad)].
  - rewrite Hnone. eexists _, _. split; reflexivity.
  - rewrite Hps. erewrite bind_returned; [|reflexivity].
    match goal with
    | |- context [(for_parts ps ?t ≫= _) ?s] =>
        destruct (for_parts_raises ps t s) as (e & st' & Hfor); [eauto|];
        pose proof (for_parts_keeps final_response_parts (fun _ _ => eq_refl) ps t s)
          as Hkeep
    end.
    rewrite (bind_raised _ _ _ _ _ Hfor). rewrite Hfor in Hkeep. simpl in Hkeep.
    exists e, st'. split; [reflexivity | exact Hkeep].
Qed.

(** The answer of the handler when the loop raises, written out. *)
Lemma chat_handler_raise_response srv req_data call e st :
  components_ready srv = true ->
  validated req_data = Some call ->
  async_for (run_async srv call) (loop_entry call) = (Raised e, st) ->
  (chat_handler srv req_data).1 =
    Returned {| body := JObj [("session_id", JStr (call_session_id call));
                              ("messages", JArr []);
                              ("error", JStr "Internal server error")];
                status := 500 |}.
Proof.
  intros Hready Hvalid Hraise.
  rewrite (chat_handler_valid _ _ _ Hready Hvalid), Hraise, chat_except_returns.
  pose proof (async_for_session_id (run_async srv call) (loop_entry call)) as Hsid.
  rewrite Hraise in Hsid. simpl in Hsid. rewrite Hsid.
  apply validated_inv in Hvalid as (u & s & m & inner & _ & _ & -> & _ & Hs & _).
  simpl in *. rewrite Hs. reflexivity.
Qed.

(** The answer of the handler to a stream of one model event that can be
    scanned, written out. *)
Lemma chat_handler_single_model srv req_data call event c ps :
  components_ready srv = true ->
  validated req_data = Some call ->
  run_async srv call = [Yield event] ->
  truthy_opt (error_code event) = false ->
  content event = Some c ->
  genai_types.role c = Some "model" ->
  genai_types.parts c = Some ps ->
  parts_have_args ps ->
  (chat_handler srv req_data).1 =
    Returned {| body := JObj [("session_id", JStr (call_session_id call));
                              ("messages", JArr (turn_messages ps))];
                status := 200 |}.
Proof.
  intros Hready Hvalid Hstream Herr Hc Hrole Hparts Hargs.
  rewrite (chat_handler_valid _ _ _ Hready Hvalid), Hstream, async_for_single.
  destruct (loop_body_model (set_generator [] (loop_entry call)) event c ps 0)
    as (st' & Hrun & Hout & _); try assumption.
  { simpl. apply lookup_insert_eq. }
  rewrite Hrun.
  destruct (chat_finish_returns (call_session_id call) (set_generator [] st'))
    as (st'' & -> & _).
  simpl. rewrite Hout. reflexivity.
Qed.

(** C3: a model-content event without error code.
    When its parts can be scanned (the content has its list of parts, and
    each function call in it its [args]), the event is processed without a
    raise and appends to the output exactly the messages [turn_messages] of
    its parts: one message [{"role": "model", "content": ...}] holding the
    captured SQL between a line [```sql] and a line [```], else one such
    message holding the accumulated text if that is not empty, else
    nothing.  When such an event is the whole stream, these messages are
    the whole output of the handler, answered with status 200.
    When its parts cannot be scanned (no list of parts, or a function call
    without [args]), processing raises and appends nothing, also when an
    SQL string was captured before; the handler then answers 500 with an
    empty list of messages. *)
Theorem C3_model_event_output st event c :
  truthy_opt (error_code event) = false ->
  content event = Some c ->
  genai_types.role c = Some "model" ->
  counter_ok st ->
  (forall ps,
      genai_types.parts c = Some ps ->
      parts_have_args ps ->
      (exists st',
          loop_body event st = (Returned Next, st') /\
          final_response_parts st' = final_response_parts st ++ turn_messages ps /\
          counter_ok st') /\
      (forall sql, turn_sql ps = Some sql ->
          turn_messages ps =
          [JObj [("role", JStr "model");
                 ("content", JStr ("```sql" +:+ String "010"
                                     (sql +:+ String "010" "```")))]]) /\
      (turn_sql ps = None -> turn_text ps <> "" ->
          turn_messages ps =
          [JObj [("role", JStr "model"); ("content", JStr (turn_text ps))]]) /\
      (turn_sql ps = None -> turn_text ps = "" -> turn_messages ps = []) /\
      (forall srv req_data call,
          components_ready srv = true ->
          validated req_data = Some call ->
          run_async srv call = [Yield event] ->
          (chat_handler srv req_data).1 =
            Returned {| body := JObj [("session_id", JStr (call_session_id call));
                                      ("messages", JArr (turn_messages ps))];
                        status := 200 |})) /\
  (genai_types.parts c = None \/
   (exists ps part fc, genai_types.parts c = Some ps /\ part ∈ ps /\
      genai_types.function_call part = Some fc /\ genai_types.args fc = None) ->
   (exists e st',
       loop_body event st = (Raised e, st') /\
       final_response_parts st' = final_response_parts st) /\
   (forall srv req_data call,
       components_ready srv = true ->
       validated req_data = Some call ->
       run_async srv call = [Yield event] ->
       (chat_handler srv req_data).1 =
         Returned {| body := JObj [("session_id", JStr (call_session_id call));
                                   ("messages", JArr []);
                                   ("error", JStr "Internal server error")];
                     status := 500 |})).
Proof.
  intros Herr Hc Hrole Hcount. split.
  - intros ps Hparts Hargs. destruct Hcount as [n Hn]. repeat split.
    + destruct (loop_body_model st event c ps n) as (st' & Hrun & Hout & _ & Hn' & _);
        try assumption.
      exists st'. repeat split; [exact Hrun | exact Hout | eexists; exact Hn'].
    + intros sql Hsql. unfold turn_messages. rewrite Hsql. reflexivity.
    + intros Hsql Htext. unfold turn_messages. rewrite Hsql.
      destruct (truthy (turn_text ps)) eqn:E; [reflexivity|].
      apply truthy_false in E. contradiction.
    + intros Hsql Htext. unfold turn_messages. rewrite Hsql, Htext. reflexivity.
    + intros srv req_data call Hready Hvalid Hstream.
      exact (chat_handler_single_model srv req_data call event c ps
               Hready Hvalid Hstream Herr Hc Hrole Hparts Hargs).
  - intros Hbad. split.
    + exact (loop_body_unscannable st event c Herr Hc Hrole Hcount Hbad).
    + intros srv req_data call Hready Hvalid Hstream.
      destruct (loop_body_unscannable (set_generator [] (loop_entry call)) event c
                  Herr Hc Hrole) as (e & st' & Hrun & _);
        [exists 0%Z; simpl; apply lookup_insert_eq | exact Hbad |].
      apply (chat_handler_raise_response srv req_data call e st' Hready Hvalid).
      rewrite Hstream, async_for_single, Hrun. reflexivity.
Qed.

Lemma C3_model_event_output_witness :
  (chat_handler (server_with [Yield (model_event [sql_part "SELECT 1"])])
     sample_request).1 =
  Returned {| body := JObj [("session_id", JStr "s1");
                            ("messages",
                             JArr [JObj [("role", JStr "model");
                                         ("content",
                                          JStr ("```sql" +:+ String "010"
                                                  ("SELECT 1" +:+ String "010" "```")))]])];
              status := 200 |} /\
  (chat_handler
     (server_with [Yield (model_event [sql_part "SELECT 1"; call_without_args])])
     sample_request).1 =
  Returned {| body := JObj [("session_id", JStr "s1");
                            ("messages", JArr []);
                            ("error", JStr "Internal server error")];
              status := 500 |}.
Proof.
  assert (parts_have_args [sql_part "SELECT 1"]) as Hargs.
  { intros part fc Hin. apply list_elem_of_singleton in Hin as ->.
    simpl. intros [= <-]. discriminate. }
  split.
  - destruct (C3_model_event_output (loop_entry sample_call)
                (model_event [sql_part "SELECT 1"])
                {| genai_types.role := Some "model";
                   genai_types.parts := Some [sql_part "SELECT 1"] |}
                eq_refl eq_refl eq_refl (loop_entry_counter sample_call))
      as (Hscan & _).
    destruct (Hscan [sql_part "SELECT 1"] eq_refl Hargs) as (_ & Hsql & _ & _ & Hrun).
    rewrite <- (Hsql "SELECT 1" eq_refl).
    apply (Hrun (server_with [Yield (model_event [sql_part "SELECT 1"])])
             sample_request sample_call); reflexivity.
  - destruct (C3_model_event_output (loop_entry sample_call)
                (model_event [sql_part "SELECT 1"; call_without_args])
                {| genai_types.role := Some "model";
                   genai_types.parts := Some [sql_part "SELECT 1"; call_without_args] |}
                eq_refl eq_refl eq_refl (loop_entry_counter sample_call))
      as (_ & Hbad).
    destruct Hbad as (_ & Hrun).
    { right. exists [sql_part "SELECT 1"; call_without_args], call_without_args,
        {| genai_types.args := None |}.
      split; [reflexivity|]. split; [|split; reflexivity].
      apply list_elem_of_further, list_elem_of_here. }
    apply (Hrun (server_with
                   [Yield (model_event [sql_part "SELECT 1"; call_without_args])])
             sample_request sample_call); reflexivity.
Defined.

(** C3, as stated, fails: it promises the fenced message for every model
    event in which an SQL string was captured.  In the event with the parts
    [sql_part "SELECT 1"; call_without_args] the string [SELECT 1] is
    captured and stored under [generated_sql]; the next part then makes the
    scan raise, and no message is appended. *)
Lemma C3_counterexample :
  ~ (forall st event c ps sql,
        truthy_opt (error_code event) = false ->
        content event = Some c ->
        genai_types.role c = Some "model" ->
        genai_types.parts c = Some ps ->
        turn_sql ps = Some sql ->
        kpi_data (loop_body event st).2 !! "generated_sql" = Some (KStr sql) ->
        counter_ok st ->
        final_response_parts (loop_body event st).2 =
          final_response_parts st ++
          [JObj [("role", JStr "model");
                 ("content", JStr ("```sql" +:+ String "010"
                                     (sql +:+ String "010" "```")))]]).
Proof.
  intros H.
  specialize (H (loop_entry sample_call)
                (model_event [sql_part "SELECT 1"; call_without_args])
                {| genai_types.role := Some "model";
                   genai_types.parts := Some [sql_part "SELECT 1"; call_without_args] |}
                [sql_part "SELECT 1"; call_without_args] "SELECT 1"
                eq_refl eq_refl eq_refl eq_refl eq_refl eq_refl
                (loop_entry_counter sample_call)).
  assert (final_response_parts
            (loop_body (model_event [sql_part "SELECT 1"; call_without_args])
               (loop_entry sample_call)).2 = []) as Hout by reflexivity.
  rewrite Hout in H. discriminate H.
Qed.

(** ** What the agent runtime receives *)

Lemma turn_messages_text t :
  truthy t = true ->
  turn_messages [text_part t] = [JObj [("role", JStr "model"); ("content", JStr t)]].
Proof.
  intros Ht. unfold turn_messages.
  change (turn_sql [text_part t]) with (@None string).
  change (turn_text [text_part t]) with (t +:+ "").
  rewrite append_nil_r, Ht. reflexivity.
Qed.

(** C10: whenever the handler calls the agent runtime, it makes a single
    call, whose user identifier, session identifier and message text are
    the sanitized forms of the request's fields: each character of the
    message is the client's character, or ['?'] where that was in
    U+0000..U+001F or U+007F, and none of the three strings passed holds
    such a character.  That call is all the handler asks of the runtime:
    its run is the same with any runtime that answers this call in the
    same way, whatever that runtime answers to other arguments, the raw
    strings included; and a runtime that echoes its arguments sends back
    the sanitized strings. *)
Theorem C10_agent_receives_sanitized srv req_data call :
  call ∈ agent_calls (chat_handler srv req_data).2 ->
  exists raw_user_id raw_session_id message inner,
    req_data = ReqDict raw_user_id raw_session_id message /\
    message_value message = Some inner /\
    agent_calls (chat_handler srv req_data).2 = [call] /\
    call_user_id call = sanitize_for_log raw_user_id /\
    call_session_id call = sanitize_for_log raw_session_id /\
    call_message_text call = sanitize_for_log inner /\
    (forall i, String.get i (call_message_text call) =
               (fun c => if (nat_of_ascii c <=? 31)%nat || (nat_of_ascii c =? 127)%nat
                         then "?"%char else c) <$> String.get i (py_str inner)) /\
    (forall field i c,
        field ∈ [call_user_id call; call_session_id call; call_message_text call] ->
        String.get i field = Some c ->
        ~ (nat_of_ascii c <= 31 \/ nat_of_ascii c = 127)%nat) /\
    (forall srv',
        components_ready srv' = true ->
        run_async srv' call = run_async srv call ->
        chat_handler srv' req_data = chat_handler srv req_data) /\
    (chat_handler echo_server req_data).1 =
      Returned {| body := JObj [("session_id", JStr (sanitize_for_log raw_session_id));
                                ("messages",
                                 JArr [JObj [("role", JStr "model");
                                             ("content",
                                              JStr (sanitize_for_log raw_user_id +:+ "|" +:+
                                                    sanitize_for_log raw_session_id +:+ "|" +:+
                                                    sanitize_for_log inner))]])];
                  status := 200 |}.
Proof.
  intros Hin.
  destruct (components_ready srv) eqn:Hready;
    [|rewrite handler_not_ready_calls in Hin by assumption; inversion Hin].
  destruct (validated req_data) as [call'|] eqn:Hvalid;
    [|rewrite chat_handler_invalid_calls in Hin by assumption; inversion Hin].
  rewrite (chat_handler_valid_calls _ _ _ Hready Hvalid) in Hin |- *.
  apply list_elem_of_singleton in Hin as ->.
  pose proof Hvalid as Hcall.
  apply validated_inv in Hvalid as (u & s & m & inner & -> & Hm & -> & Hu & _).
  exists u, s, m, inner. simpl in Hu |- *.
  split; [reflexivity|]. split; [assumption|]. split; [reflexivity|].
  split; [reflexivity|]. split; [reflexivity|]. split; [reflexivity|].
  split; [|split; [|split]].
  - intros i. apply re_sub_control_get.
  - intros field i c Hfield Hget Hctl. apply is_control_spec in Hctl.
    assert (is_control c = false) as Hclean; [|congruence].
    rewrite !elem_of_cons in Hfield.
    destruct Hfield as [->|[->|[->|Hnil]]]; [..|inversion Hnil];
      eapply re_sub_control_clean; exact Hget.
  - intros srv' Hready' Hsame.
    rewrite (chat_handler_valid _ _ _ Hready' Hcall),
            (chat_handler_valid _ _ _ Hready Hcall), Hsame.
    reflexivity.
  - erewrite (chat_handler_single_model echo_server _ _ _ _ _ eq_refl Hcall);
      [ | reflexivity | reflexivity | reflexivity | reflexivity | reflexivity | ].
    + simpl call_session_id. rewrite turn_messages_text; [reflexivity|].
      apply truthy_append. exact Hu.
    + intros part fc Hpart. apply list_elem_of_singleton in Hpart as ->. discriminate.
Qed.

Lemma C10_agent_receives_sanitized_witness :
  let req_data := ReqDict (PyStr "u1") (PyStr "s1")
                    (MsgDict (PyStr ("drop" +:+ nl +:+ "table"))) in
  agent_calls (chat_handler (server_with []) req_data).2 =
    [{| call_user_id := "u1"; call_session_id := "s1";
        call_message_text := "drop?table" |}] /\
  (chat_handler echo_server req_data).1 =
    Returned {| body := JObj [("session_id", JStr "s1");
                              ("messages",
                               JArr [JObj [("role", JStr "model");
                                           ("content", JStr "u1|s1|drop?table")]])];
                status := 200 |}.
Proof.
  intros req_data.
  destruct (C10_agent_receives_sanitized (server_with []) req_data
              {| call_user_id := "u1"; call_session_id := "s1";
                 call_message_text := "drop?table" |})
    as (u & s & m & inner & Hreq & Hm & Hcalls & _ & _ & _ & _ & _ & _ & Hecho).
  { vm_compute. apply list_elem_of_here. }
  split; [exact Hcalls|].
  injection Hreq as <- <- <-. injection Hm as <-. exact Hecho.
Defined.

(** ** The loop does not look at the generator *)

Lemma blind_ret {A} (a : A) : generator_blind (mret a).
Proof. intros g st. reflexivity. Qed.

Lemma blind_raise {A} (e : exn) : generator_blind (@raise ChatState A e).
Proof. intros g st. reflexivity. Qed.

Lemma blind_bind {A A'} (m : Eff ChatState A) (k : A -> Eff ChatState A') :
  generator_blind m -> (forall a, generator_blind (k a)) -> generator_blind (m ≫= k).
Proof.
  intros Hm Hk g st. rewrite !bind_unfold, Hm.
  destruct (m st) as [[a|e] st']; simpl; [apply Hk | reflexivity].
Qed.

Lemma blind_modify (f : ChatState -> ChatState) :
  (forall g st, f (set_generator g st) = set_generator g (f st)) ->
  generator_blind (modify f).
Proof. intros H g st. unfold modify. rewrite H. reflexivity. Qed.

Lemma blind_kpi_getitem key : generator_blind (kpi_getitem key).
Proof.
  intros g st. unfold kpi_getitem. simpl.
  destruct (kpi_data st !! key); reflexivity.
Qed.

Lemma blind_kpi_setitem key v : generator_blind (kpi_setitem key v).
Proof. apply blind_modify. reflexivity. Qed.

Lemma blind_append_part m : generator_blind (append_part m).
Proof. apply blind_modify. reflexivity. Qed.

Lemma blind_part_step part turn : generator_blind (part_step part turn).
Proof.
  unfold part_step. destruct turn as [t s].
  destruct (genai_types.function_call part) as [fc|]; [|apply blind_ret].
  destruct (genai_types.args fc) as [d|]; [|apply blind_raise].
  destruct (d !! "sql_query") as [raw_sql|]; [|apply blind_ret].
  destruct (truthy raw_sql); [|apply blind_ret].
  apply blind_bind; [apply blind_kpi_setitem | intros; apply blind_ret].
Qed.

Lemma blind_for_parts ps turn : generator_blind (for_parts ps turn).
Proof.
  revert turn. induction ps as [|part ps IH]; intros turn; simpl.
  - apply blind_ret.
  - apply blind_bind; [apply blind_part_step | exact IH].
Qed.

Lemma blind_loop_body event : generator_blind (loop_body event).
Proof.
  unfold loop_body. destruct (truthy_opt (error_code event)).
  { apply blind_bind; [apply blind_append_part | intros _].
    apply blind_bind; [apply blind_kpi_setitem | intros _; apply blind_ret]. }
  destruct (content event) as [c|]; [|apply blind_ret].
  case_decide; [|apply blind_ret].
  apply blind_bind; [apply blind_kpi_getitem | intros trips].
  apply blind_bind.
  { destruct trips; auto using blind_kpi_setitem, blind_raise. }
  intros _. apply blind_bind.
  { destruct (genai_types.parts c); auto using blind_ret, blind_raise. }
  intros ps. apply blind_bind; [apply blind_for_parts | intros [t s]].
  apply blind_bind.
  { destruct (truthy t); [|apply blind_ret]. apply blind_modify. reflexivity. }
  intros _. apply blind_bind; [|intros; apply blind_ret].
  destruct (truthy_opt s); [apply blind_append_part|].
  destruct (truthy t); [apply blind_append_part | apply blind_ret].
Qed.

(** The loop assigns the generator before anything else. *)
Lemma async_for_set_generator items g st :
  async_for items (set_generator g st) = async_for items st.
Proof. destruct items as [|item rest]; reflexivity. Qed.

(** One step of the loop on an event that does not break it. *)
Lemma async_for_cons event rest st :
  async_for (Yield event :: rest) st =
  match loop_body event st with
  | (Returned Next, st') => async_for rest st'
  | (Returned Break, st') => (Returned tt, set_generator rest st')
  | (Raised e, st') => (Raised e, set_generator rest st')
  end.
Proof.
  simpl. rewrite bind_unfold. simpl. rewrite bind_unfold, blind_loop_body.
  destruct (loop_body event st) as [[[]|e] st']; simpl; try reflexivity.
  apply async_for_set_generator.
Qed.

(** Events without error code that are processed normally are passed over:
    the loop goes on with what follows them. *)
Lemma async_for_prefix prefix tail st st1 :
  (forall e, e ∈ prefix -> truthy_opt (error_code e) = false) ->
  async_for (Yield <$> prefix) st = (Returned tt, st1) ->
  async_for ((Yield <$> prefix) ++ tail) st = async_for tail st1.
Proof.
  revert st. induction prefix as [|e prefix IH]; intros st Hclean Hrun.
  - simpl in Hrun. injection Hrun as <-. simpl. symmetry. apply async_for_set_generator.
  - rewrite fmap_cons in Hrun |- *. rewrite <- app_comm_cons.
    rewrite async_for_cons in Hrun |- *.
    destruct (loop_body e st) as [[[]|x] st'] eqn:Hbody.
    + apply IH; [|exact Hrun]. intros e' He'. apply Hclean. apply list_elem_of_further. exact He'.
    + apply loop_body_break in Hbody. rewrite Hclean in Hbody by apply list_elem_of_here.
      discriminate.
    + discriminate.
Qed.

(** ** What the events before an error contribute *)

Lemma for_parts_output ps turn st :
  final_response_parts (for_parts ps turn st).2 = final_response_parts st.
Proof. apply (for_parts_keeps final_response_parts). reflexivity. Qed.

(** An event without error code appends at most one message, of role
    ["model"]. *)
Lemma loop_body_appends_model event st st' :
  truthy_opt (error_code event) = false ->
  loop_body event st = (Returned Next, st') ->
  exists l, final_response_parts st' = final_response_parts st ++ l /\
            Forall is_model_message l.
Proof.
  intros Herr. unfold loop_body. rewrite Herr.
  destruct (content event) as [c|];
    [|intros [= <-]; exists []; rewrite app_nil_r; auto].
  case_decide; [|intros [= <-]; exists []; rewrite app_nil_r; auto].
  rewrite bind_unfold. unfold kpi_getitem at 1.
  assert (forall key v st0,
             final_response_parts (kpi_setitem key v st0).2 = final_response_parts st0)
    as Hset by reflexivity.
  destruct (kpi_data st !! "llm_round_trips") as [trips|];
    [|rewrite bind_unfold; discriminate].
  rewrite bind_unfold.
  match goal with
  | |- context [match ?m st with _ => _ end] =>
      assert (final_response_parts (m st).2 = final_response_parts st) as H1
        by (destruct trips; reflexivity);
      destruct (m st) as [[[]|e1] st1]; [|discriminate]
  end.
  simpl in H1. rewrite bind_unfold.
  destruct (genai_types.parts c) as [ps|]; [|discriminate]. simpl.
  rewrite bind_unfold.
  pose proof (for_parts_output ps ("", None) st1) as H2.
  destruct (for_parts ps ("", None) st1) as [[[t s]|e2] st2]; [|discriminate].
  simpl in H2. rewrite bind_unfold.
  match goal with
  | |- context [match ?m st2 with _ => _ end] =>
      assert (final_response_parts (m st2).2 = final_response_parts st2) as H3
        by (destruct (truthy t); reflexivity);
      destruct (m st2) as [[[]|e3] st3] eqn:E3; [|discriminate]
  end.
  simpl in H3. rewrite bind_unfold.
  destruct (truthy_opt s).
  - simpl. intros [= <-]. simpl. eexists. split; [rewrite H3, H2, H1; reflexivity|].
    repeat constructor. eexists. reflexivity.
  - destruct (truthy t).
    + simpl. intros [= <-]. simpl. eexists. split; [rewrite H3, H2, H1; reflexivity|].
      repeat constructor. eexists. reflexivity.
    + simpl. intros [= <-]. exists []. rewrite app_nil_r, H3, H2, H1. auto.
Qed.

Lemma async_for_appends_model prefix st st1 :
  (forall e, e ∈ prefix -> truthy_opt (error_code e) = false) ->
  async_for (Yield <$> prefix) st = (Returned tt, st1) ->
  exists l, final_response_parts st1 = final_response_parts st ++ l /\
            Forall is_model_message l.
Proof.
  revert st. induction prefix as [|e prefix IH]; intros st Hclean Hrun.
  - simpl in Hrun. injection Hrun as <-. exists []. rewrite app_nil_r. auto.
  - rewrite fmap_cons, async_for_cons in Hrun.
    destruct (loop_body e st) as [[[]|x] st'] eqn:Hbody.
    + destruct (loop_body_appends_model e st st') as (l1 & H1 & F1);
        [apply Hclean, list_elem_of_here | exact Hbody |].
      destruct (IH st') as (l2 & H2 & F2); [|exact Hrun|].
      { intros e' He'. apply Hclean, list_elem_of_further, He'. }
      exists (l1 ++ l2). rewrite H2, H1, app_assoc. split; [reflexivity|].
      apply Forall_app. auto.
    + apply loop_body_break in Hbody. rewrite Hclean in Hbody by apply list_elem_of_here.
      discriminate.
    + discriminate.
Qed.

Lemma model_message_not_apology m code :
  is_model_message m -> m <> chat_message "assistant" (apology +:+ code).
Proof. intros [content ->]. discriminate. Qed.

(** C4, as amended: when the first event of the stream that carries an
    error code is the k-th, and the events before it are processed without
    a raise, the handler answers 200 with the messages of those earlier
    events followed by one apology message that embeds the code; no earlier
    message is that apology; the events after the k-th stay in the
    generator, and nothing in the answer depends on them. *)
Theorem C4_first_error_stops srv req_data call prefix event code rest st1 :
  components_ready srv = true ->
  validated req_data = Some call ->
  run_async srv call = (Yield <$> prefix) ++ Yield event :: rest ->
  carries_error_code event code ->
  (forall e, e ∈ prefix -> truthy_opt (error_code e) = false) ->
  async_for (Yield <$> prefix) (loop_entry call) = (Returned tt, st1) ->
  let out := chat_handler srv req_data in
  let apology_message := chat_message "assistant" (apology +:+ code) in
  out.1 = Returned (jsonify
                      [("session_id", JStr (call_session_id call));
                       ("messages", JArr (final_response_parts st1 ++ [apology_message]))]
                      200) /\
  final_response_parts out.2 = final_response_parts st1 ++ [apology_message] /\
  (apology_message ∉ final_response_parts st1) /\
  generator out.2 = rest.
Proof.
  intros Hready Hvalid Hstream Hcode Hclean Hprefix out apology_message. subst out.
  rewrite (chat_handler_valid _ _ _ Hready Hvalid), Hstream.
  rewrite (async_for_prefix _ _ _ _ Hclean Hprefix), async_for_cons.
  rewrite (loop_body_error _ _ _ Hcode).
  match goal with
  | |- context [chat_finish ?sid ?st] =>
      destruct (chat_finish_returns sid st) as (st' & -> & Hg & _ & Hp)
  end.
  simpl in Hg, Hp |- *. repeat split; [exact Hp | | exact Hg].
  destruct (async_for_appends_model _ _ _ Hclean Hprefix) as (l & Hl & Hmodel).
  simpl in Hl. rewrite Hl. intros Hin.
  rewrite Forall_forall in Hmodel.
  exact (model_message_not_apology _ code (Hmodel _ Hin) eq_refl).
Qed.

Lemma C4_first_error_stops_witness :
  let items := [Yield (model_event [text_part "Working on it."]);
                Yield (error_event "E1");
                Yield (model_event [sql_part "SELECT 1"])] in
  let out := chat_handler (server_with items) sample_request in
  out.1 = Returned (jsonify
                      [("session_id", JStr "s1");
                       ("messages",
                        JArr [chat_message "model" "Working on it.";
                              chat_message "assistant" (apology +:+ "E1")])] 200) /\
  final_response_parts out.2 =
    [chat_message "model" "Working on it.";
     chat_message "assistant" (apology +:+ "E1")] /\
  (chat_message "assistant" (apology +:+ "E1") ∉ [chat_message "model" "Working on it."]) /\
  generator out.2 = [Yield (model_event [sql_part "SELECT 1"])].
Proof.
  intros items out.
  assert (forall e, e ∈ [model_event [text_part "Working on it."]] ->
                    truthy_opt (error_code e) = false) as Hclean.
  { intros e He. apply list_elem_of_singleton in He as ->. reflexivity. }
  exact (C4_first_error_stops (server_with items) sample_request sample_call
           [model_event [text_part "Working on it."]] (error_event "E1") "E1"
           [Yield (model_event [sql_part "SELECT 1"])]
           (async_for [Yield (model_event [text_part "Working on it."])]
              (loop_entry sample_call)).2
           eq_refl eq_refl eq_refl (conj eq_refl eq_refl) Hclean eq_refl).
Defined.

(** C4, as stated, fails: it promises the apology for the code of any
    event that carries one.  In the stream [E1, E2] the second event
    carries [E2]; the handler stops at [E1], and no message mentions
    [E2]. *)
Lemma C4_counterexample :
  ~ (forall items k event code,
        items !! k = Some (Yield event) ->
        carries_error_code event code ->
        chat_message "assistant" (apology +:+ code)
          ∈ final_response_parts (chat_handler (server_with items) sample_request).2).
Proof.
  intros H.
  specialize (H [Yield (error_event "E1"); Yield (error_event "E2")] 1%nat
                (error_event "E2") "E2" eq_refl (conj eq_refl eq_refl)).
  assert (final_response_parts
            (chat_handler (server_with [Yield (error_event "E1"); Yield (error_event "E2")])
               sample_request).2
          = [chat_message "assistant" (apology +:+ "E1")]) as Hout by reflexivity.
  rewrite Hout in H. apply list_elem_of_singleton in H. discriminate H.
Qed.

(** ** The clarification flag *)

(** What the statement after the loop stores: the flag is true when the KPI
    record holds no [generated_sql] or holds the text ["N/A"] there, and
    some text was accumulated. *)
Lemma chat_finish_flag sid st :
  kpi_data (chat_finish sid st).2 !! "clarification_asked" =
  Some (KBool (match kpi_data st !! "generated_sql" with
               | None | Some (KStr "N/A") => truthy (llm_response_text st)
               | Some _ => false
               end)).
Proof.
  unfold chat_finish, kpi_getitem. rewrite bind_unfold.
  destruct (kpi_data st !! "generated_sql") as [v|] eqn:E.
  - simpl. rewrite lookup_insert_eq. f_equal. f_equal.
    destruct (decide (v = KStr "N/A")) as [->|Hne]; [reflexivity|].
    destruct v as [s| |]; try reflexivity.
    destruct (decide (s = "N/A")) as [->|Hs]; [contradiction Hne; reflexivity|].
    repeat (destruct s as [|[[] [] [] [] [] [] [] []] s]; try reflexivity;
            try (contradiction Hs; reflexivity)).
  - simpl. rewrite lookup_insert_eq. reflexivity.
Qed.

(** A stream with the single text ["Which region?"] and no SQL sets the
    flag. *)
Lemma clarification_asked_example :
  kpi_data (chat_handler
              (server_with [Yield (model_event [text_part "Which region?"])])
              sample_request).2 !! "clarification_asked" = Some (KBool true).
Proof. vm_compute. reflexivity. Qed.

(** The keys of every response of the chat handler. *)
Lemma chat_response_keys srv req_data r :
  (chat_handler srv req_data).1 = Returned r ->
  body_keys r = ["error"] \/
  body_keys r = ["session_id"; "messages"] \/
  body_keys r = ["session_id"; "messages"; "error"].
Proof.
  unfold chat_handler. destruct (components_ready srv) eqn:Hready;
    [|intros [= <-]; left; reflexivity].
  destruct (validated req_data) as [call|] eqn:Hvalid.
  - pose proof (chat_handler_valid _ _ _ Hready Hvalid) as H.
    unfold chat_handler in H. rewrite Hready in H. rewrite H.
    destruct (async_for _ _) as [[[]|e] st].
    + destruct (chat_finish_returns (call_session_id call) st) as (st' & -> & _).
      intros [= <-]. right. left. reflexivity.
    + rewrite chat_except_returns. intros [= <-]. right. right. reflexivity.
  - unfold try_except.
    destruct (chat_try srv req_data initial_state) as [[r'|e] st] eqn:Htry.
    + simpl. intros [= <-]. left.
      destruct req_data as [|u s m]; [discriminate Htry|].
      revert Hvalid Htry. unfold validated, chat_try.
      destruct m as [|v|]; cbv [message_value]; cbv beta iota;
        cbv [mbind mret Eff_bind Eff_ret modify raise call_user_id call_session_id
             call_message_text]; cbv beta iota;
        try discriminate;
        match goal with
        | |- context [truthy ?a && truthy ?b && truthy ?c] =>
            destruct (truthy a && truthy b && truthy c);
            intros Hv Ht; [discriminate Hv|]
        end;
        simpl in Ht; injection Ht as <- _; reflexivity.
    + rewrite chat_except_returns. intros [= <-]. right. right. reflexivity.
Qed.

(** An event without error code that the handler can scan adds its text
    to the accumulated text and, if it captures SQL, stores it in the KPI
    record. *)
Lemma loop_body_scannable event st :
  truthy_opt (error_code event) = false ->
  event_scannable event ->
  counter_ok st ->
  exists st',
    loop_body event st = (Returned Next, st') /\
    counter_ok st' /\
    llm_response_text st' = llm_response_text st +:+ turn_text (event_parts event) /\
    kpi_data st' !! "generated_sql" =
      match turn_sql (event_parts event) with
      | Some q => Some (KStr q)
      | None => kpi_data st !! "generated_sql"
      end.
Proof.
  intros Herr Hscan [n Hn]. unfold event_parts.
  destruct (content event) as [c|] eqn:Hc.
  - destruct (decide (genai_types.role c = Some "model")) as [Hrole|Hrole].
    + destruct (Hscan c Hc Hrole) as (ps & Hps & Hargs).
      destruct (loop_body_model st event c ps n Herr Hc Hrole Hps Hargs Hn)
        as (st' & Hrun & _ & Htext & Hn' & Hsql).
      exists st'. rewrite Hps. simpl. split; [exact Hrun|].
      split; [eexists; exact Hn'|]. split; assumption.
    + exists st. unfold loop_body. rewrite Herr, Hc.
      destruct (decide (genai_types.role c = Some "model")); [contradiction|].
      simpl. rewrite append_nil_r. split; [reflexivity|]. split; [exists n; exact Hn|].
      split; reflexivity.
  - exists st. unfold loop_body. rewrite Herr, Hc. simpl. rewrite append_nil_r.
    split; [reflexivity|]. split; [exists n; exact Hn|]. split; reflexivity.
Qed.

Lemma async_for_scannable events st :
  (forall e, e ∈ events -> truthy_opt (error_code e) = false /\ event_scannable e) ->
  counter_ok st ->
  exists st',
    async_for (Yield <$> events) st = (Returned tt, st') /\
    llm_response_text st' = llm_response_text st +:+ exchange_text events /\
    kpi_data st' !! "generated_sql" =
      match exchange_sql events with
      | Some q => Some (KStr q)
      | None => kpi_data st !! "generated_sql"
      end.
Proof.
  revert st. induction events as [|e events IH]; intros st Hall Hcount.
  - exists (set_generator [] st). simpl. rewrite append_nil_r. auto.
  - destruct (Hall e (list_elem_of_here _ _)) as [Herr Hscan].
    destruct (loop_body_scannable e st Herr Hscan Hcount)
      as (st1 & Hrun & Hcount1 & Htext1 & Hsql1).
    destruct (IH st1) as (st2 & Hrest & Htext2 & Hsql2); [|exact Hcount1|].
    { intros e' He'. apply Hall, list_elem_of_further, He'. }
    exists st2. rewrite fmap_cons, async_for_cons, Hrun. split; [exact Hrest|].
    split.
    + rewrite Htext2, Htext1, append_assoc. reflexivity.
    + rewrite Hsql2, Hsql1. simpl exchange_sql.
      destruct (exchange_sql events); reflexivity.
Qed.

(** The flag of a completed exchange, in terms of the events consumed: the
    stream is exhausted, or it is cut by an event that carries an error
    code.  The flag is set when some text was accumulated and either no SQL
    string was captured or the one captured last is the text ["N/A"]. *)
Lemma clarification_flag_of_exchange srv req_data call events tail :
  components_ready srv = true ->
  validated req_data = Some call ->
  run_async srv call = (Yield <$> events) ++ tail ->
  (tail = [] \/ exists e code rest, tail = Yield e :: rest /\ carries_error_code e code) ->
  (forall e, e ∈ events -> truthy_opt (error_code e) = false /\ event_scannable e) ->
  kpi_data (chat_handler srv req_data).2 !! "clarification_asked" =
  Some (KBool (match exchange_sql events with
               | None | Some "N/A" => truthy (exchange_text events)
               | Some _ => false
               end)).
Proof.
  intros Hready Hvalid Hstream Htail Hall.
  destruct (async_for_scannable events (loop_entry call) Hall (loop_entry_counter call))
    as (st1 & Hrun & Htext & Hsql).
  assert (forall e, e ∈ events -> truthy_opt (error_code e) = false) as Hclean
    by (intros e He; apply Hall, He).
  rewrite (chat_handler_valid _ _ _ Hready Hvalid), Hstream.
  rewrite (async_for_prefix _ _ _ _ Hclean Hrun).
  assert (exists st2, async_for tail st1 = (Returned tt, st2) /\
                      llm_response_text st2 = llm_response_text st1 /\
                      kpi_data st2 !! "generated_sql" = kpi_data st1 !! "generated_sql")
    as (st2 & -> & Htext2 & Hsql2).
  { destruct Htail as [->|(e & code & rest & -> & Hcode)].
    - eexists. split; [reflexivity|]. split; reflexivity.
    - rewrite async_for_cons, (loop_body_error _ _ _ Hcode).
      eexists. split; [reflexivity|]. split; [reflexivity|].
      simpl. apply lookup_insert_ne. discriminate. }
  rewrite chat_finish_flag, Hsql2, Hsql, Htext2, Htext. simpl.
  rewrite append_nil_l. f_equal. f_equal.
  destruct (exchange_sql events) as [q|]; [|reflexivity].
  repeat (destruct q as [|[[] [] [] [] [] [] [] []] q]; try reflexivity).
Qed.

(** C5 (evaluation of the code at a stream whose captured SQL is the text
    ["N/A"]): one model event with the text ["Here is the query."] and a
    tool call with [sql_query = "N/A"].  The SQL is captured and sent to the
    client in its code block, yet the flag [clarification_asked] is set:
    the captured string equals the default the KPI record gives for a
    missing [generated_sql]. *)
Theorem C5_sentinel_collision :
  let out := chat_handler
               (server_with [Yield (model_event [text_part "Here is the query.";
                                                 sql_part "N/A"])])
               sample_request in
  turn_sql [text_part "Here is the query."; sql_part "N/A"] = Some "N/A" /\
  out.1 = Returned (jsonify [("session_id", JStr "s1");
                             ("messages",
                              JArr [chat_message "model" (formatted_sql "N/A")])] 200) /\
  kpi_data out.2 !! "generated_sql" = Some (KStr "N/A") /\
  kpi_data out.2 !! "clarification_asked" = Some (KBool true).
Proof. vm_compute. repeat split; reflexivity. Qed.

(** ** The response cache *)

Section cache_facts.
Context {W : Type} (time : W -> Q) (timeout : Q) (f : Eff W Response).

Lemma wrapper_hit url st result timestamp :
  cache st !! url = Some (result, timestamp) ->
  (time (world st) - timestamp < timeout)%Q ->
  wrapper time timeout f url st = (Returned result, st).
Proof.
  intros Hentry Hfresh. unfold wrapper. rewrite Hentry.
  destruct (Qlt_le_dec _ _) as [_|Hstale]; [reflexivity|].
  exfalso. exact (Qlt_not_le _ _ Hfresh Hstale).
Qed.

Lemma wrapper_stale url st result timestamp :
  cache st !! url = Some (result, timestamp) ->
  (timeout <= time (world st) - timestamp)%Q ->
  wrapper time timeout f url st = recompute time f url st.
Proof.
  intros Hentry Hstale. unfold wrapper. rewrite Hentry.
  destruct (Qlt_le_dec _ _) as [Hfresh|_]; [|reflexivity].
  exfalso. exact (Qlt_not_le _ _ Hfresh Hstale).
Qed.

Lemma wrapper_absent url st :
  cache st !! url = None -> wrapper time timeout f url st = recompute time f url st.
Proof. intros Hentry. unfold wrapper. rewrite Hentry. reflexivity. Qed.

(** The entries under other URLs are left as they are. *)
Lemma recompute_other url st key :
  key <> url -> cache (recompute time f url st).2 !! key = cache st !! key.
Proof.
  intros Hne. unfold recompute. destruct (f (world st)) as [[r|e] w]; simpl.
  - apply lookup_insert_ne. congruence.
  - reflexivity.
Qed.

Lemma wrapper_other url st key :
  key <> url -> cache (wrapper time timeout f url st).2 !! key = cache st !! key.
Proof.
  intros Hne. unfold wrapper. destruct (cache st !! url) as [[r ts]|]; simpl;
    [destruct (Qlt_le_dec _ _); [reflexivity|] |]; apply recompute_other; exact Hne.
Qed.

(** No call removes an entry. *)
Lemma wrapper_no_eviction url st key :
  is_Some (cache st !! key) -> is_Some (cache (wrapper time timeout f url st).2 !! key).
Proof.
  intros Hkey. destruct (decide (key = url)) as [->|Hne];
    [|rewrite wrapper_other by exact Hne; exact Hkey].
  unfold wrapper. destruct (cache st !! url) as [[r ts]|] eqn:E; simpl.
  - destruct (Qlt_le_dec _ _); [simpl; rewrite E; exact Hkey|].
    unfold recompute. destruct (f (world st)) as [[r'|e] w]; simpl.
    + rewrite lookup_insert_eq. eauto.
    + rewrite E. exact Hkey.
  - destruct Hkey as [x Hx]. discriminate Hx.
Qed.

(** After a call that returns, the cache holds what it returned. *)
Lemma wrapper_records url st result st' :
  wrapper time timeout f url st = (Returned result, st') ->
  exists timestamp, cache st' !! url = Some (result, timestamp).
Proof.
  unfold wrapper, recompute.
  destruct (cache st !! url) as [[r ts]|] eqn:E.
  - destruct (Qlt_le_dec _ _).
    + intros [= <- <-]. eauto.
    + destruct (f (world st)) as [[r'|e] w]; [|discriminate].
      intros [= <- <-]. simpl. rewrite lookup_insert_eq. eauto.
  - destruct (f (world st)) as [[r'|e] w]; [|discriminate].
    intros [= <- <-]. simpl. rewrite lookup_insert_eq. eauto.
Qed.

End cache_facts.

(** C7: two requests for the same URL to a cached view.  The first one
    returns [r1] and leaves the cache [cache st1], which holds [r1] with its
    timestamp [ts]; the second one arrives when the world is [w2].  If
    [time w2 - ts < 3600] it returns [r1] and touches neither the cache nor
    the world: the view is not run.  If [3600 <= time w2 - ts] the view is
    run again, and its result, with the clock reading taken after it, takes
    the place of the entry.  No call removes an entry or changes the entry
    of another URL. *)
Theorem C7_cache_expiry {W : Type} (time : W -> Q) (f : Eff W Response)
    (url : string) (st0 st1 : Cached W) (r1 : Response) (w2 : W) :
  wrapper time 3600 f url st0 = (Returned r1, st1) ->
  let st2 := {| cache := cache st1; world := w2 |} in
  exists ts,
    cache st1 !! url = Some (r1, ts) /\
    ((time w2 - ts < 3600)%Q ->
       wrapper time 3600 f url st2 = (Returned r1, st2)) /\
    ((3600 <= time w2 - ts)%Q ->
       wrapper time 3600 f url st2 =
       match f w2 with
       | (Returned fresh, w) =>
           (Returned fresh,
            {| cache := <[url := (fresh, time w)]> (cache st1); world := w |})
       | (Raised e, w) => (Raised e, {| cache := cache st1; world := w |})
       end) /\
    (forall st key, is_Some (cache st !! key) ->
                    is_Some (cache (wrapper time 3600 f url st).2 !! key)) /\
    (forall st key, key <> url ->
                    cache (wrapper time 3600 f url st).2 !! key = cache st !! key).
Proof.
  intros Hfirst st2.
  destruct (wrapper_records _ _ _ _ _ _ _ Hfirst) as [ts Hts].
  exists ts. split; [exact Hts|]. split; [|split; [|split]].
  - intros Hfresh. apply (wrapper_hit _ _ _ _ st2 r1 ts); assumption.
  - intros Hstale. rewrite (wrapper_stale _ _ _ _ st2 r1 ts) by assumption.
    reflexivity.
  - intros st key. apply wrapper_no_eviction.
  - intros st key. apply wrapper_other.
Qed.

(** ** [list_tables] and the gateway *)

(** A computation never lowers the count of gateway calls. *)
Lemma gateway_calls_bind {A B} (m : Eff Warehouse A) (k : A -> Eff Warehouse B) n w :
  n <= gateway_calls (m w).2 ->
  (forall a w', gateway_calls w' <= gateway_calls (k a w').2) ->
  n <= gateway_calls ((m ≫= k) w).2.
Proof.
  intros Hm Hk. rewrite bind_unfold. destruct (m w) as [[a|e] w']; simpl in *.
  - specialize (Hk a w'). lia.
  - exact Hm.
Qed.

Lemma gateway_calls_try {A} (m : Eff Warehouse A) (h : exn -> Eff Warehouse A) n w :
  n <= gateway_calls (m w).2 ->
  (forall e w', gateway_calls w' <= gateway_calls (h e w').2) ->
  n <= gateway_calls (try_except m h w).2.
Proof.
  intros Hm Hh. unfold try_except. destruct (m w) as [[a|e] w']; simpl in *.
  - exact Hm.
  - specialize (Hh e w'). lia.
Qed.

Lemma get_total_rows_calls name w :
  gateway_calls w <= gateway_calls (get_total_rows name w).2.
Proof.
  unfold get_total_rows. apply gateway_calls_bind; [simpl; lia | intros _ w'].
  apply gateway_calls_try; [|intros; simpl; lia].
  apply gateway_calls_bind; [simpl; lia | intros _ w1].
  apply gateway_calls_bind; [simpl; lia | intros; simpl; lia].
Qed.

Lemma get_total_column_count_calls w :
  gateway_calls w <= gateway_calls (get_total_column_count w).2.
Proof.
  unfold get_total_column_count. apply gateway_calls_bind; [simpl; lia | intros _ w'].
  apply gateway_calls_try; [|intros; simpl; lia].
  apply gateway_calls_bind; [simpl; lia | intros _ w1].
  apply gateway_calls_bind; [simpl; lia | intros; simpl; lia].
Qed.

Lemma sum_rows_calls tables total names w :
  gateway_calls w <= gateway_calls (sum_rows tables total names w).2.
Proof.
  revert total names w. induction tables as [|table rest IH]; intros total names w; simpl.
  - lia.
  - apply gateway_calls_bind; [apply get_total_rows_calls | intros [k|] w'].
    + apply IH.
    + simpl. lia.
Qed.

Lemma get_table_ddl_strings_calls w :
  S (gateway_calls w) <= gateway_calls (get_table_ddl_strings w).2.
Proof.
  unfold get_table_ddl_strings.
  apply gateway_calls_bind; [simpl; lia | intros _ w'].
  apply gateway_calls_bind; [simpl; lia | intros _ w1].
  apply gateway_calls_try; [|intros; simpl; lia].
  apply gateway_calls_bind; [simpl; lia | intros; simpl; lia].
Qed.

(** Every run of the view calls the gateway. *)
Lemma list_tables_view_calls w :
  S (gateway_calls w) <= gateway_calls (list_tables_view w).2.
Proof.
  unfold list_tables_view. apply gateway_calls_try; [|intros; simpl; lia].
  apply gateway_calls_bind; [apply get_table_ddl_strings_calls | intros tables w1].
  apply gateway_calls_bind; [apply sum_rows_calls | intros [total names] w2].
  apply gateway_calls_bind; [apply get_total_column_count_calls | intros; simpl; lia].
Qed.

(** No exception leaves the view. *)
Lemma list_tables_view_returns w : exists r, (list_tables_view w).1 = Returned r.
Proof.
  unfold list_tables_view, try_except.
  match goal with
  | |- context [match ?m with _ => _ end] => destruct m as [[r|e] w']
  end; eexists; reflexivity.
Qed.

(** When the BigQuery client cannot be built, the view answers 500. *)
Lemma list_tables_view_broken w e :
  bigquery_Client w = Raised e ->
  (list_tables_view w).1 = Returned internal_server_error.
Proof.
  intros Hclient. unfold list_tables_view, try_except, get_table_ddl_strings.
  cbv [mbind mret Eff_bind Eff_ret enter_gateway modify bq]. cbv beta iota.
  simpl. rewrite Hclient. reflexivity.
Qed.

Lemma C7_cache_expiry_witness :
  let st0 := {| cache := ∅; world := sample_warehouse |} in
  let r1 := jsonify [("tables", JArr [JStr "sales"]); ("num_tables", JInt 1);
                     ("total_columns", JInt 7); ("total_rows", JInt 42)] 200 in
  let st1 := (list_tables tables_url st0).2 in
  let st2 := {| cache := cache st1; world := at_time 2000 (world st1) |} in
  list_tables tables_url st0 = (Returned r1, st1) /\
  gateway_calls (world st1) = 3 /\
  list_tables tables_url st2 = (Returned r1, st2).
Proof.
  intros st0 r1 st1 st2.
  assert (list_tables tables_url st0 = (Returned r1, st1)) as Hfirst
    by (vm_compute; reflexivity).
  split; [exact Hfirst|]. split; [vm_compute; reflexivity|].
  destruct (C7_cache_expiry clock list_tables_view tables_url st0 st1 r1
              (at_time 2000 (world st1)) Hfirst) as (ts & Hts & Hhit & _).
  apply Hhit.
  assert (cache st1 !! tables_url = Some (r1, clock (world st1))) as Hentry
    by (vm_compute; reflexivity).
  rewrite Hentry in Hts. injection Hts as <-. vm_compute. reflexivity.
Defined.

(** For [list_tables]: a request served from the cache leaves the count of
    gateway calls as it is, and one that is not served from it raises the
    count. *)
Lemma list_tables_gateway_calls url st result timestamp :
  cache st !! url = Some (result, timestamp) ->
  ((clock (world st) - timestamp < 3600)%Q ->
     gateway_calls (world (list_tables url st).2) = gateway_calls (world st)) /\
  ((3600 <= clock (world st) - timestamp)%Q ->
     S (gateway_calls (world st)) <= gateway_calls (world (list_tables url st).2)).
Proof.
  intros Hentry. split.
  - intros Hfresh. unfold list_tables.
    rewrite (wrapper_hit _ _ _ _ _ _ _ Hentry Hfresh). reflexivity.
  - intros Hstale. unfold list_tables.
    rewrite (wrapper_stale _ _ _ _ _ _ _ Hentry Hstale). unfold recompute.
    pose proof (list_tables_view_calls (world st)) as Hcalls.
    destruct (list_tables_view (world st)) as [[r|e] w]; exact Hcalls.
Qed.

(** C9: the decorator stores whatever the view returns, whatever its
    status.  When a request is not served from the cache and the view
    returns [r], the entry for the URL becomes [r] with the clock reading
    taken after the view; every request for that URL arriving less than 3600
    seconds after that reading gets [r] back, and the view is not run: the
    world is left as it is.  In particular the view of [list_tables] returns
    the 500 response ["Internal server error"] when the BigQuery client
    cannot be built, and that response is what is stored and replayed. *)
Theorem C9_error_response_cached {W : Type} (time : W -> Q) (f : Eff W Response)
    (url : string) (st0 : Cached W) (r : Response) (w1 : W) :
  (cache st0 !! url = None \/
   exists r0 ts0, cache st0 !! url = Some (r0, ts0) /\
                  (3600 <= time (world st0) - ts0)%Q) ->
  f (world st0) = (Returned r, w1) ->
  let st1 := {| cache := <[url := (r, time w1)]> (cache st0); world := w1 |} in
  wrapper time 3600 f url st0 = (Returned r, st1) /\
  (forall w2, (time w2 - time w1 < 3600)%Q ->
     wrapper time 3600 f url {| cache := cache st1; world := w2 |} =
     (Returned r, {| cache := cache st1; world := w2 |})) /\
  (forall wh e, bigquery_Client wh = Raised e ->
     (list_tables_view wh).1 = Returned internal_server_error /\
     status internal_server_error = 500%Z).
Proof.
  intros Hmiss Hview st1. split; [|split].
  - assert (wrapper time 3600 f url st0 = recompute time f url st0) as ->.
    { destruct Hmiss as [Habsent|(r0 & ts0 & Hentry & Hstale)].
      - apply wrapper_absent. exact Habsent.
      - apply (wrapper_stale _ _ _ _ _ _ _ Hentry Hstale). }
    unfold recompute. rewrite Hview. reflexivity.
  - intros w2 Hfresh. apply (wrapper_hit _ _ _ _ _ r (time w1)); [|exact Hfresh].
    simpl. apply lookup_insert_eq.
  - intros wh e Hclient. split; [|reflexivity].
    apply (list_tables_view_broken wh e Hclient).
Qed.

Lemma C9_error_response_cached_witness :
  let st0 := {| cache := ∅; world := broken_warehouse |} in
  let st1 := (list_tables tables_url st0).2 in
  let st2 := {| cache := cache st1; world := at_time 2000 sample_warehouse |} in
  list_tables tables_url st0 = (Returned internal_server_error, st1) /\
  list_tables tables_url st2 = (Returned internal_server_error, st2).
Proof.
  intros st0 st1 st2.
  destruct (C9_error_response_cached clock list_tables_view tables_url st0
              internal_server_error (list_tables_view broken_warehouse).2)
    as (Hfirst & Hreplay & _).
  - left. reflexivity.
  - vm_compute. reflexivity.
  - assert (st1 = {| cache := <[tables_url :=
                                  (internal_server_error,
                                   clock (list_tables_view broken_warehouse).2)]> ∅;
                     world := (list_tables_view broken_warehouse).2 |}) as Hst1.
    { unfold st1, list_tables. rewrite Hfirst. reflexivity. }
    split.
    + unfold list_tables. rewrite Hfirst, Hst1. reflexivity.
    + unfold st2. rewrite Hst1. apply Hreplay. vm_compute. reflexivity.
Defined.

(** ** [os.path] and [get_code_file] *)

Lemma substring_all (s : string) : substring 0 (String.length s) s = s.
Proof. induction s as [|c s IH]; simpl; congruence. Qed.

Lemma basename_whole p : posixpath.head_length p = 0 -> posixpath.basename p = p.
Proof.
  intros H. unfold posixpath.basename. rewrite H, Nat.sub_0_r. apply substring_all.
Qed.

(** [basename] by cases on the first character. *)
Lemma basename_cons c rest :
  posixpath.basename (String c rest) =
  match posixpath.head_length rest with
  | 0 => if Ascii.eqb c "/" then rest else String c rest
  | S _ => posixpath.basename rest
  end.
Proof.
  unfold posixpath.basename. simpl posixpath.head_length.
  destruct (posixpath.head_length rest) as [|n] eqn:E.
  - destruct (Ascii.eqb c "/"); simpl; rewrite ?Nat.sub_0_r, substring_all; reflexivity.
  - reflexivity.
Qed.

(** The length up to the last slash is [0] only when there is no slash. *)
Lemma head_length_0 p i :
  posixpath.head_length p = 0 -> String.get i p <> Some "/"%char.
Proof.
  revert i. induction p as [|c rest IH]; intros i; simpl; [discriminate|].
  destruct (posixpath.head_length rest) as [|n]; [|discriminate].
  destruct (Ascii.eqb c "/") eqn:E; [discriminate|]. intros _.
  destruct i as [|i]; [|apply IH; reflexivity].
  intros [= ->]. discriminate E.
Qed.

(** No slash is left in a basename. *)
Lemma basename_no_slash p i : String.get i (posixpath.basename p) <> Some "/"%char.
Proof.
  induction p as [|c rest IH]; [destruct i; discriminate|].
  rewrite basename_cons.
  destruct (posixpath.head_length rest) as [|n] eqn:E; [|exact IH].
  destruct (Ascii.eqb c "/") eqn:Ec; [apply head_length_0; exact E|].
  destruct i as [|i]; simpl; [|apply head_length_0; exact E].
  intros [= ->]. discriminate Ec.
Qed.

Lemma prefix_append a x : String.prefix a (a +:+ x) = true.
Proof.
  induction a as [|c a IH]; [destruct x; reflexivity|].
  rewrite append_cons.
  change (String.prefix (String c a) (String c (a +:+ x)))
    with (if ascii_dec c c then String.prefix a (a +:+ x) else false).
  destruct (ascii_dec c c); [exact IH | contradiction].
Qed.

Lemma endswith_slash_append a b :
  truthy b = true -> posixpath.endswith_slash (a +:+ b) = posixpath.endswith_slash b.
Proof.
  intros Hb. induction a as [|c a IH]; [reflexivity|].
  rewrite append_cons. simpl. rewrite IH.
  destruct (a +:+ b) eqn:E; [|reflexivity].
  destruct a; [|discriminate E]. rewrite append_nil_l in E. subst b. discriminate Hb.
Qed.

(** The directory the handler allows is not empty and has no trailing
    slash. *)
Lemma allowed_dir_shape project_root :
  let allowed_dir := posixpath.join project_root "data_agent" in
  truthy allowed_dir = true /\ posixpath.endswith_slash allowed_dir = false.
Proof.
  unfold posixpath.join. simpl String.prefix. cbv iota.
  destruct (negb (truthy project_root) || posixpath.endswith_slash project_root).
  - split.
    + destruct project_root; reflexivity.
    + rewrite endswith_slash_append; reflexivity.
  - split.
    + destruct project_root; reflexivity.
    + rewrite endswith_slash_append; reflexivity.
Qed.

(** A name without slash is joined below the directory. *)
Lemma join_name allowed_dir name :
  truthy allowed_dir = true ->
  posixpath.endswith_slash allowed_dir = false ->
  String.get 0 name <> Some "/"%char ->
  posixpath.join allowed_dir name = allowed_dir +:+ "/" +:+ name.
Proof.
  intros Hdir Hslash Hname. unfold posixpath.join.
  assert (String.prefix "/" name = false) as ->.
  { destruct name as [|c name]; [reflexivity|].
    change (String.prefix "/" (String c name))
      with (if ascii_dec "/" c then String.prefix "" name else false).
    destruct (ascii_dec "/" c) as [<-|]; [contradiction Hname; reflexivity|reflexivity]. }
  rewrite Hdir, Hslash. reflexivity.
Qed.

(** C2, as amended: [get_code_file] rejects no path for leaving the
    directory.  It answers 400 only for an empty [filepath]; otherwise it
    opens the one path [<allowed_dir>/<basename of filepath>], whose last
    component holds no slash, and answers 200 with the content read there,
    404 when there is no such file and 500 on another error.  So the
    content in a 200 response is always what the file system holds at that
    path below the directory, whatever directories [filepath] names. *)
Theorem C2_code_file_reads_basename_only project_root fs arg :
  let allowed_dir := posixpath.join project_root "data_agent" in
  let filepath := sanitize_for_log arg in
  let name := posixpath.basename filepath in
  (forall i, String.get i name <> Some "/"%char) /\
  get_code_file project_root fs arg =
    (if truthy filepath then
       match fs (allowed_dir +:+ "/" +:+ name) with
       | FileContent content => jsonify [("content", JStr content)] 200
       | FileNotFoundError => jsonify [("error", JStr "File not found")] 404
       | ReadError _ => jsonify [("error", JStr "Internal server error")] 500
       end
     else jsonify [("error", JStr "Filepath is required")] 400) /\
  (status (get_code_file project_root fs arg) = 400%Z <-> filepath = "") /\
  (forall content,
      get_code_file project_root fs arg = jsonify [("content", JStr content)] 200 ->
      fs (allowed_dir +:+ "/" +:+ name) = FileContent content).
Proof.
  intros allowed_dir filepath name.
  assert (forall i, String.get i name <> Some "/"%char) as Hname
    by (intros i; apply basename_no_slash).
  destruct (allowed_dir_shape project_root) as [Hdir Hslash].
  assert (get_code_file project_root fs arg =
          (if truthy filepath then
             match fs (allowed_dir +:+ "/" +:+ name) with
             | FileContent content => jsonify [("content", JStr content)] 200
             | FileNotFoundError => jsonify [("error", JStr "File not found")] 404
             | ReadError _ => jsonify [("error", JStr "Internal server error")] 500
             end
           else jsonify [("error", JStr "Filepath is required")] 400)) as Heq.
  { unfold get_code_file. fold filepath. destruct (truthy filepath); [|reflexivity].
    cbv beta iota zeta. fold allowed_dir. fold name.
    rewrite (join_name allowed_dir name Hdir Hslash (Hname 0)).
    unfold startswith. rewrite prefix_append. reflexivity. }
  split; [exact Hname|]. split; [exact Heq|]. split.
  - rewrite Heq. destruct (truthy filepath) eqn:E.
    + split.
      * destruct (fs _); simpl; discriminate.
      * intros ->. discriminate E.
    + split; [intros _; apply truthy_false; exact E | reflexivity].
  - intros content. rewrite Heq. destruct (truthy filepath); [|discriminate].
    destruct (fs _); [|discriminate..]. intros [= ->]. reflexivity.
Qed.

(** C2, as stated, fails: a path that leaves the directory is not answered
    with an error when the directory holds a file with the same last
    component.  [filepath=../backend/utils.py] names a file of another
    directory; the handler answers 200 with the content of
    [data_agent/utils.py]. *)
Lemma C2_counterexample :
  ~ (forall project_root fs arg,
        escapes_sandbox project_root (sanitize_for_log arg) = true ->
        (400 <= status (get_code_file project_root fs arg) < 500)%Z).
Proof.
  intros H.
  specialize (H "/app" sample_fs (PyStr "../backend/utils.py") eq_refl).
  vm_compute in H. destruct H as [H _]. apply H. reflexivity.
Qed.

Lemma C2_code_file_reads_basename_only_witness :
  posixpath.basename "../backend/utils.py" = "utils.py" /\
  get_code_file "/app" sample_fs (PyStr "../backend/utils.py") =
    jsonify [("content", JStr "import collections")] 200 /\
  get_code_file "/app" sample_fs (PyStr "../../etc/passwd") =
    jsonify [("error", JStr "File not found")] 404 /\
  sample_fs "/app/data_agent/utils.py" = FileContent "import collections".
Proof.
  destruct (C2_code_file_reads_basename_only "/app" sample_fs
              (PyStr "../backend/utils.py")) as (_ & Hrun & _ & Hread).
  destruct (C2_code_file_reads_basename_only "/app" sample_fs
              (PyStr "../../etc/passwd")) as (_ & Hrun' & _).
  split; [reflexivity|]. split; [exact Hrun|]. split; [exact Hrun'|].
  apply (Hread "import collections"). exact Hrun.
Defined.

(** ** Startup prompt assembly *)

Section startup_facts.
Context {Row : Type} (env : Startup Row).

(** The debug save and the debug log never raise. *)
Lemma save_returns prompt : _save_instructions_for_debugging env prompt = Returned tt.
Proof.
  unfold _save_instructions_for_debugging, attempt.
  destruct (write_prompt_file env prompt) as [[]|e]; reflexivity.
Qed.

Lemma log_prompt_returns prompt : _log_prompt_for_debugging env prompt = Returned tt.
Proof.
  unfold _log_prompt_for_debugging, attempt.
  destruct (print_log_payload env prompt) as [[]|e]; reflexivity.
Qed.

Lemma build_returns : exists prompt, _build_master_instructions env = Returned prompt.
Proof.
  unfold _build_master_instructions, attempt.
  destruct (build_try env) as [prompt|e]; eexists; reflexivity.
Qed.

Lemma build_try_raised e :
  build_try env = Raised e -> _build_master_instructions env = Returned "".
Proof. intros H. unfold _build_master_instructions. rewrite H. reflexivity. Qed.

End startup_facts.

(** Running the steps of [build_try] one after the other: a step whose
    outcome is known is rewritten, any other is split into its outcomes. *)
Ltac run_steps :=
  repeat (cbv beta iota;
          match goal with
          | H : ?m = _ |- context [match ?m with _ => _ end] => rewrite H
          | |- context [match ?m with Returned _ => _ | Raised _ => _ end] =>
              lazymatch m with
              | context [match _ with Returned _ => _ | Raised _ => _ end] => fail
              | context [match _ with [] => _ | _ :: _ => _ end] => fail
              | _ => destruct m eqn:?
              end
          | |- context [match ?l with [] => _ | _ :: _ => _ end] =>
              destruct l eqn:?
          end).

Section startup_steps.
Context {Row : Type} (env : Startup Row).

Lemma step_raises_build : step_raises env -> exists e, build_try env = Raised e.
Proof.
  intros H. unfold build_try.
  cbv [mbind Outcome_bind mret Outcome_ret attempt].
  destruct H as [e H|e H|e Hp H|rows e Hrows H|e H|md dp sm a b c template e];
    try (destruct Hrows as [Hrows|[Hrows|[Hp Hrows]]]);
    run_steps; try (eexists; reflexivity); try congruence.
Qed.

(** The outcome of the debug save takes no part in the result. *)
Lemma build_ignores_save write :
  _build_master_instructions (with_write_prompt_file write env) =
  _build_master_instructions env.
Proof.
  unfold _build_master_instructions, build_try.
  cbv [mbind Outcome_bind mret Outcome_ret attempt _save_instructions_for_debugging
       _log_prompt_for_debugging with_write_prompt_file
       fetch_table_entry_metadata fetch_bigquery_data_profiles
       fetch_sample_data_for_tables json_dumps load_instruction_template format
       print_log_payload write_prompt_file count_tokens log_startup_kpis].
  destruct env as [md dp sm dumps load fmt print wr count kpis].
  run_steps; reflexivity.
Qed.

End startup_steps.

(** C8: startup prompt assembly always returns a string, never raises.
    When one of its steps raises (the metadata fetch, the profile fetch, the
    fallback sample fetch, a serialization, the template load or the
    interpolation), or anything else inside its [try] does, the cached
    prompt is the empty string.  The debug save never raises out of its
    function, and its outcome does not change the cached prompt. *)
Theorem C8_startup_never_raises {Row : Type} (env : Startup Row) :
  (exists prompt, CACHED_INSTRUCTIONS env = Returned prompt) /\
  (step_raises env -> CACHED_INSTRUCTIONS env = Returned "") /\
  (forall e, build_try env = Raised e -> CACHED_INSTRUCTIONS env = Returned "") /\
  (forall prompt, _save_instructions_for_debugging env prompt = Returned tt) /\
  (forall write,
      CACHED_INSTRUCTIONS (with_write_prompt_file write env) = CACHED_INSTRUCTIONS env).
Proof.
  unfold CACHED_INSTRUCTIONS. split; [apply build_returns|].
  split; [|split; [|split]].
  - intros H. destruct (step_raises_build env H) as [e He].
    exact (build_try_raised env e He).
  - apply build_try_raised.
  - apply save_returns.
  - apply build_ignores_save.
Qed.

Lemma C8_startup_never_raises_witness :
  CACHED_INSTRUCTIONS failing_startup = Returned "" /\
  CACHED_INSTRUCTIONS sample_startup = Returned "Tables: sales;;row" /\
  CACHED_INSTRUCTIONS
    (with_write_prompt_file (fun _ => Raised (Exception "disk full")) sample_startup)
  = Returned "Tables: sales;;row".
Proof.
  destruct (C8_startup_never_raises failing_startup) as (_ & Hempty & _).
  destruct (C8_startup_never_raises sample_startup) as (_ & _ & _ & _ & Hsave).
  split; [|split].
  - apply Hempty.
    exact (metadata_fetch_raises failing_startup (Exception "PermissionDenied") eq_refl).
  - reflexivity.
  - rewrite Hsave. reflexivity.
Defined.

(** * Further properties of the code *)

(** ** [sanitize_for_log] (backend/app.py) *)

(** X1: the sanitizer replaces each character in U+0000..U+001F and U+007F
    by ['?'] and keeps every other character at its place: the length of
    the text is kept, no such character is left, a text without them is
    returned as it is, and sanitizing a sanitized text again changes
    nothing. *)
Theorem sanitize_for_log_idempotent (value : PyVal) :
  String.length (sanitize_for_log value) = String.length (py_str value) /\
  (forall i, String.get i (sanitize_for_log value) =
             (fun c => if (nat_of_ascii c <=? 31)%nat || (nat_of_ascii c =? 127)%nat
                       then "?"%char else c) <$> String.get i (py_str value)) /\
  (forall i c, String.get i (sanitize_for_log value) = Some c ->
               ~ (nat_of_ascii c <= 31 \/ nat_of_ascii c = 127)%nat) /\
  ((forall i c, String.get i (py_str value) = Some c ->
                ~ (nat_of_ascii c <= 31 \/ nat_of_ascii c = 127)%nat) ->
   sanitize_for_log value = py_str value) /\
  sanitize_for_log (PyStr (sanitize_for_log value)) = sanitize_for_log value.
Proof.
  unfold sanitize_for_log. split; [apply re_sub_control_length|].
  split; [intros i; apply re_sub_control_get|].
  split; [|split].
  - intros i c Hget Hctl. apply is_control_spec in Hctl.
    apply re_sub_control_clean in Hget. congruence.
  - intros Hclean. apply re_sub_control_id. intros i c Hget.
    destruct (is_control c) eqn:E; [|reflexivity].
    apply is_control_spec in E. contradiction (Hclean i c Hget).
  - simpl py_str. apply re_sub_control_id. intros i c. apply re_sub_control_clean.
Qed.

(** ** [chat_handler]: a whole exchange *)

Lemma parts_have_argsb_sound ps : parts_have_argsb ps = true -> parts_have_args ps.
Proof.
  unfold parts_have_argsb. rewrite forallb_forall.
  intros H part fc Hin Hfc. apply list_elem_of_In in Hin. specialize (H part Hin).
  rewrite Hfc in H. apply bool_decide_eq_true_1 in H as [d Hd]. congruence.
Qed.

Lemma event_scannableb_sound event : event_scannableb event = true -> event_scannable event.
Proof.
  unfold event_scannableb. intros H c Hc Hrole. rewrite Hc in H.
  destruct (decide (genai_types.role c = Some "model")); [|contradiction].
  destruct (genai_types.parts c) as [ps|]; [|discriminate].
  exists ps. split; [reflexivity | apply parts_have_argsb_sound; exact H].
Qed.

Lemma exchange_cleanb_sound events :
  exchange_cleanb events = true ->
  forall e, e ∈ events -> truthy_opt (error_code e) = false /\ event_scannable e.
Proof.
  unfold exchange_cleanb. rewrite forallb_forall. intros H e He.
  apply list_elem_of_In in He. specialize (H e He).
  apply andb_true_iff in H as [Herr Hscan]. split.
  - destruct (truthy_opt (error_code e)); [discriminate | reflexivity].
  - apply event_scannableb_sound. exact Hscan.
Qed.

Lemma turn_messages_nil : turn_messages [] = [].
Proof. reflexivity. Qed.

(** One event of an exchange: what it adds to the output and to the
    round-trip counter. *)
Lemma loop_body_exchange_step event st n :
  truthy_opt (error_code event) = false ->
  event_scannable event ->
  kpi_data st !! "llm_round_trips" = Some (KInt n) ->
  exists st',
    loop_body event st = (Returned Next, st') /\
    final_response_parts st' =
      final_response_parts st ++ turn_messages (event_parts event) /\
    kpi_data st' !! "llm_round_trips" =
      Some (KInt (n + (if is_model_content event then 1 else 0))).
Proof.
  intros Herr Hscan Hn. unfold event_parts, is_model_content.
  destruct (content event) as [c|] eqn:Hc.
  - destruct (decide (genai_types.role c = Some "model")) as [Hrole|Hrole].
    + destruct (Hscan c Hc Hrole) as (ps & Hps & Hargs).
      destruct (loop_body_model st event c ps n Herr Hc Hrole Hps Hargs Hn)
        as (st' & Hrun & Hout & _ & Hn' & _).
      exists st'. rewrite Hps, bool_decide_eq_true_2 by exact Hrole. simpl. auto.
    + exists st. unfold loop_body. rewrite Herr, Hc.
      destruct (decide (genai_types.role c = Some "model")); [contradiction|].
      rewrite bool_decide_eq_false_2 by exact Hrole.
      rewrite turn_messages_nil, app_nil_r, Z.add_0_r. auto.
  - exists st. unfold loop_body. rewrite Herr, Hc.
    rewrite turn_messages_nil, app_nil_r, Z.add_0_r. auto.
Qed.

Lemma async_for_exchange events st n :
  (forall e, e ∈ events -> truthy_opt (error_code e) = false /\ event_scannable e) ->
  kpi_data st !! "llm_round_trips" = Some (KInt n) ->
  exists st',
    async_for (Yield <$> events) st = (Returned tt, st') /\
    final_response_parts st' = final_response_parts st ++ exchange_messages events /\
    kpi_data st' !! "llm_round_trips" = Some (KInt (n + round_trips events)) /\
    generator st' = [].
Proof.
  revert st n. induction events as [|e events IH]; intros st n Hall Hn.
  - exists (set_generator [] st). simpl. rewrite app_nil_r, Z.add_0_r. auto.
  - destruct (Hall e (list_elem_of_here _ _)) as [Herr Hscan].
    destruct (loop_body_exchange_step e st n Herr Hscan Hn) as (st1 & Hrun & Hout1 & Hn1).
    destruct (IH st1 _ (fun e' He' => Hall e' (list_elem_of_further _ _ _ He')) Hn1)
      as (st2 & Hrest & Hout2 & Hn2 & Hgen).
    exists st2. rewrite fmap_cons, async_for_cons, Hrun. split; [exact Hrest|].
    split; [|split; [|exact Hgen]].
    + rewrite Hout2, Hout1. simpl. rewrite app_assoc. reflexivity.
    + rewrite Hn2. simpl round_trips. do 2 f_equal. lia.
Qed.

(** X2: an exchange whose stream is exhausted.  When no event carries an
    error code and every event can be scanned, the handler answers 200 with
    the messages of the events, one event after the other in the order of
    the stream; the round-trip counter ends at the number of events of role
    ["model"], and nothing is left in the generator. *)
Theorem chat_exchange_output srv req_data call events :
  components_ready srv = true ->
  validated req_data = Some call ->
  run_async srv call = Yield <$> events ->
  (forall e, e ∈ events -> truthy_opt (error_code e) = false /\ event_scannable e) ->
  let out := chat_handler srv req_data in
  out.1 = Returned (jsonify [("session_id", JStr (call_session_id call));
                             ("messages", JArr (exchange_messages events))] 200) /\
  kpi_data out.2 !! "llm_round_trips" = Some (KInt (round_trips events)) /\
  generator out.2 = [].
Proof.
  intros Hready Hvalid Hstream Hall out. subst out.
  rewrite (chat_handler_valid _ _ _ Hready Hvalid), Hstream.
  destruct (async_for_exchange events (loop_entry call) 0 Hall)
    as (st1 & -> & Hout & Hn & Hgen); [apply lookup_insert_eq|].
  simpl in Hout. unfold chat_finish, kpi_getitem. rewrite bind_unfold.
  destruct (kpi_data st1 !! "generated_sql"); simpl; rewrite Hout;
    (split; [reflexivity|]); (split; [|exact Hgen]);
    rewrite !lookup_insert_ne by discriminate; exact Hn.
Qed.

Lemma chat_exchange_output_witness :
  let events := [model_event [text_part "Looking at the sales table."];
                 {| error_code := None; content := None |};
                 model_event [text_part "Here it is."; sql_part "SELECT 1"]] in
  let out := chat_handler (server_with (Yield <$> events)) sample_request in
  out.1 = Returned (jsonify [("session_id", JStr "s1");
                             ("messages",
                              JArr [chat_message "model" "Looking at the sales table.";
                                    chat_message "model" (formatted_sql "SELECT 1")])] 200) /\
  kpi_data out.2 !! "llm_round_trips" = Some (KInt 2) /\
  generator out.2 = [].
Proof.
  intros events out.
  apply (chat_exchange_output (server_with (Yield <$> events)) sample_request
           sample_call events eq_refl eq_refl eq_refl).
  apply exchange_cleanb_sound. reflexivity.
Defined.

(** A request that does not pass the check is answered 400 unless reading
    it raises. *)
Lemma chat_try_invalid_response srv req_data r st :
  validated req_data = None ->
  chat_try srv req_data initial_state = (Returned r, st) ->
  r = jsonify [("error", JStr "user_id, session_id, and message are required")] 400.
Proof.
  destruct req_data as [|u s m]; [discriminate|].
  unfold validated, chat_try.
  destruct m as [|v|]; cbv [message_value]; cbv beta iota;
    cbv [mbind mret Eff_bind Eff_ret modify raise call_user_id call_session_id
         call_message_text]; cbv beta iota;
    try discriminate;
    match goal with
    | |- context [truthy ?a && truthy ?b && truthy ?c] =>
        destruct (truthy a && truthy b && truthy c);
        intros Hv Ht; [discriminate Hv|]
    end;
    simpl in Ht; injection Ht as <- _; reflexivity.
Qed.


(** X4: the telemetry flag of a completed exchange, from the events
    consumed (up to the end of the stream, or up to an event that carries an
    error code): [clarification_asked] is set exactly when some text was
    accumulated and either no SQL string was captured or the SQL string
    captured last is the text ["N/A"]. *)
Theorem chat_clarification_flag srv req_data call events tail :
  components_ready srv = true ->
  validated req_data = Some call ->
  run_async srv call = (Yield <$> events) ++ tail ->
  (tail = [] \/ exists e code rest, tail = Yield e :: rest /\ carries_error_code e code) ->
  (forall e, e ∈ events -> truthy_opt (error_code e) = false /\ event_scannable e) ->
  kpi_data (chat_handler srv req_data).2 !! "clarification_asked" =
  Some (KBool (match exchange_sql events with
               | None | Some "N/A" => truthy (exchange_text events)
               | Some _ => false
               end)).
Proof. apply clarification_flag_of_exchange. Qed.

Lemma chat_clarification_flag_witness :
  kpi_data (chat_handler
              (server_with [Yield (model_event [text_part "Which region?"]);
                            Yield (error_event "E1");
                            Yield (model_event [sql_part "SELECT 1"])])
              sample_request).2 !! "clarification_asked" = Some (KBool true).
Proof.
  apply (chat_clarification_flag
           (server_with [Yield (model_event [text_part "Which region?"]);
                         Yield (error_event "E1");
                         Yield (model_event [sql_part "SELECT 1"])])
           sample_request sample_call
           [model_event [text_part "Which region?"]]
           [Yield (error_event "E1"); Yield (model_event [sql_part "SELECT 1"])]
           eq_refl eq_refl eq_refl).
  - right. exists (error_event "E1"), "E1", [Yield (model_event [sql_part "SELECT 1"])].
    split; [reflexivity | split; reflexivity].
  - apply exchange_cleanb_sound. reflexivity.
Defined.

(** ** The response cache: a view that raises *)

(** X5: when a request is not served from the cache and the view raises,
    the exception leaves the decorator and the cache is left as it was:
    nothing is stored for the URL, and what was stored is kept, stale or
    not. *)
Theorem cache_keeps_nothing_on_raise {W : Type} (time : W -> Q) (timeout : Q)
    (f : Eff W Response) (url : string) (st : Cached W) (e : exn) (w : W) :
  (cache st !! url = None \/
   exists r0 ts0, cache st !! url = Some (r0, ts0) /\
                  (timeout <= time (world st) - ts0)%Q) ->
  f (world st) = (Raised e, w) ->
  wrapper time timeout f url st = (Raised e, {| cache := cache st; world := w |}).
Proof.
  intros Hmiss Hraise.
  assert (wrapper time timeout f url st = recompute time f url st) as ->.
  { destruct Hmiss as [Habsent|(r0 & ts0 & Hentry & Hstale)].
    - apply wrapper_absent. exact Habsent.
    - apply (wrapper_stale _ _ _ _ _ _ _ Hentry Hstale). }
  unfold recompute. rewrite Hraise. reflexivity.
Qed.

Lemma cache_keeps_nothing_on_raise_witness :
  let view : Eff Warehouse Response := fun w => (Raised (Exception "boom"), tick w) in
  let st := {| cache := {[ tables_url := (internal_server_error, 0%Q) ]};
               world := at_time 5000 sample_warehouse |} in
  wrapper clock 3600 view tables_url st =
  (Raised (Exception "boom"), {| cache := cache st; world := tick (world st) |}).
Proof.
  intros view st.
  apply (cache_keeps_nothing_on_raise clock 3600 view tables_url st).
  - right. exists internal_server_error, 0%Q. split; [reflexivity|].
    vm_compute. discriminate.
  - reflexivity.
Defined.

(** ** [list_tables]: what the view answers *)

Lemma get_total_rows_run name w :
  bigquery_Client w = Returned tt ->
  get_total_rows name w = (Returned (count_or_zero (count_rows_query w name)), tick w).
Proof.
  intros Hclient. unfold get_total_rows, try_except, tick.
  cbv [mbind mret Eff_bind Eff_ret enter_gateway modify bq]. cbv beta iota.
  simpl. rewrite Hclient. destruct (count_rows_query w name); reflexivity.
Qed.

Lemma get_total_column_count_run w :
  bigquery_Client w = Returned tt ->
  get_total_column_count w = (Returned (count_or_zero (count_columns_query w)), tick w).
Proof.
  intros Hclient. unfold get_total_column_count, try_except, tick.
  cbv [mbind mret Eff_bind Eff_ret enter_gateway modify bq]. cbv beta iota.
  simpl. rewrite Hclient. destruct (count_columns_query w); reflexivity.
Qed.

Lemma get_table_ddl_strings_run w :
  bigquery_Client w = Returned tt ->
  get_table_ddl_strings w = (Returned (listed_tables w), tick w).
Proof.
  intros Hclient. unfold get_table_ddl_strings, try_except, tick, listed_tables.
  cbv [mbind mret Eff_bind Eff_ret enter_gateway modify bq]. cbv beta iota.
  simpl. rewrite Hclient. destruct (tables_query w); reflexivity.
Qed.

Lemma sum_rows_run tables (query : string -> Outcome (list Z)) :
  forall total names w,
    bigquery_Client w = Returned tt ->
    count_rows_query w = query ->
    exists w',
      sum_rows tables total names w =
      (match mapM (fun table => count_or_zero (query (table_name table))) tables with
       | Some counts =>
           Returned ((total + foldr Z.add 0 counts)%Z, names ++ (table_name <$> tables))
       | None =>
           Raised (Exception "unsupported operand type(s) for +=: 'int' and 'NoneType'")
       end, w') /\
      bigquery_Client w' = Returned tt /\
      count_columns_query w' = count_columns_query w /\
      (is_Some (mapM (fun table => count_or_zero (query (table_name table))) tables) ->
       gateway_calls w' = length tables + gateway_calls w).
Proof.
  induction tables as [|table rest IH]; intros total names w Hclient Hquery.
  - exists w. simpl. rewrite Z.add_0_r, app_nil_r. auto.
  - simpl sum_rows. rewrite bind_unfold, (get_total_rows_run _ _ Hclient), Hquery.
    simpl mapM. destruct (count_or_zero (query (table_name table))) as [k|]; simpl.
    + destruct (IH (total + k)%Z (names ++ [table_name table]) (tick w))
        as (w' & Hrun & Hclient' & Hcols & Hcalls); [exact Hclient | exact Hquery |].
      exists w'. rewrite Hrun.
      destruct (mapM _ rest) as [counts|]; simpl.
      * rewrite <- app_assoc, Z.add_assoc. repeat split; auto.
        intros _. rewrite Hcalls by eauto. simpl. lia.
      * repeat split; auto. intros [x Hx]. discriminate Hx.
    + exists (tick w). repeat split; auto. intros [x Hx]. discriminate Hx.
Qed.

(** X6: what [list_tables] answers when the BigQuery client can be built.
    A failure of the listing query is answered as a listing of no tables,
    and a failure of a counting query as a count of 0: the answer is still
    200.  The tables are those with a DDL text, in the order of the listing;
    [total_rows] is the sum of their counts.  Only a counting query for rows
    that returns no row at all makes the answer 500; for columns it gives
    [null]. *)
Theorem list_tables_view_answer (w : Warehouse) :
  bigquery_Client w = Returned tt ->
  let tables := listed_tables w in
  (list_tables_view w).1 =
  Returned
    (match mapM (fun table => count_or_zero (count_rows_query w (table_name table)))
             tables with
     | Some counts =>
         jsonify [("tables", JArr (JStr <$> (table_name <$> tables)));
                  ("num_tables", JInt (Z.of_nat (length tables)));
                  ("total_columns", json_opt_int (count_or_zero (count_columns_query w)));
                  ("total_rows", JInt (foldr Z.add 0%Z counts))] 200
     | None => internal_server_error
     end) /\
  (is_Some (mapM (fun table => count_or_zero (count_rows_query w (table_name table)))
              tables) ->
   gateway_calls (list_tables_view w).2 = 2 + length tables + gateway_calls w).
Proof.
  intros Hclient tables. unfold list_tables_view, try_except.
  rewrite bind_unfold, (get_table_ddl_strings_run _ Hclient). fold tables.
  destruct (sum_rows_run tables (count_rows_query w) 0 [] (tick w))
    as (w1 & Hsum & Hclient1 & Hcols & Hcalls); [exact Hclient | reflexivity |].
  rewrite bind_unfold, Hsum.
  destruct (mapM _ tables) as [counts|].
  - rewrite bind_unfold, (get_total_column_count_run _ Hclient1), Hcols.
    simpl. split; [reflexivity|]. intros _. rewrite Hcalls by eauto. simpl. lia.
  - simpl. split; [reflexivity|]. intros [x Hx]. discriminate Hx.
Qed.

Lemma list_tables_view_answer_witness :
  let w := {| clock := 0; latency := 1;
              bigquery_Client := Returned tt;
              tables_query :=
                Returned [{| table_name := "sales"; ddl := Some "CREATE TABLE sales" |};
                          {| table_name := "v_sales"; ddl := None |};
                          {| table_name := "stores"; ddl := Some "CREATE TABLE stores" |}];
              count_rows_query := fun name =>
                if String.eqb name "sales" then Returned [42%Z]
                else Raised (Exception "403 Access Denied");
              count_columns_query := Returned [];
              gateway_calls := 0 |} in
  (list_tables_view w).1 =
    Returned (jsonify [("tables", JArr [JStr "sales"; JStr "stores"]);
                       ("num_tables", JInt 2);
                       ("total_columns", JNull);
                       ("total_rows", JInt 42)] 200) /\
  gateway_calls (list_tables_view w).2 = 4.
Proof.
  intros w. destruct (list_tables_view_answer w eq_refl) as [Hanswer Hcalls].
  split; [exact Hanswer|]. apply Hcalls. vm_compute. eauto.
Defined.

(** ** The application object, [login] and [logout] *)

(** The responses of the chat handler when its components are set. *)
Lemma chat_ready_cases srv req_data r :
  components_ready srv = true ->
  (chat_handler srv req_data).1 = Returned r ->
  r = jsonify [("error", JStr "user_id, session_id, and message are required")] 400 \/
  (exists sid msgs, r = jsonify [("session_id", JStr sid); ("messages", JArr msgs)] 200) \/
  (exists sid, r = jsonify [("session_id", JStr sid); ("messages", JArr []);
                            ("error", JStr "Internal server error")] 500).
Proof.
  intros Hready. destruct (validated req_data) as [call|] eqn:Hvalid.
  - rewrite (chat_handler_valid _ _ _ Hready Hvalid).
    destruct (async_for _ _) as [[[]|e] st].
    + destruct (chat_finish_returns (call_session_id call) st) as (st' & -> & _).
      intros [= <-]. right. left. eauto.
    + rewrite chat_except_returns. intros [= <-]. right. right. eauto.
  - unfold chat_handler, try_except. rewrite Hready.
    destruct (chat_try srv req_data initial_state) as [[r'|e] st] eqn:Htry.
    + intros [= <-]. left. exact (chat_try_invalid_response _ _ _ _ Hvalid Htry).
    + rewrite chat_except_returns. intros [= <-]. right. right. eauto.
Qed.

(** X7: [create_app] assigns [app.session_service] and [app.genai_types]
    only together with a [Runner]; when it sets [app.runner] to [None] it
    leaves the other two unassigned.  So on every application it builds,
    [login] and the chat endpoint never give their "not initialized"
    answers: when the runner could not be built they raise, reading
    [current_app.session_service]. *)
Theorem not_initialized_answers_unreachable boot req_data store :
  let app := create_app boot in
  (login app req_data store).1 <>
    Returned (jsonify [("error", JStr "Session service not initialized.")] 500) /\
  chat_endpoint app req_data <>
    Returned (jsonify [("error", JStr "Chat components not initialized on the server.")]
                500) /\
  (app_runner app = Assigned None ->
   app_session_service app = Unset /\ app_genai_types app = Unset /\
   (login app req_data store).1 =
     Raised (Exception "'Flask' object has no attribute 'session_service'") /\
   chat_endpoint app req_data =
     Raised (Exception "'Flask' object has no attribute 'session_service'")) /\
  (app_runner app <> Assigned None <->
   imports_ok boot = true /\ build_runner boot = Returned tt).
Proof.
  intros app. subst app. unfold create_app.
  destruct (imports_ok boot) eqn:Himports;
    [destruct (build_runner boot) as [[]|e] eqn:Hrunner|].
  - (* the runner was built *)
    split; [|split; [|split]].
    + unfold login.
      cbv [mbind mret Eff_bind Eff_ret getattr req_get_user_id try_except
           create_session raise app_session_service app_runner].
      destruct req_data as [|u s m]; [discriminate|].
      destruct (negb (truthy (sanitize_for_log u))); [discriminate|].
      destruct (new_session store _ _ _); discriminate.
    + unfold chat_endpoint. simpl.
      match goal with
      | |- (chat_handler ?srv _).1 <> _ =>
          destruct (chat_handler_returns srv req_data) as [r Hr];
          destruct (chat_ready_cases srv req_data r eq_refl Hr)
            as [->|[(sid & msgs & ->)|(sid & ->)]]; rewrite Hr; discriminate
      end.
    + discriminate.
    + split; [auto | discriminate].
  - (* building the runner raised *)
    split; [discriminate|]. split; [discriminate|]. split; [auto 6|].
    split; [intros H; contradiction H; reflexivity | intros [_ H]; discriminate H].
  - (* the imports failed *)
    split; [discriminate|]. split; [discriminate|]. split; [auto 6|].
    split; [intros H; contradiction H; reflexivity | intros [H _]; discriminate H].
Qed.

(** X8: [login] adds a session exactly when it answers 200: then the store
    holds one more session, for the application name of the runner and the
    sanitized user identifier, and the answer carries that session's
    identifier and that user identifier.  In every other case, whether the
    view answers or raises, the sessions are left as they were.  It answers
    400 only for a [user_id] whose sanitized text is empty. *)
Theorem login_creates_session_iff_200 app req_data store :
  let out := login app req_data store in
  match out.1 with
  | Returned r =>
      if decide (status r = 200%Z) then
        exists runner raw_user_id raw_session_id message sid,
          app_runner app = Assigned (Some runner) /\
          req_data = ReqDict raw_user_id raw_session_id message /\
          new_session store (sessions store) (app_name runner)
            (sanitize_for_log raw_user_id) = Returned sid /\
          sessions out.2 =
            sessions store ++ [{| session_app_name := app_name runner;
                                  session_user_id := sanitize_for_log raw_user_id;
                                  id := sid |}] /\
          r = jsonify [("session_id", JStr sid);
                       ("user_id", JStr (sanitize_for_log raw_user_id))] 200
      else
        sessions out.2 = sessions store /\
        (status r = 400%Z ->
         exists raw_user_id raw_session_id message,
           req_data = ReqDict raw_user_id raw_session_id message /\
           sanitize_for_log raw_user_id = "")
  | Raised _ => sessions out.2 = sessions store
  end.
Proof.
  intros out. subst out. unfold login.
  cbv [mbind mret Eff_bind Eff_ret getattr req_get_user_id try_except
       create_session raise].
  destruct (app_session_service app) as [|ss]; [reflexivity|].
  destruct (app_runner app) as [|rn] eqn:Hrunner; [reflexivity|].
  destruct ss as [ss|]; [destruct rn as [rn|]|];
    try (simpl; split; [reflexivity | discriminate]).
  destruct req_data as [|u s m]; [reflexivity|].
  destruct (truthy (sanitize_for_log u)) eqn:Hu; simpl.
  - destruct (new_session store (sessions store) (app_name rn) (sanitize_for_log u))
      as [sid|e] eqn:Hnew; simpl.
    + exists rn, u, s, m, sid. auto.
    + split; [reflexivity | discriminate].
  - split; [reflexivity|]. intros _. exists u, s, m. split; [reflexivity|].
    apply truthy_false. exact Hu.
Qed.

(** ** [test_query] *)

Lemma test_for_parts_spec ps g t :
  parts_have_args ps ->
  test_for_parts ps (g, t) =
  Returned (match turn_sql ps with Some q => Some q | None => g end, t +:+ turn_text ps).
Proof.
  revert g t. induction ps as [|part ps IH]; intros g t Hargs.
  - simpl. rewrite append_nil_r. reflexivity.
  - assert (parts_have_args ps) as Hrest
      by (intros p fc Hp; apply Hargs, list_elem_of_further, Hp).
    assert (forall fc, genai_types.function_call part = Some fc ->
                       genai_types.args fc <> None) as Hpart
      by (intros fc; apply Hargs, list_elem_of_here).
    simpl test_for_parts. unfold test_part_step. simpl turn_sql. simpl turn_text.
    unfold part_sql.
    assert (forall t0, (if truthy t0 then t +:+ t0 else t) = t +:+ t0) as Htext.
    { intros [|c t0]; [symmetry; apply append_nil_r | reflexivity]. }
    destruct (genai_types.function_call part) as [fc|]; simpl.
    + specialize (Hpart fc eq_refl).
      destruct (genai_types.args fc) as [d|]; [|congruence]. simpl.
      destruct (d !! "sql_query") as [raw|]; simpl;
        [destruct (truthy raw); simpl|];
        rewrite (IH _ _ Hrest); destruct (turn_sql ps);
        destruct (genai_types.text part);
        rewrite ?Htext, ?append_assoc; reflexivity.
    + rewrite (IH _ _ Hrest). destruct (turn_sql ps);
        destruct (genai_types.text part); rewrite ?Htext, ?append_assoc; reflexivity.
Qed.

Lemma test_loop_body_quiet event t :
  test_quietb event = true ->
  test_loop_body event {| generated_sql := None; agent_error := None; llm_response := t |}
  = Returned (Next, {| generated_sql := None; agent_error := None;
                       llm_response := t +:+ turn_text (test_event_parts event) |}).
Proof.
  unfold test_quietb, test_loop_body, test_event_parts. intros H.
  apply andb_true_iff in H as [Herr H].
  destruct (truthy_opt (error_code (adk_event event))); [discriminate|].
  destruct (content (adk_event event)) as [c|]; simpl.
  - destruct (genai_types.parts c) as [ps|]; [|discriminate].
    apply andb_true_iff in H as [Hargs Hsql].
    apply parts_have_argsb_sound in Hargs. apply bool_decide_eq_true_1 in Hsql.
    simpl. rewrite (test_for_parts_spec ps None t Hargs), Hsql. reflexivity.
  - rewrite append_nil_r. reflexivity.
Qed.

Lemma test_async_for_quiet quiet tail t :
  forallb test_quietb quiet = true ->
  test_async_for ((AdkYield <$> quiet) ++ tail)
    {| generated_sql := None; agent_error := None; llm_response := t |}
  = test_async_for tail
      {| generated_sql := None; agent_error := None;
         llm_response := t +:+ test_text quiet |}.
Proof.
  revert t. induction quiet as [|e quiet IH]; intros t Hquiet.
  - simpl. rewrite append_nil_r. reflexivity.
  - simpl in Hquiet. apply andb_true_iff in Hquiet as [He Hquiet].
    rewrite fmap_cons. simpl. rewrite (test_loop_body_quiet e t He), (IH _ Hquiet).
    rewrite append_assoc. reflexivity.
Qed.

(** X9: what [test_query] answers, on an application whose components are
    set, for a request with both parameters.  It creates a temporary
    session, which stays in the store, and calls the runtime once with it.
    It passes over the events that carry no error code and capture no SQL
    string, accumulating their text whatever their role, and stops at the
    first event that does either, leaving the rest of the stream
    unconsumed:
    - at an event with an error code it answers 400 [AgentError] with the
      code and the message of the event;
    - at an event that captures an SQL string it answers 200 [Success] with
      that string, and drops the text accumulated;
    - at the end of the stream it answers 200 [ClarificationNeeded] with the
      stripped text, or, when there is no text, 200 [Success] with the text
      ["No SQL generated."]. *)
Theorem test_query_answer (strip : string -> string) app runner ss
    user_id_arg question_arg store sid quiet tail :
  app_runner app = Assigned (Some runner) ->
  app_session_service app = Assigned (Some ss) ->
  app_genai_types app = Assigned (Some tt) ->
  let user_id := sanitize_for_log user_id_arg in
  let question := sanitize_for_log question_arg in
  let call := {| call_user_id := user_id; call_session_id := sid;
                 call_message_text := question |} in
  truthy user_id = true ->
  truthy question = true ->
  new_session store (sessions store) (app_name runner) user_id = Returned sid ->
  runner_run_async runner call = (AdkYield <$> quiet) ++ tail ->
  forallb test_quietb quiet = true ->
  let out := test_query strip app user_id_arg question_arg store in
  sessions (test_store out.2) =
    sessions store ++ [{| session_app_name := app_name runner;
                          session_user_id := user_id; id := sid |}] /\
  test_calls out.2 = [call] /\
  (tail = [] ->
   test_generator out.2 = [] /\
   out.1 = Returned
             (if truthy (test_text quiet) then
                jsonify [("status", JStr "ClarificationNeeded");
                         ("clarification_question", JStr (strip (test_text quiet)))] 200
              else
                jsonify [("status", JStr "Success");
                         ("generated_sql", JStr "No SQL generated.")] 200)) /\
  (forall event rest code,
      tail = AdkYield event :: rest ->
      carries_error_code (adk_event event) code ->
      test_generator out.2 = rest /\
      out.1 = Returned
                (jsonify [("status", JStr "AgentError");
                          ("error", JObj [("code", JStr code);
                                          ("message", json_opt_str (error_message event))])]
                   400)) /\
  (forall event rest c ps sql,
      tail = AdkYield event :: rest ->
      truthy_opt (error_code (adk_event event)) = false ->
      content (adk_event event) = Some c ->
      genai_types.parts c = Some ps ->
      parts_have_args ps ->
      turn_sql ps = Some sql ->
      test_generator out.2 = rest /\
      out.1 = Returned (jsonify [("status", JStr "Success");
                                 ("generated_sql", JStr sql)] 200)).
Proof.
  intros Hrunner Hss Hgenai user_id question call Hu Hq Hnew Hstream Hquiet out.
  subst out. unfold test_query. fold user_id question.
  rewrite Hu, Hq, Hrunner, Hss, Hgenai. simpl negb. cbv iota.
  unfold create_session. rewrite Hnew. cbv beta iota zeta. simpl id. fold call.
  rewrite Hstream, (test_async_for_quiet quiet tail "" Hquiet), append_nil_l.
  simpl test_store. simpl test_calls. simpl test_generator. simpl sessions.
  split; [reflexivity|]. split; [reflexivity|]. split; [|split].
  - intros ->. simpl. split; [reflexivity|]. unfold test_answer. simpl.
    destruct (truthy (test_text quiet)); reflexivity.
  - intros event rest code -> [Hcode Htruthy]. simpl test_async_for.
    unfold test_loop_body. rewrite Hcode. simpl truthy_opt. rewrite Htruthy.
    simpl. split; reflexivity.
  - intros event rest c ps sql -> Herr Hc Hps Hargs Hsql. simpl test_async_for.
    unfold test_loop_body. rewrite Herr, Hc, Hps. simpl.
    rewrite (test_for_parts_spec ps None _ Hargs), Hsql. simpl.
    rewrite (turn_sql_truthy _ _ Hsql). simpl. split; [reflexivity|].
    unfold test_answer. simpl. rewrite (turn_sql_truthy _ _ Hsql). reflexivity.
Qed.

Lemma test_query_answer_witness :
  let items :=
    [AdkYield (plain {| error_code := None;
                        content := Some {| genai_types.role := Some "user";
                                           genai_types.parts :=
                                             Some [text_part "Top stores?"] |} |});
     AdkYield (plain (model_event [text_part "Running it."; sql_part "SELECT 1"]));
     AdkYield (plain (model_event [text_part "Done."]))] in
  let out := test_query (fun s => s) (sample_app items) (PyStr "u1")
               (PyStr "Top stores?") sample_store in
  out.1 = Returned (jsonify [("status", JStr "Success");
                             ("generated_sql", JStr "SELECT 1")] 200) /\
  test_generator out.2 = [AdkYield (plain (model_event [text_part "Done."]))] /\
  sessions (test_store out.2) =
    [{| session_app_name := "data_agent_chatbot"; session_user_id := "u1";
        id := "temp-1" |}].
Proof.
  intros items out.
  destruct (test_query_answer (fun s => s) (sample_app items)
              {| app_name := APP_NAME; runner_session_service := DatabaseSessionService;
                 runner_run_async := fun _ => items |}
              DatabaseSessionService (PyStr "u1") (PyStr "Top stores?") sample_store
              "temp-1"
              [plain {| error_code := None;
                        content := Some {| genai_types.role := Some "user";
                                           genai_types.parts :=
                                             Some [text_part "Top stores?"] |} |}]
              [AdkYield (plain (model_event [text_part "Running it."; sql_part "SELECT 1"]));
               AdkYield (plain (model_event [text_part "Done."]))]
              eq_refl eq_refl eq_refl eq_refl eq_refl eq_refl eq_refl eq_refl)
    as (Hsessions & _ & _ & _ & Hsql).
  destruct (Hsql (plain (model_event [text_part "Running it."; sql_part "SELECT 1"]))
              [AdkYield (plain (model_event [text_part "Done."]))]
              {| genai_types.role := Some "model";
                 genai_types.parts := Some [text_part "Running it."; sql_part "SELECT 1"] |}
              [text_part "Running it."; sql_part "SELECT 1"] "SELECT 1"
              eq_refl eq_refl eq_refl eq_refl) as [Hgen Hout];
    [apply parts_have_argsb_sound; reflexivity | reflexivity |].
  split; [exact Hout|]. split; [exact Hgen | exact Hsessions].
Defined.

(** ** [get_table_data]: an outage of the warehouse *)

(** X10: when the BigQuery client cannot be built, [get_table_data] does not
    answer with an error: the functions it calls swallow the exception, and
    the answer is 200 with no rows and an empty description, as for an empty
    table without description.  The decorator stores that answer, and
    serves it for the URL until 3600 seconds have passed, whatever the
    state of the warehouse then. *)
Theorem table_data_outage_served_as_empty {Cell : Type} (arg : PyVal) (url : string)
    (st : Cached (Tables Cell)) (e : exn) :
  truthy (sanitize_for_log arg) = true ->
  table_client (world st) = Raised e ->
  cache st !! url = None ->
  let empty := jsonify [("data", JArr []); ("description", JStr "")] 200 in
  let st1 := {| cache := <[url := (empty, table_clock (world st))]> (cache st);
                world := world st |} in
  get_table_data arg url st = (Returned empty, st1) /\
  (forall w2 : Tables Cell, (table_clock w2 - table_clock (world st) < 3600)%Q ->
     get_table_data arg url {| cache := cache st1; world := w2 |} =
     (Returned empty, {| cache := cache st1; world := w2 |})).
Proof.
  intros Hname Hclient Habsent empty st1.
  assert (get_table_data_view arg (world st) = (Returned empty, world st)) as Hview.
  { unfold get_table_data_view. rewrite Hname. simpl negb. cbv iota.
    unfold fetch_sample_data_for_single_table, get_table_description.
    rewrite Hclient. reflexivity. }
  split.
  - cbv beta delta [get_table_data]. rewrite wrapper_absent by exact Habsent.
    unfold recompute. rewrite Hview. reflexivity.
  - intros w2 Hfresh. cbv beta delta [get_table_data].
    apply (wrapper_hit _ _ _ _ _ empty (table_clock (world st))); [|exact Hfresh].
    simpl. apply lookup_insert_eq.
Qed.

Lemma table_data_outage_served_as_empty_witness :
  let down : Tables Z :=
    {| table_client := Raised (Exception "DefaultCredentialsError");
       list_rows := fun _ _ => Returned [];
       get_table_description_of := fun _ => Returned None;
       row_to_json := fun _ => Returned JNull;
       table_clock := 100 |} in
  let up : Tables Z :=
    {| table_client := Returned tt;
       list_rows := fun _ _ => Returned [[("store", 7%Z)]];
       get_table_description_of := fun _ => Returned (Some "Stores");
       row_to_json := fun row => Returned (JObj (prod_map (fun k => k) JInt <$> row));
       table_clock := 1000 |} in
  let url := "http://localhost:8080/api/table_data?table_name=stores" in
  let empty := jsonify [("data", JArr []); ("description", JStr "")] 200 in
  let st1 := (get_table_data (PyStr "stores") url {| cache := ∅; world := down |}).2 in
  get_table_data (PyStr "stores") url {| cache := ∅; world := down |} =
    (Returned empty, st1) /\
  get_table_data (PyStr "stores") url {| cache := cache st1; world := up |} =
    (Returned empty, {| cache := cache st1; world := up |}) /\
  (get_table_data_view (PyStr "stores") up).1 =
    Returned (jsonify [("data", JArr [JObj [("store", JInt 7)]]);
                       ("description", JStr "Stores")] 200).
Proof.
  intros down up url empty st1.
  destruct (table_data_outage_served_as_empty (PyStr "stores") url
              {| cache := ∅; world := down |}
              (Exception "DefaultCredentialsError") eq_refl eq_refl (lookup_empty url))
    as [Hfirst Hreplay].
  assert (st1 = {| cache := <[url := (empty, table_clock down)]> ∅; world := down |})
    as Hst1 by (unfold st1; rewrite Hfirst; reflexivity).
  split; [rewrite Hst1; exact Hfirst|]. split; [|reflexivity].
  rewrite Hst1. apply Hreplay. vm_compute. reflexivity.
Defined.

(** ** [sanitize_for_log] of backend/utils.py *)

Lemma replace_char_append old new s1 s2 :
  replace_char old new (s1 +:+ s2) = replace_char old new s1 +:+ replace_char old new s2.
Proof.
  induction s1 as [|c s1 IH]; [reflexivity|].
  rewrite append_cons. simpl. rewrite IH.
  destruct (Ascii.eqb c old); [rewrite append_assoc|]; reflexivity.
Qed.

Lemma get_append_cases s1 s2 i c :
  String.get i (s1 +:+ s2) = Some c ->
  (exists j, String.get j s1 = Some c) \/ (exists j, String.get j s2 = Some c).
Proof.
  revert i. induction s1 as [|c1 s1 IH]; intros i; [rewrite append_nil_l; eauto|].
  rewrite append_cons. destruct i as [|i]; simpl.
  - intros [= ->]. left. exists 0. reflexivity.
  - intros H. destruct (IH i H) as [[j Hj]|[j Hj]]; [left; exists (S j) | right; exists j];
      exact Hj.
Qed.

(** No occurrence of [old] is left when the new text does not hold it. *)
Lemma replace_char_gone old new s i :
  (forall j, String.get j new <> Some old) ->
  String.get i (replace_char old new s) <> Some old.
Proof.
  intros Hnew. revert i. induction s as [|c s IH]; intros i; [destruct i; discriminate|].
  simpl. destruct (Ascii.eqb c old) eqn:E.
  - intros H. apply get_append_cases in H as [[j Hj]|[j Hj]].
    + exact (Hnew j Hj).
    + exact (IH j Hj).
  - destruct i as [|i]; simpl; [|apply IH].
    intros [= ->]. rewrite Ascii.eqb_refl in E. discriminate.
Qed.

(** A character other than [old] that is not in the input and not in the
    new text is not in the output. *)
Lemma replace_char_absent old new s x i :
  (forall j, String.get j new <> Some x) ->
  (forall j, String.get j s <> Some x) ->
  String.get i (replace_char old new s) <> Some x.
Proof.
  intros Hnew. revert i. induction s as [|c s IH]; intros i Hs; [destruct i; discriminate|].
  assert (forall j, String.get j s <> Some x) as Hrest by (intros j; apply (Hs (S j))).
  simpl. destruct (Ascii.eqb c old).
  - intros H. apply get_append_cases in H as [[j Hj]|[j Hj]].
    + exact (Hnew j Hj).
    + exact (IH j Hrest Hj).
  - destruct i as [|i]; simpl; [apply (Hs 0) | apply IH; exact Hrest].
Qed.

Lemma replace_char_id old new s :
  (forall j, String.get j s <> Some old) -> replace_char old new s = s.
Proof.
  induction s as [|c s IH]; intros H; [reflexivity|]. simpl.
  destruct (Ascii.eqb c old) eqn:E.
  - apply Ascii.eqb_eq in E as ->. contradiction (H 0). reflexivity.
  - rewrite IH; [reflexivity|]. intros j. apply (H (S j)).
Qed.

Lemma two_letters_get (a b x : ascii) j :
  x <> a -> x <> b -> String.get j (String a (String b EmptyString)) <> Some x.
Proof.
  intros Ha Hb. destruct j as [|[|j]]; simpl; try discriminate; intros [= <-]; contradiction.
Qed.

(** X11: the sanitizer of backend/utils.py leaves no line feed and no
    carriage return in the text, and leaves a text without them as it is,
    other control characters included.  It does not escape the backslash:
    a line feed and the two characters backslash, n give the same output,
    so the output does not tell which of them was in the input. *)
Theorem utils_sanitize_for_log_escapes (value : PyVal) :
  (forall i, String.get i (backend_utils.sanitize_for_log value) <> Some LF /\
             String.get i (backend_utils.sanitize_for_log value) <> Some CR) /\
  ((forall i, String.get i (py_str value) <> Some LF /\
              String.get i (py_str value) <> Some CR) ->
   backend_utils.sanitize_for_log value = py_str value) /\
  (forall a b,
      backend_utils.sanitize_for_log (PyStr (a +:+ String LF b)) =
      backend_utils.sanitize_for_log (PyStr (a +:+ "\n" +:+ b))).
Proof.
  unfold backend_utils.sanitize_for_log. split; [|split].
  - intros i. split.
    + apply replace_char_absent.
      * intros j. apply two_letters_get; discriminate.
      * intros j. apply replace_char_gone.
        intros k. apply two_letters_get; discriminate.
    + apply replace_char_gone. intros j. apply two_letters_get; discriminate.
  - intros H. rewrite (replace_char_id LF) by (intros j; apply H).
    apply replace_char_id. intros j. apply H.
  - intros a b. simpl py_str. rewrite !replace_char_append. reflexivity.
Qed.

(** ** data_agent/utils.py: [_convert_decimals] and the fetches *)

Section warehouse_data_facts.
Context {Dec Flo Atom : Type} (float : Dec -> Flo) (gt90 : Flo -> bool).
#[local] Abbreviation PyData := (data_agent_utils.PyData Dec Flo Atom).
#[local] Abbreviation convert := (data_agent_utils._convert_decimals float).
#[local] Abbreviation convert_row :=
  (map (fun kv : string * PyData => match kv with (k, v) => (k, convert v) end)).

Lemma convert_no_decimal : forall obj : PyData, has_decimal (convert obj) = false.
Proof.
  fix IH 1. intros [items|entries|d|f|z|a]; simpl; try reflexivity.
  - induction items as [|x items IHitems]; simpl; [reflexivity|].
    rewrite IH, IHitems. reflexivity.
  - induction entries as [|[k v] entries IHentries]; simpl; [reflexivity|].
    rewrite IH, IHentries. reflexivity.
Qed.

Lemma convert_without_decimal :
  forall obj : PyData, has_decimal obj = false -> convert obj = obj.
Proof.
  fix IH 1. intros [items|entries|d|f|z|a]; simpl; try reflexivity; try discriminate.
  - intros H. f_equal. induction items as [|x items IHitems]; simpl; [reflexivity|].
    simpl in H. apply orb_false_iff in H as [Hx Hitems].
    rewrite (IH x Hx), (IHitems Hitems). reflexivity.
  - intros H. f_equal. induction entries as [|[k v] entries IHentries]; simpl; [reflexivity|].
    simpl in H. apply orb_false_iff in H as [Hv Hentries].
    rewrite (IH v Hv), (IHentries Hentries). reflexivity.
Qed.

(** X12: [_convert_decimals] leaves no [Decimal] at any depth of the lists
    and dicts of its result, returns a value without [Decimal] as it is,
    and so changes nothing when applied a second time. *)
Theorem convert_decimals_removes_all (obj : PyData) :
  has_decimal (convert obj) = false /\
  (has_decimal obj = false -> convert obj = obj) /\
  convert (convert obj) = convert obj.
Proof.
  split; [apply convert_no_decimal|]. split; [apply convert_without_decimal|].
  apply convert_without_decimal, convert_no_decimal.
Qed.

Lemma dict_get_convert key (row : list (string * PyData)) :
  data_agent_utils.dict_get key (convert_row row) =
  convert <$> data_agent_utils.dict_get key row.
Proof.
  induction row as [|[k v] row IH]; simpl; [reflexivity|].
  destruct (String.eqb k key); [reflexivity | exact IH].
Qed.

Lemma cleaned_rows_convert (rows : list (list (string * PyData))) :
  data_agent_utils.DList (data_agent_utils.DDict <$> data_agent_utils.cleaned_rows float rows)
  = convert (data_agent_utils.DList (data_agent_utils.DDict <$> rows)).
Proof.
  simpl. f_equal. unfold data_agent_utils.cleaned_rows.
  induction rows as [|row rows IH]; simpl; [reflexivity|]. f_equal. exact IH.
Qed.

End warehouse_data_facts.

Section warehouse_fetch_facts.
Context {Dec Flo Atom : Type} (float : Dec -> Flo) (gt90 : Flo -> bool).
#[local] Abbreviation convert_row' :=
  (map (fun kv : string * data_agent_utils.PyData Dec Flo Atom =>
          match kv with (k, v) => (k, data_agent_utils._convert_decimals float v) end)).

Lemma filter_sublist {A} (keep : A -> bool) (l : list A) : sublist (List.filter keep l) l.
Proof.
  induction l as [|x l IH]; simpl; [constructor|].
  destruct (keep x); [apply sublist_skip | apply sublist_cons]; exact IH.
Qed.

(** X13: [fetch_bigquery_data_profiles].  Without a configured profiles
    table it returns the empty list and builds no client.  With one, an
    exception of the client constructor leaves the function, while an
    exception of the query is answered with the empty list.  Otherwise it
    returns, in the order of the query, the converted rows that are not
    mostly null.  The conversion comes first: a row whose [percent_null] is
    the [Decimal] [d] is kept exactly when [float(d) > 90] is false. *)
Theorem fetch_profiles_behaviour (ds : data_agent_utils.Dataset Dec Flo Atom) :
  let fetch := data_agent_utils.fetch_bigquery_data_profiles float gt90 ds in
  (truthy_opt (data_agent_utils.DATA_PROFILES_TABLE_FULL_ID ds) = false ->
   fetch = Returned []) /\
  (truthy_opt (data_agent_utils.DATA_PROFILES_TABLE_FULL_ID ds) = true ->
   (forall e, data_agent_utils.bigquery_client ds = Raised e -> fetch = Raised e) /\
   (data_agent_utils.bigquery_client ds = Returned tt ->
    (forall e, data_agent_utils.profiles_query ds = Raised e -> fetch = Returned []) /\
    (forall rows, data_agent_utils.profiles_query ds = Returned rows ->
       exists result,
         fetch = Returned result /\
         sublist result (data_agent_utils.cleaned_rows float rows) /\
         (forall p, p ∈ result <->
                    p ∈ data_agent_utils.cleaned_rows float rows /\
                    data_agent_utils.mostly_null gt90 p = false) /\
         (forall row d,
             row ∈ rows ->
             data_agent_utils.dict_get "percent_null" row
               = Some (data_agent_utils.DDecimal d) ->
             (convert_row' row ∈ result <-> gt90 (float d) = false))))).
Proof.
  intros fetch. subst fetch. unfold data_agent_utils.fetch_bigquery_data_profiles.
  split; [intros ->; reflexivity|]. intros ->. simpl negb. cbv iota.
  split; [intros e ->; reflexivity|]. intros ->. split; [intros e ->; reflexivity|].
  intros rows ->. eexists. split; [reflexivity|].
  assert (forall p, p ∈ List.filter (fun p => negb (data_agent_utils.mostly_null gt90 p))
                          (data_agent_utils.cleaned_rows float rows) <->
                    p ∈ data_agent_utils.cleaned_rows float rows /\
                    data_agent_utils.mostly_null gt90 p = false) as Hmem.
  { intros p. rewrite !list_elem_of_In, filter_In, negb_true_iff. reflexivity. }
  split; [apply filter_sublist|]. split; [exact Hmem|].
  intros row d Hrow Hget. rewrite Hmem.
  assert (data_agent_utils.mostly_null gt90 (convert_row' row) = gt90 (float d)) as ->.
  { unfold data_agent_utils.mostly_null.
    rewrite (dict_get_convert float "percent_null" row), Hget. reflexivity. }
  split; [intros [_ H]; exact H|]. intros H. split; [|exact H].
  unfold data_agent_utils.cleaned_rows. apply list_elem_of_In, in_map, list_elem_of_In, Hrow.
Qed.

Lemma omap_length {A B} (f : A -> option B) (l : list A) :
  length (omap f l) <= length l.
Proof.
  induction l as [|x l IH]; csimpl; [lia|]. destruct (f x); csimpl; lia.
Qed.

Lemma sample_loop_omap (ds : data_agent_utils.Dataset Dec Flo Atom) tables acc :
  data_agent_utils.sample_loop float ds tables acc =
  acc ++ omap (sample_of float ds) tables.
Proof.
  revert acc. induction tables as [|t tables IH]; intros acc; simpl.
  - rewrite app_nil_r. reflexivity.
  - unfold sample_of at 1.
    destruct (data_agent_utils.list_table_rows ds _) as [raw|e]; [|apply IH].
    destruct (data_agent_utils.cleaned_rows float raw) as [|r rs]; [apply IH|].
    rewrite IH, <- app_assoc. reflexivity.
Qed.

(** X14: [fetch_sample_data_for_tables] goes through the configured tables,
    or else those of the dataset (none when listing them raises), and
    returns one sample for each table whose rows could be read and are not
    empty, in that order: a table whose read raises is skipped and the
    others are still sampled.  Only an exception of the client constructor
    leaves the function. *)
Theorem fetch_samples_behaviour (ds : data_agent_utils.Dataset Dec Flo Atom) :
  let fetch := data_agent_utils.fetch_sample_data_for_tables float ds in
  (forall e, data_agent_utils.bigquery_client ds = Raised e -> fetch = Raised e) /\
  (data_agent_utils.bigquery_client ds = Returned tt ->
   fetch = Returned (omap (sample_of float ds) (tables_to_fetch ds)) /\
   length (omap (sample_of float ds) (tables_to_fetch ds))
     <= length (tables_to_fetch ds) /\
   (forall s, s ∈ omap (sample_of float ds) (tables_to_fetch ds) ->
      data_agent_utils.sample_rows s <> [] /\
      exists table_id raw_rows,
        table_id ∈ tables_to_fetch ds /\
        data_agent_utils.sample_table_name s
          = PROJECT_ID +:+ "." +:+ DATASET_NAME +:+ "." +:+ table_id /\
        data_agent_utils.list_table_rows ds (data_agent_utils.sample_table_name s)
          = Returned raw_rows /\
        data_agent_utils.sample_rows s = data_agent_utils.cleaned_rows float raw_rows)).
Proof.
  intros fetch. subst fetch. unfold data_agent_utils.fetch_sample_data_for_tables.
  split; [intros e ->; reflexivity|]. intros ->.
  split; [|split].
  - simpl. rewrite sample_loop_omap. reflexivity.
  - apply omap_length.
  - intros s Hs. apply list_elem_of_omap in Hs as (t & Ht & Hsample).
    unfold sample_of in Hsample.
    destruct (data_agent_utils.list_table_rows ds _) as [raw|e] eqn:Hrows; [|discriminate].
    destruct (data_agent_utils.cleaned_rows float raw) as [|r rs] eqn:Hclean; [discriminate|].
    injection Hsample as <-. simpl. split; [discriminate|].
    exists t, raw. rewrite Hrows, Hclean. auto.
Qed.

End warehouse_fetch_facts.

(** ** [fetch_table_entry_metadata]: the names of configured tables *)

Lemma components_nonempty p : components p <> [].
Proof.
  destruct p as [|c rest]; simpl; [discriminate|].
  destruct (Ascii.eqb c "/"); [discriminate|]. destruct (components rest); discriminate.
Qed.

Lemma components_append_slash a b :
  components (a +:+ String "/" b) = components a ++ components b.
Proof.
  induction a as [|c a IH]; [reflexivity|].
  rewrite append_cons. simpl. rewrite IH.
  destruct (Ascii.eqb c "/"); [reflexivity|].
  pose proof (components_nonempty a) as Hne.
  destruct (components a) as [|first others]; [contradiction|]. reflexivity.
Qed.

Lemma components_no_slash b : posixpath.head_length b = 0 -> components b = [b].
Proof.
  induction b as [|c b IH]; [reflexivity|]. simpl.
  destruct (posixpath.head_length b) as [|n]; [|discriminate].
  destruct (Ascii.eqb c "/"); [discriminate|]. intros _. rewrite IH; reflexivity.
Qed.

Lemma no_slash_head_length b :
  (forall i, String.get i b <> Some "/"%char) -> posixpath.head_length b = 0.
Proof.
  induction b as [|c b IH]; intros H; [reflexivity|]. simpl.
  rewrite IH by (intros i; apply (H (S i))).
  destruct (Ascii.eqb c "/") eqn:E; [|reflexivity].
  apply Ascii.eqb_eq in E as ->. contradiction (H 0). reflexivity.
Qed.

Lemma head_length_append a b :
  posixpath.head_length b = 0 ->
  posixpath.head_length (a +:+ b) = posixpath.head_length a.
Proof.
  intros Hb. induction a as [|c a IH]; [exact Hb|].
  rewrite append_cons. simpl. rewrite IH. reflexivity.
Qed.

(** The last component of a text that ends in a slash followed by [b]. *)
Lemma short_table_name_tail a b :
  posixpath.head_length b = 0 ->
  data_agent_catalog.short_table_name (a +:+ String "/" b) = b.
Proof.
  intros Hb. unfold data_agent_catalog.short_table_name.
  rewrite components_append_slash, (components_no_slash b Hb).
  apply last_last.
Qed.

Lemma entry_loop_omap {Aspects : Type} (c : data_agent_catalog.Catalog Aspects) names acc :
  data_agent_catalog.entry_loop c names acc = acc ++ omap (entry_of c) names.
Proof.
  revert acc. induction names as [|n names IH]; intros acc; simpl.
  - rewrite app_nil_r. reflexivity.
  - unfold entry_of at 1.
    destruct (data_agent_catalog.get_entry c n) as [a|e]; [|apply IH].
    rewrite IH, <- app_assoc. reflexivity.
Qed.

(** X15: when table names are configured, [fetch_table_entry_metadata] does
    not name its entries by them.  For a configured name without slash the
    entry name holds the catalog identifier with its slashes written [%2F],
    so its last component is that whole identifier: every element of the
    result carries it as ['table_name'], and its description is looked up
    for the BigQuery table of that name, not of the configured name. *)
Theorem configured_tables_named_by_catalog_id {Aspects : Type}
    (c : data_agent_catalog.Catalog Aspects) :
  (forall name, (forall i, String.get i name <> Some "/"%char) ->
     data_agent_catalog.short_table_name (data_agent_catalog.entry_name_of name)
       = encoded_table_id name) /\
  (data_agent_catalog.TABLE_NAMES c <> [] ->
   (forall name i, name ∈ data_agent_catalog.TABLE_NAMES c ->
                   String.get i name <> Some "/"%char) ->
   data_agent_catalog.clients c = Returned tt ->
   exists result,
     data_agent_catalog.fetch_table_entry_metadata c = Returned result /\
     length result <= length (data_agent_catalog.TABLE_NAMES c) /\
     forall m, m ∈ result ->
       exists name,
         name ∈ data_agent_catalog.TABLE_NAMES c /\
         data_agent_catalog.table_name m = encoded_table_id name /\
         data_agent_catalog.description m =
           match data_agent_catalog.get_table c
                   ("agentic-data.mdp_ad_td_bqd_common_prod." +:+ encoded_table_id name) with
           | Returned d => if truthy_opt d then default "" d else ""
           | Raised _ => ""
           end).
Proof.
  assert (forall name, (forall i, String.get i name <> Some "/"%char) ->
            data_agent_catalog.short_table_name (data_agent_catalog.entry_name_of name)
            = encoded_table_id name) as Hshort.
  { intros name Hname.
    change (data_agent_catalog.entry_name_of name)
      with ("projects/agentic-data/locations/asia-south1/entryGroups/@bigquery/entries"
            +:+ String "/" (encoded_table_id name)).
    apply short_table_name_tail. unfold encoded_table_id.
    rewrite head_length_append by (apply no_slash_head_length; exact Hname).
    reflexivity. }
  split; [exact Hshort|]. intros Hconf Hnames Hclients.
  unfold data_agent_catalog.fetch_table_entry_metadata. rewrite Hclients.
  destruct (data_agent_catalog.TABLE_NAMES c) as [|n names] eqn:Htables; [contradiction|].
  eexists. split; [reflexivity|]. rewrite entry_loop_omap, app_nil_l.
  split.
  - etransitivity; [apply omap_length|]. rewrite length_fmap. reflexivity.
  - intros m Hm. apply list_elem_of_omap in Hm as (en & Hen & Hm).
    apply list_elem_of_fmap in Hen as (name & -> & Hname).
    exists name. split; [exact Hname|].
    unfold entry_of in Hm.
    destruct (data_agent_catalog.get_entry c _) as [a|e]; [|discriminate].
    injection Hm as <-. simpl.
    rewrite (Hshort name (fun i => Hnames name i Hname)). split; reflexivity.
Qed.

(** ** [_build_master_instructions]: the prompt that is cached *)

(** X16: when the fetches, the serializations, the template load and the
    interpolation all return, the cached prompt is the interpolated prompt,
    whatever the debug log, the debug save and the token count do; the
    fallback samples are fetched only when no data profile was found, and
    the KPI log receives the token count, or 0 when counting raised.  Only
    the KPI log, which runs inside the same [try], can still lose the
    prompt: when it raises, the empty string is cached. *)
Theorem startup_prompt_assembled {Row : Type} (env : Startup Row)
    table_metadata data_profiles samples a b c template final_prompt :
  fetch_table_entry_metadata env = Returned table_metadata ->
  fetch_bigquery_data_profiles env = Returned data_profiles ->
  match data_profiles with
  | [] => fetch_sample_data_for_tables env
  | _ :: _ => Returned []
  end = Returned samples ->
  json_dumps env table_metadata = Returned a ->
  json_dumps env data_profiles = Returned b ->
  json_dumps env samples = Returned c ->
  load_instruction_template env = Returned template ->
  format env template a b c = Returned final_prompt ->
  CACHED_INSTRUCTIONS env =
    match log_startup_kpis env table_metadata data_profiles
            (token_count_or_zero env final_prompt) with
    | Returned _ => Returned final_prompt
    | Raised _ => Returned ""
    end.
Proof.
  intros Hmd Hdp Hsm Ha Hb Hc Hload Hformat.
  unfold CACHED_INSTRUCTIONS, _build_master_instructions, build_try, token_count_or_zero.
  rewrite Hmd. cbv [mbind Outcome_bind mret Outcome_ret]. cbv beta iota.
  rewrite Hdp. cbv beta iota.
  assert (match data_profiles with
          | [] => fetch_sample_data_for_tables env
          | _ :: _ => Returned []
          end = Returned samples) as -> by exact Hsm.
  cbv beta iota. rewrite Ha, Hb, Hc, Hload, Hformat.
  rewrite log_prompt_returns, save_returns.
  unfold attempt at 2.
  destruct (count_tokens env final_prompt) as [n|e];
    (destruct (log_startup_kpis env table_metadata data_profiles _) as [[]|e'];
     reflexivity).
Qed.

Lemma startup_prompt_assembled_witness :
  CACHED_INSTRUCTIONS sample_startup = Returned "Tables: sales;;row" /\
  CACHED_INSTRUCTIONS kpi_failing_startup = Returned "".
Proof.
  split.
  - exact (startup_prompt_assembled sample_startup ["sales"] [] ["row"]
             "sales" "" "row" "Tables: " "Tables: sales;;row"
             eq_refl eq_refl eq_refl eq_refl eq_refl eq_refl eq_refl eq_refl).
  - exact (startup_prompt_assembled kpi_failing_startup ["sales"] [] ["row"]
             "sales" "" "row" "Tables: " "Tables: sales;;row"
             eq_refl eq_refl eq_refl eq_refl eq_refl eq_refl eq_refl eq_refl).
Defined.

(** ** [logout] after [login] *)

(** X17: [logout] does not end a session.  After a [login] that answered
    200, a [logout] with any JSON object as body answers 200 with the same
    message, whether or not it names that session, and the store still
    holds the session whose identifier [login] gave out; a body that is not
    an object makes the view raise, and the store is kept as well. *)
Theorem logout_keeps_session app req_data store r :
  (login app req_data store).1 = Returned r ->
  status r = 200%Z ->
  forall req_data',
    let store' := (login app req_data store).2 in
    let out := logout req_data' store' in
    out.2 = store' /\
    (exists session,
        session ∈ sessions out.2 /\
        r = jsonify [("session_id", JStr (id session));
                     ("user_id", JStr (session_user_id session))] 200) /\
    match req_data' with
    | ReqDict _ _ _ => out.1 = Returned (jsonify [("message", JStr "Logout successful")] 200)
    | ReqNotDict => exists e, out.1 = Raised e
    end.
Proof.
  intros Hlogin Hstatus req_data' store' out.
  assert (out.2 = store') as Hkept.
  { subst out. unfold logout.
    cbv [mbind mret Eff_bind Eff_ret req_get_user_id req_get_session_id raise].
    destruct req_data'; reflexivity. }
  split; [exact Hkept|]. split.
  - rewrite Hkept. clear Hkept. subst store' out. revert Hlogin. unfold login.
    cbv [mbind mret Eff_bind Eff_ret getattr req_get_user_id try_except
         create_session raise].
    destruct (app_session_service app) as [|ss]; [discriminate|].
    destruct (app_runner app) as [|rn]; [discriminate|].
    destruct ss as [ss|]; [destruct rn as [rn|]|];
      try (simpl; intros [= <-]; discriminate Hstatus).
    destruct req_data as [|u s m]; [discriminate|].
    destruct (truthy (sanitize_for_log u)); simpl;
      [|intros [= <-]; discriminate Hstatus].
    destruct (new_session store (sessions store) (app_name rn) (sanitize_for_log u))
      as [sid|e]; simpl; intros [= <-]; [|discriminate Hstatus].
    exists {| session_app_name := app_name rn;
              session_user_id := sanitize_for_log u; id := sid |}.
    split; [|reflexivity].
    apply elem_of_app. right. apply list_elem_of_here.
  - subst out. unfold logout.
    cbv [mbind mret Eff_bind Eff_ret req_get_user_id req_get_session_id raise].
    destruct req_data'; [eexists|]; reflexivity.
Qed.

Lemma logout_keeps_session_witness :
  let store' := (login (sample_app []) (ReqDict (PyStr "ann") PyNone MsgAbsent) sample_store).2 in
  (logout (ReqDict (PyStr "ann") (PyStr "s1") MsgAbsent) store').2 = store' /\
  length (sessions store') = 1.
Proof.
  intros store'.
  destruct (logout_keeps_session (sample_app []) (ReqDict (PyStr "ann") PyNone MsgAbsent)
              sample_store _ eq_refl eq_refl
              (ReqDict (PyStr "ann") (PyStr "s1") MsgAbsent)) as (Hkept & _).
  split; [exact Hkept | reflexivity].
Defined.

(** ** The chat view on the application object *)

